(** * Point-of-sale back-end: orders, inventory ledger and payments

    A shallow embedding of the order, inventory and payment handlers of
    [server.py] ([create_order], [get_orders], [process_payment]) together
    with the properties stated about them, followed by the account, catalog
    and customer handlers and the user seeding of [seed_data.py].

    - Documents are records; a MongoDB collection is the list of its
      documents in insertion order.  [find_one] returns the first match,
      [update_one] rewrites the first match, [insert_one] appends.
    - Python [int] is [Z]; [str] is [string]; [Optional[t]] is [option t];
      a [datetime] is its number of microseconds since the epoch.
    - The handlers run in a state-and-exception monad over the database.
      An exception leaves the writes made before it in place (the store has
      no transaction), so "nothing was written" is a theorem, not a
      convention.
    - A document reaches the store through the driver's encoder: an [int]
      outside 8 bytes makes the call raise [OverflowError] before anything
      is sent, and a [datetime] is stored in whole milliseconds.  The
      server refuses an [$inc] whose result would leave 8 bytes.  The
      connection to the server and its resource limits are not modelled:
      a command that the driver encodes is carried out.
    - [uuid.uuid4()], [datetime.now()] and [datetime.fromisoformat] are
      supplied by an environment record [Env]; the handlers count the calls
      they make to the first two.
    - The tax computation [int(subtotal * 0.08)] is IEEE-754 binary64
      arithmetic; it is modelled with the Standard Library's [SpecFloat]. *)

From Stdlib Require Import ZArith List String Ascii Bool Lia.
From Stdlib Require Import Sorting.Sorted Sorting.Permutation.
From Stdlib Require Import Floats.SpecFloat.
From Stdlib Require Import Decimal DecimalString.
Import ListNotations.

#[local] Open Scope string_scope.
#[local] Open Scope Z_scope.

(* ================================================================== *)
(** ** Python values *)

(** Truthiness of an [Optional[str]]: [None] and [""] are falsy. *)
Definition truthy_str (o : option string) : bool :=
  match o with
  | Some s => negb (s =? "")%string
  | None => false
  end.

(** Truthiness of an [Optional[int]]: [None] and [0] are falsy. *)
Definition truthy_int (o : option Z) : bool :=
  match o with
  | Some n => negb (n =? 0)
  | None => false
  end.

(** [s.replace(c, by)] for a one-character pattern. *)
Fixpoint replace (c : ascii) (by_ : string) (s : string) : string :=
  match s with
  | EmptyString => EmptyString
  | String a s' =>
      if Ascii.eqb a c then by_ ++ replace c by_ s'
      else String a (replace c by_ s')
  end.

Definition upper_ascii (a : ascii) : ascii :=
  let n := nat_of_ascii a in
  if (andb (Nat.leb 97 n) (Nat.leb n 122)) then ascii_of_nat (n - 32) else a.

(** [s.upper()] on ASCII text. *)
Fixpoint upper (s : string) : string :=
  match s with
  | EmptyString => EmptyString
  | String a s' => String (upper_ascii a) (upper s')
  end.

(** [sum(xs)] over Python integers. *)
Definition sum (xs : list Z) : Z := fold_left Z.add xs 0.

(* ================================================================== *)
(** ** What the store holds (BSON)

    The driver encodes every document and every update document before it
    sends it.  A Python [int] has to fit 8 bytes, signed; one that does
    not makes the call raise [OverflowError], and nothing is sent.  A
    [datetime] is encoded as the whole milliseconds since the epoch: what
    is below a millisecond is dropped, in a stored stamp and in the bound
    of a query alike. *)

Module Bson.

(** An [int] the driver encodes. *)
Definition int64 (n : Z) : bool := (- 2 ^ 63 <=? n) && (n <? 2 ^ 63).

Definition opt_int64 (o : option Z) : bool :=
  match o with
  | Some n => int64 n
  | None => true
  end.

(** The milliseconds a [datetime], given in microseconds, is encoded
    as. *)
Definition millis (t : Z) : Z := t / 1000.

(** The [datetime] read back from the store. *)
Definition datetime (t : Z) : Z := millis t * 1000.

End Bson.

(* ================================================================== *)
(** ** Binary64 arithmetic: [int * float] and [int(float)] *)

Module Float.

Definition prec : Z := 53.
Definition emax : Z := 1024.

(** The literal [0.08]: the double nearest to 8/100,
    [0x1.47ae147ae147bp-4]. *)
Definition m008 : positive := 5764607523034235%positive.
Definition tax_rate : spec_float := S754_finite false m008 (-56).

(** Conversion of a Python [int] to [float], as the mixed product
    [int * float] performs it: correctly rounded (to nearest, ties to
    even); [OverflowError] ([None]) when the integer is too large. *)
Definition of_int (n : Z) : option spec_float :=
  match binary_normalize prec emax n 0 false with
  | S754_infinity _ | S754_nan => None
  | f => Some f
  end.

Definition mul (x y : spec_float) : spec_float := SFmul prec emax x y.

(** [int(x)]: truncation toward zero; [OverflowError] on an infinity and
    [ValueError] on a NaN (both [None]). *)
Definition to_int (x : spec_float) : option Z :=
  match x with
  | S754_zero _ => Some 0
  | S754_finite s m e =>
      let a := match e with
               | Zneg k => Z.pos m / Z.pow_pos 2 k
               | _ => Z.pos m * 2 ^ e
               end in
      Some (if s then - a else a)
  | S754_infinity _ | S754_nan => None
  end.

(** [int(n * 0.08)]. *)
Definition int_mul_rate (n : Z) : option Z :=
  match of_int n with
  | Some x => to_int (mul x tax_rate)
  | None => None
  end.

End Float.

(* ================================================================== *)
(** ** Documents (the pydantic models) *)

Module User.
Record t := mk {
  id : string;
  username : string;
  pin : string;
  role : string;
  full_name : string;
  is_approved : bool
}.
End User.

Module Product.
Record t := mk {
  id : string;
  name : string;
  price : Z;
  category : string;
  sku : string;
  barcode : option string;
  stock_quantity : Z;
  min_stock_level : Z;
  cost_price : option Z;
  is_active : bool
}.

(** The update document [{"$inc": {"stock_quantity": d}}]. *)
Definition inc_stock_quantity (d : Z) (p : t) : t :=
  mk (id p) (name p) (price p) (category p) (sku p) (barcode p)
     (stock_quantity p + d) (min_stock_level p) (cost_price p) (is_active p).

(** The driver encodes the document: its integers fit 8 bytes. *)
Definition encodable (p : t) : bool :=
  Bson.int64 (price p) && Bson.int64 (stock_quantity p)
  && Bson.int64 (min_stock_level p) && Bson.opt_int64 (cost_price p).
End Product.

Module Customer.
Record t := mk {
  id : string;
  name : string;
  email : option string;
  phone : option string;
  loyalty_points : Z;
  total_spent : Z
}.

(** The update document
    [{"$inc": {"total_spent": a, "loyalty_points": p}}]. *)
Definition inc_spent_points (a p : Z) (c : t) : t :=
  mk (id c) (name c) (email c) (phone c)
     (loyalty_points c + p) (total_spent c + a).

Definition encodable (c : t) : bool :=
  Bson.int64 (loyalty_points c) && Bson.int64 (total_spent c).
End Customer.

Module OrderItem.
Record t := mk {
  product_id : string;
  product_name : string;
  quantity : Z;
  unit_price : Z;
  total_price : Z
}.

Definition encodable (it : t) : bool :=
  Bson.int64 (quantity it) && Bson.int64 (unit_price it)
  && Bson.int64 (total_price it).
End OrderItem.

Module Order.
Record t := mk {
  id : string;
  order_number : string;
  customer_id : option string;
  customer_name : option string;
  items : list OrderItem.t;
  subtotal : Z;
  tax_amount : Z;
  discount_amount : Z;
  total_amount : Z;
  payment_method : string;
  payment_status : string;
  square_payment_id : option string;
  cashier_id : string;
  cashier_name : string;
  notes : option string;
  created_at : Z;
  updated_at : Z
}.

(** The update document [{"$set": {"payment_status": st,
    "square_payment_id": pid, "updated_at": now}}]. *)
Definition set_payment (st pid : string) (now : Z) (o : t) : t :=
  mk (id o) (order_number o) (customer_id o) (customer_name o) (items o)
     (subtotal o) (tax_amount o) (discount_amount o) (total_amount o)
     (payment_method o) st (Some pid) (cashier_id o) (cashier_name o)
     (notes o) (created_at o) now.

(** The driver encodes the document: the integers of its lines and its
    four amounts fit 8 bytes. *)
Definition encodable (o : t) : bool :=
  forallb OrderItem.encodable (items o)
  && Bson.int64 (subtotal o) && Bson.int64 (tax_amount o)
  && Bson.int64 (discount_amount o) && Bson.int64 (total_amount o).

(** The document as the store holds it and gives it back: the two stamps
    in whole milliseconds. *)
Definition stored (o : t) : t :=
  mk (id o) (order_number o) (customer_id o) (customer_name o) (items o)
     (subtotal o) (tax_amount o) (discount_amount o) (total_amount o)
     (payment_method o) (payment_status o) (square_payment_id o)
     (cashier_id o) (cashier_name o) (notes o)
     (Bson.datetime (created_at o)) (Bson.datetime (updated_at o)).
End Order.

Module OrderCreate.
Record t := mk {
  customer_id : option string;
  items : list OrderItem.t;
  payment_method : string;
  discount_amount : Z;
  notes : option string
}.
End OrderCreate.

Module PaymentRequest.
Record t := mk {
  order_id : string;
  payment_method : string;
  amount : Z;
  cash_received : option Z;
  payment_token : option string
}.
End PaymentRequest.

Module InventoryMovement.
Record t := mk {
  id : string;
  product_id : string;
  movement_type : string;
  quantity : Z;
  reference_id : option string;
  notes : option string;
  user_id : string;
  created_at : Z
}.

Definition encodable (m : t) : bool := Bson.int64 (quantity m).

Definition stored (m : t) : t :=
  mk (id m) (product_id m) (movement_type m) (quantity m) (reference_id m)
     (notes m) (user_id m) (Bson.datetime (created_at m)).
End InventoryMovement.

(** The dictionary [process_payment] returns; [change_due] is present only
    on the cash path. *)
Module PaymentResponse.
Record t := mk {
  payment_id : string;
  status : string;
  amount : Z;
  order_id : string;
  change_due : option Z
}.
End PaymentResponse.

(* ================================================================== *)
(** ** The document store *)

Module DB.
Record t := mk {
  users : list User.t;
  products : list Product.t;
  customers : list Customer.t;
  orders : list Order.t;
  inventory_movements : list InventoryMovement.t
}.

Definition with_products (f : list Product.t -> list Product.t) (d : t) :=
  mk (users d) (f (products d)) (customers d) (orders d)
     (inventory_movements d).
Definition with_customers (f : list Customer.t -> list Customer.t) (d : t) :=
  mk (users d) (products d) (f (customers d)) (orders d)
     (inventory_movements d).
Definition with_orders (f : list Order.t -> list Order.t) (d : t) :=
  mk (users d) (products d) (customers d) (f (orders d))
     (inventory_movements d).
Definition with_inventory_movements
  (f : list InventoryMovement.t -> list InventoryMovement.t) (d : t) :=
  mk (users d) (products d) (customers d) (orders d)
     (f (inventory_movements d)).
End DB.

(** Collection primitives over the list of documents: what the server
    does with a command that reached it.  The handlers put the driver's
    encoding in front of every write whose document carries an [int] or a
    [datetime] of the records; the documents of the users carry
    neither. *)
Module Coll.
Section Ops.
Context {A : Type}.

(** [find_one(q)]: the first document matching [q], if any. *)
Definition find_one (q : A -> bool) (c : list A) : option A := find q c.

(** [insert_one(d)]. *)
Definition insert_one (d : A) (c : list A) : list A := c ++ [d].

(** [update_one(q, u)]: apply [u] to the first document matching [q];
    a collection without a match is left as it is. *)
Fixpoint update_one (q : A -> bool) (u : A -> A) (c : list A) : list A :=
  match c with
  | [] => []
  | d :: c' => if q d then u d :: c' else d :: update_one q u c'
  end.
End Ops.

Section Cursor.
Context {A : Type}.
Variable key : A -> Z.

Fixpoint insert_desc (d : A) (c : list A) : list A :=
  match c with
  | [] => [d]
  | d' :: c' =>
      if key d' <=? key d then d :: c else d' :: insert_desc d c'
  end.

(** [.sort(key, -1)]: descending on [key]; documents with equal keys
    keep their collection order. *)
Fixpoint sort_desc (c : list A) : list A :=
  match c with
  | [] => []
  | d :: c' => insert_desc d (sort_desc c')
  end.

(** The order [sort_desc] leaves the documents in: no document is followed
    by one with a larger key. *)
Definition desc (a b : A) : Prop := key b <= key a.

(** [.to_list(length=n)]: at most the first [n] documents. *)
Definition to_list (n : nat) (c : list A) : list A := firstn n c.
End Cursor.
End Coll.

(* ================================================================== *)
(** ** Exceptions, environment and the handler monad *)

(** Besides the [HTTPException]s that the handlers raise themselves, two
    exceptions come from below and are caught by no handler (they reach
    the client as status 500): Python's [OverflowError], from the
    conversion of an [int] to [float] and from the driver for an [int]
    outside 8 bytes; and the driver's [OperationFailure], for a command
    the server refused (an [$inc] out of range, a malformed [$regex]). *)
Inductive exn : Type :=
| HTTPException (status_code : Z) (detail : string)
| OverflowError
| OperationFailure.

(** The names the design document gives to the rejections. *)
Definition NotFound : exn := HTTPException 404 "Order not found".
Definition AlreadyPaid : exn := HTTPException 400 "Order already paid".
Definition PaymentRejected : exn :=
  HTTPException 400 "Insufficient cash received".
Definition ValidationError : exn := HTTPException 400 "Invalid date format".

(** What the handlers take from outside: the [k]-th value drawn from
    [uuid.uuid4()] or from the clock, and the standard library's ISO-8601
    parser ([None] stands for its [ValueError]). *)
Record Env := {
  env_uuid4 : nat -> string;
  env_utcnow : nat -> Z;
  env_strftime_now : nat -> string;
  env_fromisoformat : string -> option Z
}.

(** The store together with the number of draws made so far. *)
Record World := { db : DB.t; draws : nat }.

Inductive result (A : Type) : Type :=
| Ok (a : A)
| Raise (e : exn).
Arguments Ok {A} a.
Arguments Raise {A} e.

Definition M (A : Type) : Type := World -> result A * World.

Definition ret {A} (a : A) : M A := fun w => (Ok a, w).

Definition bind {A B} (m : M A) (k : A -> M B) : M B :=
  fun w =>
    match m w with
    | (Ok a, w') => k a w'
    | (Raise e, w') => (Raise e, w')
    end.

Definition raise {A} (e : exn) : M A := fun w => (Raise e, w).

Declare Scope monad_scope.
Delimit Scope monad_scope with monad.
Notation "x <- m ;; k" := (bind m (fun x => k))
  (at level 61, m at next level, right associativity) : monad_scope.
Notation "m ;;; k" := (bind m (fun _ => k))
  (at level 61, right associativity) : monad_scope.
#[local] Open Scope monad_scope.

(** A read of the store. *)
Definition query {A} (f : DB.t -> A) : M A := fun w => (Ok (f (db w)), w).

(** A write to the store. *)
Definition write (f : DB.t -> DB.t) : M unit :=
  fun w => (Ok tt, {| db := f (db w); draws := draws w |}).

(** A draw from the environment. *)
Definition draw {A} (f : nat -> A) : M A :=
  fun w => (Ok (f (draws w)), {| db := db w; draws := S (draws w) |}).

(** [for x in xs: body(x)]. *)
Fixpoint for_each {A} (xs : list A) (body : A -> M unit) : M unit :=
  match xs with
  | [] => ret tt
  | x :: xs' => body x ;;; for_each xs' body
  end.

(* ================================================================== *)
(** ** The handlers *)

Section Handlers.
Variable env : Env.

Definition uuid4 : M string := draw (env_uuid4 env).
Definition utcnow : M Z := draw (env_utcnow env).
Definition strftime_now : M string := draw (env_strftime_now env).

(** [generate_order_number]. *)
Definition generate_order_number : M string :=
  timestamp <- strftime_now ;;
  u <- uuid4 ;;
  let random_suffix := upper (substring 0 8 u) in
  ret ("ORD-" ++ timestamp ++ "-" ++ random_suffix).

(** [Order(...)]: the constructor draws [id], [created_at] and
    [updated_at] from their default factories; [payment_status] and
    [square_payment_id] take their defaults. *)
Definition new_Order (order_number : string)
    (customer_id customer_name : option string) (items : list OrderItem.t)
    (subtotal tax_amount discount_amount total_amount : Z)
    (payment_method cashier_id cashier_name : string)
    (notes : option string) : M Order.t :=
  i <- uuid4 ;;
  created <- utcnow ;;
  updated <- utcnow ;;
  ret (Order.mk i order_number customer_id customer_name items subtotal
         tax_amount discount_amount total_amount payment_method "pending"
         None cashier_id cashier_name notes created updated).

(** [InventoryMovement(...)]. *)
Definition new_InventoryMovement (product_id movement_type : string)
    (quantity : Z) (reference_id : option string) (user_id : string)
    : M InventoryMovement.t :=
  i <- uuid4 ;;
  created <- utcnow ;;
  ret (InventoryMovement.mk i product_id movement_type quantity
         reference_id None user_id created).

(** [int(subtotal * tax_rate)]. *)
Definition int_mul_tax_rate (subtotal : Z) : M Z :=
  match Float.int_mul_rate subtotal with
  | Some t => ret t
  | None => raise OverflowError
  end.

(** [db.orders.insert_one(order.dict())]. *)
Definition insert_order (order : Order.t) : M unit :=
  if Order.encodable order
  then write (DB.with_orders (Coll.insert_one (Order.stored order)))
  else raise OverflowError.

(** [db.inventory_movements.insert_one(movement.dict())]. *)
Definition insert_inventory_movement (movement : InventoryMovement.t)
    : M unit :=
  if InventoryMovement.encodable movement
  then write (DB.with_inventory_movements
                (Coll.insert_one (InventoryMovement.stored movement)))
  else raise OverflowError.

(** [db.products.update_one({"id": i}, {"$inc": {"stock_quantity": d}})]:
    the driver encodes [d]; the server adds it to the stock of the first
    product under [i], if there is one, and refuses a sum outside
    8 bytes. *)
Definition inc_product_stock (i : string) (d : Z) : M unit :=
  if negb (Bson.int64 d) then raise OverflowError
  else
    found <- query (fun db =>
               Coll.find_one (fun p => (Product.id p =? i)%string)
                 (DB.products db)) ;;
    match found with
    | Some p =>
        if Bson.int64 (Product.stock_quantity p + d)
        then write (DB.with_products
                      (Coll.update_one
                         (fun p => (Product.id p =? i)%string)
                         (Product.inc_stock_quantity d)))
        else raise OperationFailure
    | None => ret tt
    end.

(** The body of the inventory loop of [create_order], for one line. *)
Definition update_inventory (order : Order.t) (current_user : User.t)
    (item : OrderItem.t) : M unit :=
  inc_product_stock (OrderItem.product_id item) (- OrderItem.quantity item) ;;;
  movement <- new_InventoryMovement (OrderItem.product_id item) "sale"
                (- OrderItem.quantity item) (Some (Order.id order))
                (User.id current_user) ;;
  insert_inventory_movement movement.

(** [create_order]: POST /orders. *)
Definition create_order (order_data : OrderCreate.t) (current_user : User.t)
    : M Order.t :=
  let subtotal := sum (map OrderItem.total_price (OrderCreate.items order_data)) in
  tax_amount <- int_mul_tax_rate subtotal ;;
  let total_amount :=
    subtotal + tax_amount - OrderCreate.discount_amount order_data in
  customer_name <-
    (if truthy_str (OrderCreate.customer_id order_data) then
       customer <- query (fun d =>
                     Coll.find_one
                       (fun c => match OrderCreate.customer_id order_data with
                                 | Some i => (Customer.id c =? i)%string
                                 | None => false
                                 end)
                       (DB.customers d)) ;;
       ret (match customer with
            | Some c => Some (Customer.name c)
            | None => None
            end)
     else ret None) ;;
  order_number <- generate_order_number ;;
  order <- new_Order order_number (OrderCreate.customer_id order_data)
             customer_name (OrderCreate.items order_data) subtotal
             tax_amount (OrderCreate.discount_amount order_data)
             total_amount (OrderCreate.payment_method order_data)
             (User.id current_user) (User.full_name current_user)
             (OrderCreate.notes order_data) ;;
  insert_order order ;;;
  for_each (OrderCreate.items order_data)
    (update_inventory order current_user) ;;;
  ret order.

(** The filter document of [get_orders]: empty, or a closed range on
    [created_at].  The bounds are encoded like every [datetime], so the
    comparison is one of whole milliseconds. *)
Definition matches (q : option (Z * Z)) (o : Order.t) : bool :=
  match q with
  | None => true
  | Some (from_date, to_date) =>
      (Bson.millis from_date <=? Bson.millis (Order.created_at o))
      && (Bson.millis (Order.created_at o) <=? Bson.millis to_date)
  end.

Definition parse_date (s : string) : M Z :=
  match env_fromisoformat env (replace "Z" "+00:00" s) with
  | Some t => ret t
  | None => raise ValidationError
  end.

(** [get_orders]: GET /orders. *)
Definition get_orders (date_from date_to : option string)
    : M (list Order.t) :=
  q <- (if truthy_str date_from && truthy_str date_to then
          match date_from, date_to with
          | Some f, Some t =>
              from_date <- parse_date f ;;
              to_date <- parse_date t ;;
              ret (Some (from_date, to_date))
          | _, _ => ret None
          end
        else ret None) ;;
  query (fun d =>
    Coll.to_list 100
      (Coll.sort_desc Order.created_at (filter (matches q) (DB.orders d)))).

(** [get_order]: GET /orders/{order_id}.  The order is the stored
    document. *)
Definition get_order (order_id : string) : M Order.t :=
  order <- query (fun d =>
             Coll.find_one (fun o => (Order.id o =? order_id)%string)
               (DB.orders d)) ;;
  match order with
  | None => raise NotFound
  | Some o => ret o
  end.

(** [cash_received and cash_received >= amount]. *)
Definition cash_covers (cash_received : option Z) (amount : Z) : bool :=
  truthy_int cash_received &&
  match cash_received with
  | Some c => amount <=? c
  | None => false
  end.

(** [db.customers.update_one({"id": customer_id}, {"$inc":
    {"total_spent": a, "loyalty_points": p}})]: the driver encodes [a] and
    [p]; the server adds them to the first customer under the id, if there
    is one, and refuses a sum outside 8 bytes. *)
Definition inc_customer_spent_points (customer_id : option string)
    (a p : Z) : M unit :=
  let by_id := fun c => match customer_id with
                        | Some i => (Customer.id c =? i)%string
                        | None => false
                        end in
  if negb (Bson.int64 a && Bson.int64 p) then raise OverflowError
  else
    found <- query (fun d => Coll.find_one by_id (DB.customers d)) ;;
    match found with
    | Some c =>
        if Bson.int64 (Customer.total_spent c + a)
           && Bson.int64 (Customer.loyalty_points c + p)
        then write (DB.with_customers
                      (Coll.update_one by_id (Customer.inc_spent_points a p)))
        else raise OperationFailure
    | None => ret tt
    end.

(** [process_payment]: POST /payments/process. *)
Definition process_payment (payment_data : PaymentRequest.t)
    : M PaymentResponse.t :=
  let by_id := fun o =>
    (Order.id o =? PaymentRequest.order_id payment_data)%string in
  let amount := PaymentRequest.amount payment_data in
  let cash_received := PaymentRequest.cash_received payment_data in
  let is_cash :=
    (PaymentRequest.payment_method payment_data =? "cash")%string in
  found <- query (fun d => Coll.find_one by_id (DB.orders d)) ;;
  match found with
  | None => raise NotFound
  | Some order =>
      if (Order.payment_status order =? "completed")%string
      then raise AlreadyPaid
      else
        u <- uuid4 ;;
        let payment_id := "pay_" ++ substring 0 8 u in
        payment_status <-
          (if is_cash then
             if cash_covers cash_received amount then ret "completed"
             else raise PaymentRejected
           else ret "completed") ;;
        now <- utcnow ;;
        write (DB.with_orders
                 (Coll.update_one by_id
                    (Order.set_payment payment_status payment_id
                       (Bson.datetime now)))) ;;;
        (if truthy_str (Order.customer_id order) then
           inc_customer_spent_points (Order.customer_id order) amount
             (amount / 100)
         else ret tt) ;;;
        ret (PaymentResponse.mk payment_id payment_status amount
               (PaymentRequest.order_id payment_data)
               (if is_cash && truthy_int cash_received then
                  match cash_received with
                  | Some c => Some (c - amount)
                  | None => None
                  end
                else None))
  end.

(** A run of [process_payment] calls, each from the world the previous
    one left, whether it returned or raised. *)
Fixpoint process_payments (ps : list PaymentRequest.t) (w : World) : World :=
  match ps with
  | [] => w
  | p :: ps' => process_payments ps' (snd (process_payment p w))
  end.

End Handlers.

(* ================================================================== *)
(** ** Vocabulary of the statements *)

(** The value a run returned, if it returned. *)
Definition returned {A} (r : result A * World) : option A :=
  match fst r with
  | Ok a => Some a
  | Raise _ => None
  end.

(** The exception a run raised, if it raised. *)
Definition raised {A} (r : result A * World) : option exn :=
  match fst r with
  | Ok _ => None
  | Raise e => Some e
  end.

Definition by_product_id (i : string) (p : Product.t) : bool :=
  (Product.id p =? i)%string.
Definition by_customer_id (i : string) (c : Customer.t) : bool :=
  (Customer.id c =? i)%string.
Definition by_order_id (i : string) (o : Order.t) : bool :=
  (Order.id o =? i)%string.

(** Stock on hand of the product document that [find_one({"id": i})]
    selects. *)
Definition stock_of (i : string) (ps : list Product.t) : option Z :=
  option_map Product.stock_quantity (Coll.find_one (by_product_id i) ps).

(** Units of product [i] ordered by a cart, over all its lines. *)
Fixpoint ordered_quantity (i : string) (items : list OrderItem.t) : Z :=
  match items with
  | [] => 0
  | it :: items' =>
      (if (OrderItem.product_id it =? i)%string then OrderItem.quantity it
       else 0) + ordered_quantity i items'
  end.

(** [m] is the ledger entry of line [it] of order [o] rung up by [u]. *)
Definition sale_movement_of (o : Order.t) (u : User.t) (it : OrderItem.t)
    (m : InventoryMovement.t) : Prop :=
  InventoryMovement.product_id m = OrderItem.product_id it /\
  InventoryMovement.movement_type m = "sale" /\
  InventoryMovement.quantity m = - OrderItem.quantity it /\
  InventoryMovement.reference_id m = Some (Order.id o) /\
  InventoryMovement.user_id m = User.id u.

(** What a payment may do to a stored order: keep its status, or move it
    from a status other than completed to completed.  Nothing but the
    status, the payment reference and [updated_at] changes. *)
Definition settles (o o' : Order.t) : Prop :=
  Order.id o' = Order.id o /\
  Order.items o' = Order.items o /\
  Order.total_amount o' = Order.total_amount o /\
  Order.customer_id o' = Order.customer_id o /\
  (Order.payment_status o' = Order.payment_status o \/
   (Order.payment_status o <> "completed" /\
    Order.payment_status o' = "completed")).

(** Newest first. *)
Definition newer_or_same : Order.t -> Order.t -> Prop :=
  Coll.desc Order.created_at.

(** A date bound that the handler's parser rejects. *)
Definition malformed (env : Env) (s : string) : Prop :=
  env_fromisoformat env (replace "Z" "+00:00" s) = None.

(** The page [get_orders] returns for a filter: the matching orders,
    newest first, cut at 100. *)
Definition listing (q : option (Z * Z)) (d : DB.t) : list Order.t :=
  Coll.to_list 100
    (Coll.sort_desc Order.created_at (filter (matches q) (DB.orders d))).

(** The products collection after the stock decrements of a cart, line by
    line. *)
Definition decrement_stock (items : list OrderItem.t)
    (ps : list Product.t) : list Product.t :=
  fold_left
    (fun ps it =>
       Coll.update_one (by_product_id (OrderItem.product_id it))
         (Product.inc_stock_quantity (- OrderItem.quantity it)) ps)
    items ps.

(** The ledger entries of a cart as they are stored, the first one built
    from draw [k] on. *)
Fixpoint sale_movements (env : Env) (o : Order.t) (u : User.t) (k : nat)
    (items : list OrderItem.t) : list InventoryMovement.t :=
  match items with
  | [] => []
  | it :: items' =>
      InventoryMovement.mk (env_uuid4 env k) (OrderItem.product_id it) "sale"
        (- OrderItem.quantity it) (Some (Order.id o)) None (User.id u)
        (Bson.datetime (env_utcnow env (S k)))
      :: sale_movements env o u (S (S k)) items'
  end.

(** The customer name [create_order] snapshots. *)
Definition customer_name_of (od : OrderCreate.t) (d : DB.t) : option string :=
  match OrderCreate.customer_id od with
  | Some i =>
      if negb (i =? "")%string
      then option_map Customer.name
             (Coll.find_one (by_customer_id i) (DB.customers d))
      else None
  | None => None
  end.

(** The order [create_order] builds from draw [k] on, and returns, given
    the tax it computed. *)
Definition placed_order (env : Env) (od : OrderCreate.t) (u : User.t)
    (d : DB.t) (k : nat) (tax : Z) : Order.t :=
  let subtotal := sum (map OrderItem.total_price (OrderCreate.items od)) in
  Order.mk (env_uuid4 env (S (S k)))
    ("ORD-" ++ env_strftime_now env k ++ "-"
       ++ upper (substring 0 8 (env_uuid4 env (S k))))
    (OrderCreate.customer_id od) (customer_name_of od d)
    (OrderCreate.items od) subtotal tax (OrderCreate.discount_amount od)
    (subtotal + tax - OrderCreate.discount_amount od)
    (OrderCreate.payment_method od) "pending" None (User.id u)
    (User.full_name u) (OrderCreate.notes od)
    (env_utcnow env (S (S (S k)))) (env_utcnow env (S (S (S (S k))))).

(** [floor(subtotal * 0.08)] in exact arithmetic. *)
Definition floor_tax (subtotal : Z) : Z := (subtotal * 8) / 100.

(** [subtotal * 0.08] rounded toward zero, in exact arithmetic. *)
Definition trunc_tax (subtotal : Z) : Z := Z.quot (subtotal * 8) 100.

(** The first subtotal at which rounding in binary64 shows in the tax. *)
Definition exact_tax_bound : Z := 5254199565265587.

(** The exception that the stock decrement of a line raises from the
    products [ps], if it raises: the driver's for a quantity whose
    negation it does not encode, the server's for a stock that would
    leave 8 bytes. *)
Definition line_exn (ps : list Product.t) (it : OrderItem.t) : option exn :=
  let d := - OrderItem.quantity it in
  if negb (Bson.int64 d) then Some OverflowError
  else
    match Coll.find_one (by_product_id (OrderItem.product_id it)) ps with
    | Some p =>
        if Bson.int64 (Product.stock_quantity p + d) then None
        else Some OperationFailure
    | None => None
    end.

(** The products after the stock decrement of a line. *)
Definition decrement_line (it : OrderItem.t) (ps : list Product.t)
    : list Product.t :=
  Coll.update_one (by_product_id (OrderItem.product_id it))
    (Product.inc_stock_quantity (- OrderItem.quantity it)) ps.

(** The lines of a cart that the inventory loop gets through from the
    products [ps]: all of them, or those before the first line whose
    decrement raises. *)
Fixpoint lines_done (ps : list Product.t) (items : list OrderItem.t)
    : list OrderItem.t :=
  match items with
  | [] => []
  | it :: items' =>
      match line_exn ps it with
      | None => it :: lines_done (decrement_line it ps) items'
      | Some _ => []
      end
  end.

(** The exception that stops the inventory loop, if one does. *)
Fixpoint lines_exn (ps : list Product.t) (items : list OrderItem.t)
    : option exn :=
  match items with
  | [] => None
  | it :: items' =>
      match line_exn ps it with
      | None => lines_exn (decrement_line it ps) items'
      | Some e => Some e
      end
  end.

(** What the customer increment of a payment makes of the store [d], and
    the exception it raises if it raises. *)
Definition credit (i : string) (amount : Z) (d : DB.t)
    : option exn * DB.t :=
  if negb (Bson.int64 amount && Bson.int64 (amount / 100))
  then (Some OverflowError, d)
  else
    match Coll.find_one (by_customer_id i) (DB.customers d) with
    | Some c =>
        if Bson.int64 (Customer.total_spent c + amount)
           && Bson.int64 (Customer.loyalty_points c + amount / 100)
        then (None,
              DB.with_customers
                (Coll.update_one (by_customer_id i)
                   (Customer.inc_spent_points amount (amount / 100))) d)
        else (Some OperationFailure, d)
    | None => (None, d)
    end.

(* ================================================================== *)
(** ** A concrete environment and store for the examples *)

Module Sample.

Definition digit (a : ascii) : option Z :=
  let n := nat_of_ascii a in
  if (Nat.leb 48 n && Nat.leb n 57)%bool then Some (Z.of_nat (n - 48))
  else None.

(** Exactly [k] decimal digits. *)
Fixpoint digits (k : nat) (acc : Z) (s : string) : option (Z * string) :=
  match k, s with
  | O, _ => Some (acc, s)
  | S k', String a s' =>
      match digit a with
      | Some d => digits k' (10 * acc + d) s'
      | None => None
      end
  | S _, EmptyString => None
  end.

Definition expect (c : ascii) (s : string) : option string :=
  match s with
  | String a s' => if Ascii.eqb a c then Some s' else None
  | EmptyString => None
  end.

Definition is_leap (y : Z) : bool :=
  ((y mod 4 =? 0) && negb (y mod 100 =? 0)) || (y mod 400 =? 0).

Definition days_in_month (y m : Z) : Z :=
  if m =? 2 then (if is_leap y then 29 else 28)
  else if (m =? 4) || (m =? 6) || (m =? 9) || (m =? 11) then 30
  else 31.

(** Days from 1970-01-01 to the given proleptic Gregorian date. *)
Definition days_from_civil (y m d : Z) : Z :=
  let y' := if m <=? 2 then y - 1 else y in
  let era := y' / 400 in
  let yoe := y' - era * 400 in
  let doy := (153 * (if 2 <? m then m - 3 else m + 9) + 2) / 5 + d - 1 in
  let doe := yoe * 365 + yoe / 4 - yoe / 100 + doy in
  era * 146097 + doe - 719468.

Definition obind {A B} (o : option A) (k : A -> option B) : option B :=
  match o with
  | Some a => k a
  | None => None
  end.

Definition hh_mm (s : string) : option (Z * string) :=
  obind (digits 2 0 s) (fun '(h, s) =>
  obind (expect ":" s) (fun s =>
  obind (digits 2 0 s) (fun '(mi, s) =>
  if (h <? 24) && (mi <? 60) then Some (h * 3600 + mi * 60, s) else None))).

Definition utc_offset (s : string) : option Z :=
  match s with
  | EmptyString => Some 0
  | String sign s' =>
      obind (hh_mm s') (fun '(off, rest) =>
      match rest with
      | EmptyString =>
          if Ascii.eqb sign "+" then Some off
          else if Ascii.eqb sign "-" then Some (- off)
          else None
      | _ => None
      end)
  end.

Definition time_of_day (s : string) : option Z :=
  match s with
  | EmptyString => Some 0
  | String _ s' =>
      obind (hh_mm s') (fun '(t, s) =>
      obind (expect ":" s) (fun s =>
      obind (digits 2 0 s) (fun '(sec, s) =>
      obind (utc_offset s) (fun off =>
      if sec <? 60 then Some (t + sec - off) else None))))
  end.

(** The forms [YYYY-MM-DD], [YYYY-MM-DDTHH:MM:SS] and
    [YYYY-MM-DDTHH:MM:SS+HH:MM] of [datetime.fromisoformat], as
    microseconds since the epoch. *)
Definition fromisoformat (s : string) : option Z :=
  obind (digits 4 0 s) (fun '(y, s) =>
  obind (expect "-" s) (fun s =>
  obind (digits 2 0 s) (fun '(m, s) =>
  obind (expect "-" s) (fun s =>
  obind (digits 2 0 s) (fun '(d, s) =>
  obind (time_of_day s) (fun t =>
  if (1 <=? m) && (m <=? 12) && (1 <=? d) && (d <=? days_in_month y m)
  then Some ((days_from_civil y m d * 86400 + t) * 1000000)
  else None)))))).

Definition pad8 (k : nat) : string :=
  let s := NilEmpty.string_of_uint (Nat.to_uint k) in
  substring 0 (8 - String.length s) "00000000" ++ s.

Definition env : Env := {|
  env_uuid4 := fun k => pad8 k ++ "-7d4c-4e1b-9a3f-5b2e8c6d1f0a";
  env_utcnow := fun k => 1793724420000000 + Z.of_nat k;
  env_strftime_now := fun _ => "20261103164700";
  env_fromisoformat := fromisoformat
|}.

Definition cashier : User.t :=
  User.mk "u-1" "cashier1" "5678" "employee" "John Cashier" true.

Definition espresso : Product.t :=
  Product.mk "P1" "Espresso" 350 "Coffee" "COF-001" None 100 5 (Some 120)
    true.
Definition muffin : Product.t :=
  Product.mk "P2" "Muffin" 275 "Bakery" "BAK-001" None 40 5 None true.

Definition alice : Customer.t :=
  Customer.mk "C1" "Alice" None None 12 4300.
Definition bob : Customer.t :=
  Customer.mk "C2" "Bob" None None 0 0.

Definition line (p : Product.t) (q : Z) : OrderItem.t :=
  OrderItem.mk (Product.id p) (Product.name p) q (Product.price p)
    (q * Product.price p).

Definition order (i : string) (customer : option string) (total : Z)
    (st : string) (created : Z) : Order.t :=
  Order.mk i ("ORD-20261101120000-" ++ upper i) customer None
    [line espresso 3] 1050 84 0 total "card" st None "u-1" "John Cashier"
    None created created.

Definition o_pending := order "o-pending" (Some "C1") 1134 "pending" 1793620800000000.
Definition o_paid := order "o-paid" (Some "C1") 1134 "completed" 1793624400000000.
Definition o_failed := order "o-failed" None 1134 "failed" 1793628000000000.
Definition o_refunded := order "o-refunded" None 1134 "refunded" 1793631600000000.
Definition o_walkin := order "o-walkin" None 1134 "pending" 1793635200000000.

Definition store : DB.t :=
  DB.mk [cashier] [espresso; muffin] [alice; bob]
    [o_pending; o_paid; o_failed; o_refunded; o_walkin] [].

Definition world : World := {| db := store; draws := 0 |}.

Definition pay (i method : string) (amount : Z) (cash : option Z)
    : PaymentRequest.t :=
  PaymentRequest.mk i method amount cash None.

End Sample.

(* ================================================================== *)
(** ** Accounts, catalog and customers: the remaining handlers

    The records above keep the fields that some handler reads or writes by
    name.  The contact fields of a user, the [description] of a product,
    the [address] of a customer and the [created_at]/[updated_at] stamps of
    the three are stored by the code and are never looked at by it; they
    are not part of the records.  The draws that their default factories
    and the update documents make from the clock are kept, so the draw
    positions are those of the code. *)

(** The library functions these handlers call: [hashlib.sha256(...)
    .hexdigest()]; [jwt.encode] of the claims [sub], [role] and [exp] under
    the server's secret; [jwt.decode], giving [None] for its [PyJWTError]
    and otherwise the [sub] claim if the payload has one; and the
    case-insensitive [$regex] match of a pattern against a string field,
    [None] for a pattern that is no regular expression. *)
Record Lib := {
  lib_sha256_hexdigest : string -> string;
  lib_jwt_encode : string -> string -> Z -> string;
  lib_jwt_decode : string -> option (option string);
  lib_regex_compile : string -> option (string -> bool)
}.

Module UserCreate.
Record t := mk {
  username : string;
  pin : string;
  full_name : string;
  role : string
}.
End UserCreate.

Module UserLogin.
Record t := mk {
  username : string;
  pin : string
}.
End UserLogin.

Module ProductCreate.
Record t := mk {
  name : string;
  price : Z;
  category : string;
  sku : string;
  barcode : option string;
  stock_quantity : Z;
  min_stock_level : Z;
  cost_price : option Z
}.

(** The driver encodes the fields: the integers fit 8 bytes. *)
Definition encodable (pd : t) : bool :=
  Bson.int64 (price pd) && Bson.int64 (stock_quantity pd)
  && Bson.int64 (min_stock_level pd) && Bson.opt_int64 (cost_price pd).
End ProductCreate.

Module CustomerCreate.
Record t := mk {
  name : string;
  email : option string;
  phone : option string
}.
End CustomerCreate.

(** The dictionary [register_user] returns. *)
Module RegisterResponse.
Record t := mk {
  message : string;
  requires_approval : bool
}.
End RegisterResponse.

(** The dictionary [login_user] returns, its [user] entry flattened. *)
Module LoginResponse.
Record t := mk {
  access_token : string;
  token_type : string;
  user_id : string;
  username : string;
  full_name : string;
  role : string
}.
End LoginResponse.

Definition Unauthorized (detail : string) : exn := HTTPException 401 detail.
Definition AdminRequired : exn := HTTPException 403 "Admin access required".

(** [coll.update_one(q, u).matched_count], with the update applied, for
    an update document that the driver encodes. *)
Definition update_one_matched {A} (get : DB.t -> list A)
    (set : (list A -> list A) -> DB.t -> DB.t) (q : A -> bool) (u : A -> A)
    : M nat :=
  fun w =>
    (Ok (match Coll.find_one q (get (db w)) with
         | Some _ => 1%nat
         | None => 0%nat
         end),
     {| db := set (Coll.update_one q u) (db w); draws := draws w |}).

Section MoreHandlers.
Variable env : Env.
Variable lib : Lib.

(** [hash_pin]. *)
Definition hash_pin (pin : string) : string := lib_sha256_hexdigest lib pin.

(** [verify_pin]. *)
Definition verify_pin (pin hashed_pin : string) : bool :=
  (hash_pin pin =? hashed_pin)%string.

(** [create_access_token]; durations are in microseconds. *)
Definition create_access_token (sub role : string)
    (expires_delta : option Z) : M string :=
  now <- utcnow env ;;
  let expire :=
    match expires_delta with
    | Some delta => if delta =? 0 then now + 24 * 3600 * 1000000
                    else now + delta
    | None => now + 24 * 3600 * 1000000
    end in
  ret (lib_jwt_encode lib sub role expire).

(** [get_current_user].  The [HTTPException] raised inside the [try] for
    a payload without [sub] is not a [PyJWTError] and leaves the handler
    as it is. *)
Definition get_current_user (credentials : string) : M User.t :=
  match lib_jwt_decode lib credentials with
  | None => raise (Unauthorized "Could not validate credentials")
  | Some None => raise (Unauthorized "Could not validate credentials")
  | Some (Some user_id) =>
      user <- query (fun d =>
                Coll.find_one (fun u => (User.id u =? user_id)%string)
                  (DB.users d)) ;;
      match user with
      | None => raise (Unauthorized "User not found")
      | Some u => ret u
      end
  end.

(** [User(...)]: draws [id], [created_at] and [updated_at]. *)
Definition new_User (username pin full_name role : string)
    (is_approved : bool) : M User.t :=
  i <- uuid4 env ;;
  _ <- utcnow env ;;
  _ <- utcnow env ;;
  ret (User.mk i username pin role full_name is_approved).

(** [register_user]: POST /auth/register. *)
Definition register_user (user_data : UserCreate.t)
    : M RegisterResponse.t :=
  existing_user <- query (fun d =>
      Coll.find_one
        (fun u => (User.username u =? UserCreate.username user_data)%string)
        (DB.users d)) ;;
  match existing_user with
  | Some _ => raise (HTTPException 400 "Username already registered")
  | None =>
      let hashed_pin := hash_pin (UserCreate.pin user_data) in
      user <- new_User (UserCreate.username user_data) hashed_pin
                (UserCreate.full_name user_data) (UserCreate.role user_data)
                (UserCreate.role user_data =? "admin")%string ;;
      write (fun d =>
               DB.mk (Coll.insert_one user (DB.users d)) (DB.products d)
                 (DB.customers d) (DB.orders d) (DB.inventory_movements d)) ;;;
      ret (RegisterResponse.mk "User registered successfully"
             (UserCreate.role user_data =? "employee")%string)
  end.

(** [login_user]: POST /auth/login. *)
Definition login_user (login_data : UserLogin.t) : M LoginResponse.t :=
  user <- query (fun d =>
      Coll.find_one
        (fun u => (User.username u =? UserLogin.username login_data)%string)
        (DB.users d)) ;;
  match user with
  | None => raise (Unauthorized "Invalid username or PIN")
  | Some user =>
      if negb (verify_pin (UserLogin.pin login_data) (User.pin user))
      then raise (Unauthorized "Invalid username or PIN")
      else if negb (User.is_approved user)
      then raise (Unauthorized "Account not approved by admin")
      else
        access_token <-
          create_access_token (User.id user) (User.role user) None ;;
        ret (LoginResponse.mk access_token "bearer" (User.id user)
               (User.username user) (User.full_name user) (User.role user))
  end.

(** [if current_user.role != "admin": raise HTTPException(403, ...)]. *)
Definition admin_only (current_user : User.t) : M unit :=
  if negb (User.role current_user =? "admin")%string
  then raise AdminRequired
  else ret tt.

(** [get_pending_users]: GET /users/pending. *)
Definition get_pending_users (current_user : User.t) : M (list User.t) :=
  admin_only current_user ;;;
  query (fun d => filter (fun u => negb (User.is_approved u)) (DB.users d)).

(** The update document [{"$set": {"is_approved": True, ...}}]. *)
Definition set_approved (u : User.t) : User.t :=
  User.mk (User.id u) (User.username u) (User.pin u) (User.role u)
    (User.full_name u) true.

(** [approve_user]: PUT /users/{user_id}/approve. *)
Definition approve_user (user_id : string) (current_user : User.t)
    : M string :=
  admin_only current_user ;;;
  _ <- utcnow env ;;
  matched_count <-
    update_one_matched DB.users
      (fun f d =>
         DB.mk (f (DB.users d)) (DB.products d) (DB.customers d)
           (DB.orders d) (DB.inventory_movements d))
      (fun u => (User.id u =? user_id)%string) set_approved ;;
  if (matched_count =? 0)%nat
  then raise (HTTPException 404 "User not found")
  else ret "User approved successfully".

(** [get_all_users]: GET /users. *)
Definition get_all_users (current_user : User.t) : M (list User.t) :=
  admin_only current_user ;;;
  query DB.users.

(** [Product(...)] from the fields of [product_data]: draws [id] and the
    two stamps;
    [is_active] takes its default. *)
Definition new_Product (pd : ProductCreate.t) : M Product.t :=
  i <- uuid4 env ;;
  _ <- utcnow env ;;
  _ <- utcnow env ;;
  ret (Product.mk i (ProductCreate.name pd) (ProductCreate.price pd)
         (ProductCreate.category pd) (ProductCreate.sku pd)
         (ProductCreate.barcode pd) (ProductCreate.stock_quantity pd)
         (ProductCreate.min_stock_level pd) (ProductCreate.cost_price pd)
         true).

(** [create_product]: POST /products. *)
Definition create_product (product_data : ProductCreate.t)
    (current_user : User.t) : M Product.t :=
  admin_only current_user ;;;
  existing_product <- query (fun d =>
      Coll.find_one
        (fun p => (Product.sku p =? ProductCreate.sku product_data)%string)
        (DB.products d)) ;;
  match existing_product with
  | Some _ => raise (HTTPException 400 "SKU already exists")
  | None =>
      product <- new_Product product_data ;;
      (if Product.encodable product
       then write (DB.with_products (Coll.insert_one product))
       else raise OverflowError) ;;;
      ret product
  end.

(** A compiled pattern against an optional field; an absent field
    matches nothing. *)
Definition regex_opt (m : string -> bool) (field : option string) : bool :=
  match field with
  | Some s => m s
  | None => false
  end.

(** [if search: query["$or"] = [{f: {"$regex": search, ...}}, ...]]: the
    compiled pattern, when a search term was given. *)
Definition search_pattern (search : option string)
    : M (option (string -> bool)) :=
  if truthy_str search then
    match search with
    | Some s =>
        match lib_regex_compile lib s with
        | Some m => ret (Some m)
        | None => raise OperationFailure
        end
    | None => ret None
    end
  else ret None.

(** The filter document of [get_products]. *)
Definition product_query (category : option string)
    (pattern : option (string -> bool)) (p : Product.t) : bool :=
  Product.is_active p
  && (if truthy_str category then
        match category with
        | Some c => (Product.category p =? c)%string
        | None => true
        end
      else true)
  && match pattern with
     | Some m =>
         m (Product.name p) || m (Product.sku p)
         || regex_opt m (Product.barcode p)
     | None => true
     end.

(** [get_products]: GET /products. *)
Definition get_products (category search : option string)
    (current_user : User.t) : M (list Product.t) :=
  pattern <- search_pattern search ;;
  query (fun d => filter (product_query category pattern) (DB.products d)).

(** [get_product_categories]: GET /products/categories.  [distinct] gives
    each value once. *)
Definition get_product_categories (current_user : User.t)
    : M (list string) :=
  query (fun d =>
    nodup string_dec
      (map Product.category (filter Product.is_active (DB.products d)))).

(** The update document [{"$set": update_data}] of [update_product]. *)
Definition set_product (pd : ProductCreate.t) (p : Product.t) : Product.t :=
  Product.mk (Product.id p) (ProductCreate.name pd) (ProductCreate.price pd)
    (ProductCreate.category pd) (ProductCreate.sku pd)
    (ProductCreate.barcode pd) (ProductCreate.stock_quantity pd)
    (ProductCreate.min_stock_level pd) (ProductCreate.cost_price pd)
    (Product.is_active p).

(** [update_product]: PUT /products/{product_id}. *)
Definition update_product (product_id : string)
    (product_data : ProductCreate.t) (current_user : User.t)
    : M (option Product.t) :=
  admin_only current_user ;;;
  _ <- utcnow env ;;
  matched_count <-
    (if ProductCreate.encodable product_data
     then update_one_matched DB.products DB.with_products
            (fun p => (Product.id p =? product_id)%string)
            (set_product product_data)
     else raise OverflowError) ;;
  if (matched_count =? 0)%nat
  then raise (HTTPException 404 "Product not found")
  else
    query (fun d =>
      Coll.find_one (fun p => (Product.id p =? product_id)%string)
        (DB.products d)).

(** The aggregation of [get_low_stock_products]: active products whose
    stock is at or below their minimum. *)
Definition is_low_stock (p : Product.t) : bool :=
  Product.is_active p
  && (Product.stock_quantity p <=? Product.min_stock_level p).

(** [get_low_stock_products]: GET /products/low-stock. *)
Definition get_low_stock_products (current_user : User.t)
    : M (list Product.t) :=
  query (fun d => filter is_low_stock (DB.products d)).

(** [Customer(...)] from the fields of [customer_data]. *)
Definition new_Customer (cd : CustomerCreate.t) : M Customer.t :=
  i <- uuid4 env ;;
  _ <- utcnow env ;;
  _ <- utcnow env ;;
  ret (Customer.mk i (CustomerCreate.name cd) (CustomerCreate.email cd)
         (CustomerCreate.phone cd) 0 0).

(** [create_customer]: POST /customers. *)
Definition create_customer (customer_data : CustomerCreate.t)
    (current_user : User.t) : M Customer.t :=
  customer <- new_Customer customer_data ;;
  (if Customer.encodable customer
   then write (DB.with_customers (Coll.insert_one customer))
   else raise OverflowError) ;;;
  ret customer.

(** The filter document of [get_customers]. *)
Definition customer_query (pattern : option (string -> bool))
    (c : Customer.t) : bool :=
  match pattern with
  | Some m =>
      m (Customer.name c) || regex_opt m (Customer.email c)
      || regex_opt m (Customer.phone c)
  | None => true
  end.

(** [get_customers]: GET /customers. *)
Definition get_customers (search : option string) (current_user : User.t)
    : M (list Customer.t) :=
  pattern <- search_pattern search ;;
  query (fun d => filter (customer_query pattern) (DB.customers d)).

End MoreHandlers.

(** *** The seed script ([seed_data.py]) *)

Section Seed.
Variable env : Env.
Variable lib : Lib.

(** A user dictionary of [seed_users]: its id and its two stamps are
    drawn when the dictionary is built. *)
Definition seed_user (username pin role full_name : string) : M User.t :=
  i <- uuid4 env ;;
  _ <- utcnow env ;;
  _ <- utcnow env ;;
  ret (User.mk i username (hash_pin lib pin) role full_name true).

(** [if not existing: await db.users.insert_one(user)]. *)
Definition insert_unless_named (user : User.t) : M unit :=
  existing <- query (fun d =>
      Coll.find_one
        (fun u => (User.username u =? User.username user)%string)
        (DB.users d)) ;;
  match existing with
  | Some _ => ret tt
  | None =>
      write (fun d =>
               DB.mk (Coll.insert_one user (DB.users d)) (DB.products d)
                 (DB.customers d) (DB.orders d) (DB.inventory_movements d))
  end.

(** [seed_users]. *)
Definition seed_users : M unit :=
  admin_user <- seed_user "admin" "1234" "admin" "System Administrator" ;;
  employee_user <- seed_user "cashier1" "5678" "employee" "John Cashier" ;;
  insert_unless_named admin_user ;;;
  insert_unless_named employee_user.

End Seed.

(* ================================================================== *)
(** ** Vocabulary of the further statements *)

(** A product document that differs from another in its stock at most. *)
Definition same_but_stock (p p' : Product.t) : Prop :=
  Product.id p' = Product.id p /\
  Product.name p' = Product.name p /\
  Product.price p' = Product.price p /\
  Product.category p' = Product.category p /\
  Product.sku p' = Product.sku p /\
  Product.barcode p' = Product.barcode p /\
  Product.min_stock_level p' = Product.min_stock_level p /\
  Product.cost_price p' = Product.cost_price p /\
  Product.is_active p' = Product.is_active p.

(** The sum of the ledger's quantity deltas for product [i]. *)
Fixpoint ledger_delta (i : string) (ms : list InventoryMovement.t) : Z :=
  match ms with
  | [] => 0
  | m :: ms' =>
      (if (InventoryMovement.product_id m =? i)%string
       then InventoryMovement.quantity m else 0) + ledger_delta i ms'
  end.

(** A customer record whose accumulators have not gone down. *)
Definition not_below (c c' : Customer.t) : Prop :=
  Customer.id c' = Customer.id c /\
  Customer.total_spent c <= Customer.total_spent c' /\
  Customer.loyalty_points c <= Customer.loyalty_points c'.

(** [l'] continues [l]: the documents of [l] stand where they stood. *)
Definition extends {A} (l l' : list A) : Prop :=
  exists rest, l' = (l ++ rest)%list.

Definition by_username (n : string) (u : User.t) : bool :=
  (User.username u =? n)%string.
Definition by_user_id (i : string) (u : User.t) : bool :=
  (User.id u =? i)%string.
Definition by_sku (k : string) (p : Product.t) : bool :=
  (Product.sku p =? k)%string.

(** The user document [register_user] stores, its id drawn at [k]. *)
Definition registered_user (env : Env) (lib : Lib) (ud : UserCreate.t)
    (k : nat) : User.t :=
  User.mk (env_uuid4 env k) (UserCreate.username ud)
    (lib_sha256_hexdigest lib (UserCreate.pin ud)) (UserCreate.role ud)
    (UserCreate.full_name ud) (UserCreate.role ud =? "admin")%string.

(** A user document that differs from another in its approval at most, and
    has not lost it. *)
Definition same_or_approved (u u' : User.t) : Prop :=
  User.id u' = User.id u /\
  User.username u' = User.username u /\
  User.pin u' = User.pin u /\
  User.role u' = User.role u /\
  User.full_name u' = User.full_name u /\
  (User.is_approved u = true -> User.is_approved u' = true).

(** The credentials a registration was made with. *)
Definition credentials_of (ud : UserCreate.t) : UserLogin.t :=
  UserLogin.mk (UserCreate.username ud) (UserCreate.pin ud).

(** The lifetime of an access token: 24 hours, in microseconds. *)
Definition token_lifetime : Z := 24 * 3600 * 1000000.

(** The product document [create_product] stores, its id drawn at [k]. *)
Definition created_product (env : Env) (pd : ProductCreate.t) (k : nat)
    : Product.t :=
  Product.mk (env_uuid4 env k) (ProductCreate.name pd)
    (ProductCreate.price pd) (ProductCreate.category pd)
    (ProductCreate.sku pd) (ProductCreate.barcode pd)
    (ProductCreate.stock_quantity pd) (ProductCreate.min_stock_level pd)
    (ProductCreate.cost_price pd) true.

(** The customer document [create_customer] stores, its id drawn at
    [k]. *)
Definition created_customer (env : Env) (cd : CustomerCreate.t) (k : nat)
    : Customer.t :=
  Customer.mk (env_uuid4 env k) (CustomerCreate.name cd)
    (CustomerCreate.email cd) (CustomerCreate.phone cd) 0 0.

(** Nothing was removed and nothing renamed: the ids of the users, the
    products, the customers and the orders of [d] stand in [d'] where they
    stood in [d], and so do the ledger entries of [d], whole. *)
Definition keeps_documents (d d' : DB.t) : Prop :=
  extends (map User.id (DB.users d)) (map User.id (DB.users d')) /\
  extends (map Product.id (DB.products d))
    (map Product.id (DB.products d')) /\
  extends (map Customer.id (DB.customers d))
    (map Customer.id (DB.customers d')) /\
  extends (map Order.id (DB.orders d)) (map Order.id (DB.orders d')) /\
  extends (DB.inventory_movements d) (DB.inventory_movements d').

(** A request to any of the handlers. *)
Inductive call : Type :=
| Register (user_data : UserCreate.t)
| Login (login_data : UserLogin.t)
| Me (credentials : string)
| PendingUsers (current_user : User.t)
| Approve (user_id : string) (current_user : User.t)
| AllUsers (current_user : User.t)
| CreateProduct (product_data : ProductCreate.t) (current_user : User.t)
| Products (category search : option string) (current_user : User.t)
| Categories (current_user : User.t)
| UpdateProduct (product_id : string) (product_data : ProductCreate.t)
    (current_user : User.t)
| LowStock (current_user : User.t)
| CreateCustomer (customer_data : CustomerCreate.t) (current_user : User.t)
| Customers (search : option string) (current_user : User.t)
| CreateOrder (order_data : OrderCreate.t) (current_user : User.t)
| Orders (date_from date_to : option string)
| GetOrder (order_id : string)
| Pay (payment_data : PaymentRequest.t).

(** The world a request leaves, whether its handler returned or raised. *)
Definition serve (env : Env) (lib : Lib) (c : call) (w : World) : World :=
  match c with
  | Register ud => snd (register_user env lib ud w)
  | Login ld => snd (login_user env lib ld w)
  | Me tok => snd (get_current_user lib tok w)
  | PendingUsers u => snd (get_pending_users u w)
  | Approve i u => snd (approve_user env i u w)
  | AllUsers u => snd (get_all_users u w)
  | CreateProduct pd u => snd (create_product env pd u w)
  | Products c s u => snd (get_products lib c s u w)
  | Categories u => snd (get_product_categories u w)
  | UpdateProduct i pd u => snd (update_product env i pd u w)
  | LowStock u => snd (get_low_stock_products u w)
  | CreateCustomer cd u => snd (create_customer env cd u w)
  | Customers s u => snd (get_customers lib s u w)
  | CreateOrder od u => snd (create_order env od u w)
  | Orders f t => snd (get_orders env f t w)
  | GetOrder i => snd (get_order i w)
  | Pay p => snd (process_payment env p w)
  end.

(** A run of requests, one after the other. *)
Fixpoint serve_all (env : Env) (lib : Lib) (cs : list call) (w : World)
    : World :=
  match cs with
  | [] => w
  | c :: cs' => serve_all env lib cs' (serve env lib c w)
  end.

(** The requests that sell and settle: orders and payments. *)
Definition is_sale (c : call) : bool :=
  match c with
  | CreateOrder _ _ | Pay _ | Orders _ _ | GetOrder _ => true
  | _ => false
  end.

(** A payment request, if it is one, asks for no negative amount. *)
Definition pays_nonnegative (c : call) : Prop :=
  match c with
  | Pay p => 0 <= PaymentRequest.amount p
  | _ => True
  end.

(** A further environment for the examples of the account and catalog
    handlers.  The digest, the token codec and the pattern match are
    stand-ins with the interface of the library functions: a tagged copy
    of the PIN, a tagged subject, and a literal, case-sensitive prefix
    test that takes every pattern but the one ending in an open
    bracket. *)
Module Demo.

Definition lib : Lib := {|
  lib_sha256_hexdigest := fun s => "sha256:" ++ s;
  lib_jwt_encode := fun sub role _ => "jwt:" ++ sub;
  lib_jwt_decode := fun tok =>
    if prefix "jwt:" tok
    then Some (Some (substring 4 (String.length tok - 4) tok))
    else None;
  lib_regex_compile := fun pattern =>
    if (pattern =? "[")%string then None else Some (prefix pattern)
|}.

Definition admin : User.t :=
  User.mk "u-0" "admin" "sha256:1234" "admin" "System Administrator" true.

Definition newcomer : UserCreate.t :=
  UserCreate.mk "cashier2" "2468" "Jane Cashier" "employee".

Definition second_admin : UserCreate.t :=
  UserCreate.mk "root2" "1357" "Second Admin" "admin".

Definition tea : ProductCreate.t :=
  ProductCreate.mk "Tea" 250 "Tea" "TEA-001" None 30 5 (Some 80).

Definition walk_in : CustomerCreate.t :=
  CustomerCreate.mk "Carol" None (Some "+1-555-0100").

Definition store : DB.t :=
  DB.mk [admin; Sample.cashier] [Sample.espresso; Sample.muffin]
    [Sample.alice; Sample.bob]
    [Sample.o_pending; Sample.o_paid; Sample.o_failed] [].

Definition world : World := {| db := store; draws := 0 |}.

End Demo.

(* ================================================================== *)
(** ** Collections *)

Section CollFacts.
Context {A : Type}.
Implicit Types (q : A -> bool) (u : A -> A) (c : list A).

Lemma update_one_length q u c :
  List.length (Coll.update_one q u c) = List.length c.
Proof.
  induction c as [|d c IH]; cbn; [reflexivity|].
  destruct (q d); cbn; congruence.
Qed.

(** The selected document is the one rewritten, when the update keeps it
    selected. *)
Lemma find_one_update_one_same q u c :
  (forall d, q d = true -> q (u d) = true) ->
  Coll.find_one q (Coll.update_one q u c) = option_map u (Coll.find_one q c).
Proof.
  intros Hq. unfold Coll.find_one.
  induction c as [|d c IH]; cbn; [reflexivity|].
  destruct (q d) eqn:E; cbn.
  - rewrite (Hq d E). reflexivity.
  - rewrite E. exact IH.
Qed.

(** A selection the update cannot see is not disturbed. *)
Lemma find_one_update_one_other q q' u c :
  (forall d, q d = true -> q' d = false) ->
  (forall d, q d = true -> q' (u d) = false) ->
  Coll.find_one q' (Coll.update_one q u c) = Coll.find_one q' c.
Proof.
  intros H1 H2. unfold Coll.find_one.
  induction c as [|d c IH]; cbn; [reflexivity|].
  destruct (q d) eqn:E; cbn.
  - rewrite (H1 d E), (H2 d E). reflexivity.
  - destruct (q' d); [reflexivity | exact IH].
Qed.

Lemma update_one_no_match q u c :
  Coll.find_one q c = None -> Coll.update_one q u c = c.
Proof.
  unfold Coll.find_one.
  induction c as [|d c IH]; cbn; [reflexivity|].
  destruct (q d); [discriminate|]. intros H. now rewrite IH.
Qed.

(** An update relates the collection to itself pointwise. *)
Lemma update_one_Forall2 (R : A -> A -> Prop) q u c :
  (forall d, R d d) ->
  (forall d, q d = true -> R d (u d)) ->
  Forall2 R c (Coll.update_one q u c).
Proof.
  intros Hrefl Hu.
  assert (Hid : forall l, Forall2 R l l)
    by (induction l; constructor; auto).
  induction c as [|d c IH]; cbn; [constructor|].
  destruct (q d) eqn:E; constructor; auto.
Qed.

Lemma Forall2_trans (R : A -> A -> Prop) :
  (forall x y z, R x y -> R y z -> R x z) ->
  forall l1 l2 l3, Forall2 R l1 l2 -> Forall2 R l2 l3 -> Forall2 R l1 l3.
Proof.
  intros Htr l1 l2 l3 H12. revert l3.
  induction H12 as [|x y l1 l2 Hxy _ IH]; intros l3 H23;
    inversion H23; subst; constructor; eauto.
Qed.

Lemma Forall2_refl (R : A -> A -> Prop) :
  (forall x, R x x) -> forall l, Forall2 R l l.
Proof. intros Hr l; induction l; constructor; auto. Qed.

Section Sorting.
Variable key : A -> Z.
#[local] Abbreviation ge_key := (Coll.desc key).

Lemma insert_desc_Permutation d c :
  Permutation (d :: c) (Coll.insert_desc key d c).
Proof.
  induction c as [|d' c IH]; cbn; [apply Permutation_refl|].
  destruct (key d' <=? key d); [apply Permutation_refl|].
  eapply perm_trans; [apply perm_swap|]. now apply perm_skip.
Qed.

Lemma sort_desc_Permutation c : Permutation c (Coll.sort_desc key c).
Proof.
  induction c as [|d c IH]; cbn; [constructor|].
  eapply perm_trans; [|apply insert_desc_Permutation].
  now apply perm_skip.
Qed.

Lemma insert_desc_sorted d c :
  StronglySorted ge_key c ->
  StronglySorted ge_key (Coll.insert_desc key d c).
Proof.
  induction 1 as [|d' c Hs IH Hall]; cbn.
  - constructor; constructor.
  - destruct (key d' <=? key d) eqn:E.
    + apply Z.leb_le in E. constructor.
      * constructor; assumption.
      * constructor; [exact E|].
        eapply Forall_impl; [|exact Hall].
        unfold Coll.desc; intros; lia.
    + apply Z.leb_gt in E. constructor; [exact IH|].
      eapply Permutation_Forall; [apply insert_desc_Permutation|].
      constructor; [unfold Coll.desc; lia | exact Hall].
Qed.

Lemma sort_desc_sorted c : StronglySorted ge_key (Coll.sort_desc key c).
Proof.
  induction c as [|d c IH]; cbn;
    [constructor | now apply insert_desc_sorted].
Qed.

Lemma firstn_Forall (P : A -> Prop) n c :
  Forall P c -> Forall P (firstn n c).
Proof.
  intros H. revert n.
  induction H as [|d c Hd _ IH]; intros [|n]; cbn; constructor; auto.
Qed.

Lemma firstn_sorted (R : A -> A -> Prop) n c :
  StronglySorted R c -> StronglySorted R (firstn n c).
Proof.
  intros Hs. revert n.
  induction Hs as [|d c Hs IH Hall]; intros [|n]; cbn;
    constructor; auto using firstn_Forall.
Qed.
End Sorting.
End CollFacts.

(* ================================================================== *)
(** ** Payments *)

(** The customer increment leaves everything but the customers alone. *)
Lemma credit_keeps (i : string) (amount : Z) (d : DB.t) :
  DB.users (snd (credit i amount d)) = DB.users d /\
  DB.products (snd (credit i amount d)) = DB.products d /\
  DB.orders (snd (credit i amount d)) = DB.orders d /\
  DB.inventory_movements (snd (credit i amount d)) = DB.inventory_movements d.
Proof.
  unfold credit. destruct (negb _); [auto|].
  destruct (Coll.find_one _ _) as [c|]; [|auto].
  destruct (_ && _); auto.
Qed.

(** A customer increment that raised wrote nothing. *)
Lemma credit_raises (i : string) (amount : Z) (d : DB.t) (e : exn) :
  fst (credit i amount d) = Some e ->
  snd (credit i amount d) = d /\ (e = OverflowError \/ e = OperationFailure).
Proof.
  unfold credit. destruct (negb _); [intros [= <-]; auto|].
  destruct (Coll.find_one _ _) as [c|]; [|discriminate].
  destruct (_ && _); [discriminate | intros [= <-]; auto].
Qed.

(** A customer increment that went through added to the first customer
    under the id, if there is one. *)
Lemma credit_returns (i : string) (amount : Z) (d : DB.t) :
  fst (credit i amount d) = None ->
  snd (credit i amount d)
  = DB.with_customers
      (Coll.update_one (by_customer_id i)
         (Customer.inc_spent_points amount (amount / 100))) d.
Proof.
  unfold credit. destruct (negb _); [discriminate|].
  destruct (Coll.find_one _ _) as [c|] eqn:Hc.
  - destruct (_ && _); [reflexivity | discriminate].
  - intros _. cbn. unfold DB.with_customers.
    rewrite (update_one_no_match _ _ _ Hc). now destruct d.
Qed.

Section PaymentFacts.
Variable env : Env.

(** [process_payment], case by case: the order is looked up, a completed
    order is refused before anything is drawn or written, a cash tender
    that does not cover the amount is refused after the payment id has
    been drawn, and otherwise the order is written and then, for an order
    with a customer, the customer; the call raises when that increment
    does. *)
Lemma process_payment_cases (p : PaymentRequest.t) (w : World) :
  let by_id := by_order_id (PaymentRequest.order_id p) in
  let amount := PaymentRequest.amount p in
  let cash := PaymentRequest.cash_received p in
  let is_cash := (PaymentRequest.payment_method p =? "cash")%string in
  process_payment env p w =
  match Coll.find_one by_id (DB.orders (db w)) with
  | None => (Raise NotFound, w)
  | Some order =>
      if (Order.payment_status order =? "completed")%string
      then (Raise AlreadyPaid, w)
      else if is_cash && negb (cash_covers cash amount)
      then (Raise PaymentRejected, {| db := db w; draws := S (draws w) |})
      else
        let payment_id := "pay_" ++ substring 0 8 (env_uuid4 env (draws w)) in
        let now := Bson.datetime (env_utcnow env (S (draws w))) in
        let paid :=
          DB.with_orders
            (Coll.update_one by_id (Order.set_payment "completed" payment_id now))
            (db w) in
        let resp :=
          PaymentResponse.mk payment_id "completed" amount
            (PaymentRequest.order_id p)
            (if is_cash then option_map (fun c => c - amount) cash
             else None) in
        let credited :=
          match Order.customer_id order with
          | Some i => if negb (i =? "")%string then credit i amount paid
                      else (None, paid)
          | None => (None, paid)
          end in
        (match fst credited with
         | None => Ok resp
         | Some e => Raise e
         end,
         {| db := snd credited; draws := S (S (draws w)) |})
  end.
Proof.
  cbv zeta. unfold process_payment, bind, query; cbn.
  fold (by_order_id (PaymentRequest.order_id p)).
  destruct (Coll.find_one _ (DB.orders (db w))) as [order|]; [|reflexivity].
  destruct (Order.payment_status order =? "completed")%string; [reflexivity|].
  unfold uuid4, utcnow, draw, write, ret, raise; cbn.
  assert (Hcredit : forall i (resp : PaymentResponse.t) (d : DB.t) k,
    negb (i =? "")%string = true ->
    match
      inc_customer_spent_points (Some i) (PaymentRequest.amount p)
        (PaymentRequest.amount p / 100) {| db := d; draws := k |}
    with
    | (Ok _, w') => (Ok resp, w')
    | (Raise e, w') => (Raise e, w')
    end
    = (match fst (credit i (PaymentRequest.amount p) d) with
       | None => Ok resp
       | Some e => Raise e
       end,
       {| db := snd (credit i (PaymentRequest.amount p) d); draws := k |})).
  { intros i resp d k _.
    unfold inc_customer_spent_points, credit, bind, query, write, ret, raise.
    cbn [db draws]. fold (by_customer_id i).
    destruct (negb _); [reflexivity|].
    destruct (Coll.find_one _ _) as [c|]; [|reflexivity].
    destruct (_ && _); reflexivity. }
  assert (Hrest : forall (resp : PaymentResponse.t) (d : DB.t) k,
    match
      (if truthy_str (Order.customer_id order)
       then inc_customer_spent_points (Order.customer_id order)
              (PaymentRequest.amount p) (PaymentRequest.amount p / 100)
       else fun w0 => (Ok tt, w0)) {| db := d; draws := k |}
    with
    | (Ok _, w') => (Ok resp, w')
    | (Raise e, w') => (Raise e, w')
    end
    = (match
         fst match Order.customer_id order with
             | Some i => if negb (i =? "")%string
                         then credit i (PaymentRequest.amount p) d
                         else (None, d)
             | None => (None, d)
             end
       with
       | None => Ok resp
       | Some e => Raise e
       end,
       {| db :=
            snd match Order.customer_id order with
                | Some i => if negb (i =? "")%string
                            then credit i (PaymentRequest.amount p) d
                            else (None, d)
                | None => (None, d)
                end;
          draws := k |})).
  { intros resp d k. destruct (Order.customer_id order) as [i|]; cbn;
      [|reflexivity].
    destruct (negb (i =? "")%string) eqn:Hi; [|reflexivity].
    now apply Hcredit. }
  destruct (PaymentRequest.payment_method p =? "cash")%string; cbn.
  - unfold cash_covers.
    destruct (PaymentRequest.cash_received p) as [c|]; cbn; [|reflexivity].
    destruct (c =? 0); cbn; [reflexivity|].
    destruct (PaymentRequest.amount p <=? c); cbn; [|reflexivity].
    apply Hrest.
  - apply Hrest.
Qed.

(** The store a call that got past the refusals leaves holds the orders
    with the selected one marked. *)
Lemma credited_keeps (order : Order.t) (amount : Z) (paid : DB.t) :
  let credited :=
    match Order.customer_id order with
    | Some i => if negb (i =? "")%string then credit i amount paid
                else (None, paid)
    | None => (None, paid)
    end in
  DB.users (snd credited) = DB.users paid /\
  DB.products (snd credited) = DB.products paid /\
  DB.orders (snd credited) = DB.orders paid /\
  DB.inventory_movements (snd credited) = DB.inventory_movements paid.
Proof.
  cbv zeta. destruct (Order.customer_id order) as [i|]; [|auto].
  destruct (negb _); [apply credit_keeps | auto].
Qed.

(** One call relates every stored order to itself by [settles]. *)
Lemma process_payment_settles (p : PaymentRequest.t) (w : World) :
  Forall2 settles (DB.orders (db w))
    (DB.orders (db (snd (process_payment env p w)))).
Proof.
  assert (Hrefl : forall o, settles o o) by (unfold settles; intuition).
  rewrite process_payment_cases; cbv zeta.
  destruct (Coll.find_one _ (DB.orders (db w))) as [order|] eqn:Hfind;
    [|now apply Forall2_refl].
  destruct (Order.payment_status order =? "completed")%string eqn:Hst;
    [now apply Forall2_refl|].
  destruct (_ && negb _); [now apply Forall2_refl|].
  cbn [snd db].
  rewrite (proj1 (proj2 (proj2 (credited_keeps order _ _)))).
  cbn [DB.with_orders DB.orders].
  apply update_one_Forall2; [exact Hrefl|].
  intros o Ho. unfold settles; cbn. repeat split.
  destruct (Order.payment_status o =? "completed")%string eqn:E.
  - left. apply String.eqb_eq in E. now rewrite E.
  - right. apply String.eqb_neq in E. now split.
Qed.

Lemma settles_trans (a b c : Order.t) :
  settles a b -> settles b c -> settles a c.
Proof.
  unfold settles.
  intros (Hi & Hit & Ht & Hc & Hs) (Hi' & Hit' & Ht' & Hc' & Hs').
  repeat split; try congruence.
  destruct Hs as [Hs|[Hs1 Hs2]], Hs' as [Hs'|[Hs1' Hs2']].
  - left; congruence.
  - right; split; congruence.
  - right; split; congruence.
  - exfalso; congruence.
Qed.

Lemma process_payments_settles (ps : list PaymentRequest.t) (w : World) :
  Forall2 settles (DB.orders (db w))
    (DB.orders (db (process_payments env ps w))).
Proof.
  revert w. induction ps as [|p ps IH]; intros w; cbn.
  - apply Forall2_refl. unfold settles; intuition.
  - eapply Forall2_trans; [exact settles_trans| |apply IH].
    apply process_payment_settles.
Qed.

End PaymentFacts.

Lemma Forall2_find_one {A : Type} (R : A -> A -> Prop) (q : A -> bool)
    (l l' : list A) :
  (forall a b, R a b -> q b = q a) ->
  Forall2 R l l' ->
  forall a, Coll.find_one q l = Some a ->
  exists b, Coll.find_one q l' = Some b /\ R a b.
Proof.
  intros Hq H. unfold Coll.find_one.
  induction H as [|x y l l' Hxy _ IH]; cbn; intros a Ha; [discriminate|].
  rewrite (Hq _ _ Hxy). destruct (q x).
  - injection Ha as <-. eauto.
  - auto.
Qed.

Lemma find_one_by_customer_id (i : string) (cs : list Customer.t)
    (c : Customer.t) :
  Coll.find_one (by_customer_id i) cs = Some c -> Customer.id c = i.
Proof.
  intros H. apply find_some in H. now apply String.eqb_eq.
Qed.

(** C3. A payment request against an order whose payment status is
    completed is refused with "Order already paid", whatever the payment
    method, amount or tender, and the world is left exactly as it was. *)
Theorem completed_order_is_not_resettled (env : Env) (p : PaymentRequest.t)
    (w : World) (order : Order.t) :
  Coll.find_one (by_order_id (PaymentRequest.order_id p)) (DB.orders (db w))
    = Some order ->
  Order.payment_status order = "completed" ->
  process_payment env p w = (Raise AlreadyPaid, w).
Proof.
  intros Hfind Hst. rewrite process_payment_cases; cbv zeta.
  rewrite Hfind, Hst. reflexivity.
Qed.

Lemma completed_order_is_not_resettled_witness :
  process_payment Sample.env (Sample.pay "o-paid" "cash" 1134 (Some 2000))
    Sample.world
  = (Raise AlreadyPaid, Sample.world).
Proof.
  apply (completed_order_is_not_resettled Sample.env
           (Sample.pay "o-paid" "cash" 1134 (Some 2000)) Sample.world
           Sample.o_paid); reflexivity.
Defined.

(** C4, as the claim states it, fails: an order whose status is failed,
    and one whose status is refunded, is moved to completed by a card
    payment. *)
Lemma failed_and_refunded_orders_can_be_settled :
  let status_of i w :=
    option_map Order.payment_status
      (Coll.find_one (by_order_id i) (DB.orders (db w))) in
  status_of "o-failed" Sample.world = Some "failed" /\
  status_of "o-failed"
    (process_payments Sample.env [Sample.pay "o-failed" "card" 1134 None]
       Sample.world) = Some "completed" /\
  status_of "o-refunded" Sample.world = Some "refunded" /\
  status_of "o-refunded"
    (process_payments Sample.env
       [Sample.pay "o-refunded" "digital_wallet" 1134 None] Sample.world)
  = Some "completed".
Proof. cbv zeta. repeat split; vm_compute; reflexivity. Qed.

(** C4, amended. Over any run of payment requests, an order that was
    completed stays completed, and an order whose status changed was not
    completed before and is completed after: the only transitions are
    into completed, from any other status.  Completed is the only terminal
    status: a payment by a method other than cash on a stored order in any
    other status (pending, failed, refunded) leaves it completed. *)
Theorem payment_status_moves_only_to_completed (env : Env)
    (ps : list PaymentRequest.t) (w : World) (i : string) (o : Order.t) :
  Coll.find_one (by_order_id i) (DB.orders (db w)) = Some o ->
  (exists o',
     Coll.find_one (by_order_id i)
       (DB.orders (db (process_payments env ps w))) = Some o' /\
     (Order.payment_status o = "completed" ->
      Order.payment_status o' = "completed") /\
     (Order.payment_status o' <> Order.payment_status o ->
      Order.payment_status o <> "completed" /\
      Order.payment_status o' = "completed")) /\
  (Order.payment_status o <> "completed" ->
   forall p,
     PaymentRequest.order_id p = i ->
     PaymentRequest.payment_method p <> "cash" ->
     option_map Order.payment_status
       (Coll.find_one (by_order_id i)
          (DB.orders (db (process_payments env [p] w))))
     = Some "completed").
Proof.
  intros Hfind. split.
  - destruct (Forall2_find_one settles (by_order_id i) _ _
                (fun a b (H : settles a b) =>
                   f_equal (fun s => (s =? i)%string) (proj1 H))
                (process_payments_settles env ps w) o Hfind)
      as (o' & Hfind' & _ & _ & _ & _ & Hs).
    exists o'. split; [exact Hfind'|]. split.
    + intros Hc. destruct Hs as [Hs|[Hs _]]; congruence.
    + intros Hne. destruct Hs as [Hs|Hs]; [congruence | exact Hs].
  - intros Hst p Hid Hm.
    change (process_payments env [p] w) with (snd (process_payment env p w)).
    rewrite process_payment_cases; cbv zeta.
    rewrite Hid, Hfind.
    apply String.eqb_neq in Hst, Hm. rewrite Hst, Hm. cbn [andb snd db].
    rewrite (proj1 (proj2 (proj2 (credited_keeps o _ _)))).
    cbn [DB.with_orders DB.orders].
    rewrite find_one_update_one_same by auto.
    rewrite Hfind. reflexivity.
Qed.

Lemma payment_status_moves_only_to_completed_witness :
  (exists o',
     Coll.find_one (by_order_id "o-paid")
       (DB.orders
          (db (process_payments Sample.env
                 [Sample.pay "o-paid" "card" 1134 None;
                  Sample.pay "o-failed" "cash" 1134 (Some 1200)]
                 Sample.world))) = Some o' /\
     (Order.payment_status Sample.o_paid = "completed" ->
      Order.payment_status o' = "completed") /\
     (Order.payment_status o' <> Order.payment_status Sample.o_paid ->
      Order.payment_status Sample.o_paid <> "completed" /\
      Order.payment_status o' = "completed")) /\
  (Order.payment_status Sample.o_paid <> "completed" ->
   forall p,
     PaymentRequest.order_id p = "o-paid" ->
     PaymentRequest.payment_method p <> "cash" ->
     option_map Order.payment_status
       (Coll.find_one (by_order_id "o-paid")
          (DB.orders (db (process_payments Sample.env [p] Sample.world))))
     = Some "completed").
Proof.
  apply (payment_status_moves_only_to_completed Sample.env
           [Sample.pay "o-paid" "card" 1134 None;
            Sample.pay "o-failed" "cash" 1134 (Some 1200)]
           Sample.world "o-paid" Sample.o_paid).
  reflexivity.
Defined.

(** Cash payments on a stored order that is not completed, for a tender
    other than zero: an absent tender and a tender below the amount are
    refused; a tender that covers the amount is not, and the call, where
    it returns, returns the difference as change. *)
Lemma cash_payment_outcomes (env : Env) (p : PaymentRequest.t) (w : World)
    (order : Order.t) :
  Coll.find_one (by_order_id (PaymentRequest.order_id p)) (DB.orders (db w))
    = Some order ->
  Order.payment_status order <> "completed" ->
  PaymentRequest.payment_method p = "cash" ->
  match PaymentRequest.cash_received p with
  | None => raised (process_payment env p w) = Some PaymentRejected
  | Some c =>
      (c < PaymentRequest.amount p ->
       raised (process_payment env p w) = Some PaymentRejected) /\
      (PaymentRequest.amount p <= c -> c <> 0 ->
       raised (process_payment env p w) <> Some PaymentRejected /\
       forall resp,
         returned (process_payment env p w) = Some resp ->
         PaymentResponse.change_due resp
         = Some (c - PaymentRequest.amount p))
  end.
Proof.
  intros Hfind Hst Hm. rewrite process_payment_cases; cbv zeta.
  apply String.eqb_neq in Hst. rewrite Hfind, Hst, Hm. cbn [String.eqb].
  unfold cash_covers.
  destruct (PaymentRequest.cash_received p) as [c|]; cbn; [|reflexivity].
  split.
  - intros Hlt. apply Z.leb_gt in Hlt. rewrite Hlt, andb_false_r.
    reflexivity.
  - intros Hle Hnz. apply Z.leb_le in Hle. apply Z.eqb_neq in Hnz.
    rewrite Hle, Hnz. cbn [negb andb].
    unfold raised, returned. cbn [fst].
    set (credited := match Order.customer_id order with
                     | Some i => _
                     | None => _
                     end).
    destruct (fst credited) as [e|] eqn:He.
    + split; [|discriminate]. intros [= ->].
      subst credited. destruct (Order.customer_id order) as [i|];
        [|discriminate].
      destruct (negb _); [|discriminate].
      apply credit_raises in He as [_ [He|He]]; discriminate.
    + split; [discriminate|]. now intros resp [= <-].
Qed.

(** A tender of zero is refused whatever the amount, also when it covers
    it. *)
Lemma zero_cash_is_refused (env : Env) (p : PaymentRequest.t) (w : World)
    (order : Order.t) :
  Coll.find_one (by_order_id (PaymentRequest.order_id p)) (DB.orders (db w))
    = Some order ->
  Order.payment_status order <> "completed" ->
  PaymentRequest.payment_method p = "cash" ->
  PaymentRequest.cash_received p = Some 0 ->
  raised (process_payment env p w) = Some PaymentRejected.
Proof.
  intros Hfind Hst Hm Hc. rewrite process_payment_cases; cbv zeta.
  apply String.eqb_neq in Hst. rewrite Hfind, Hst, Hm, Hc. reflexivity.
Qed.

(** C5, at the input where the code departs from it: a cash payment of
    amount 0 with 0 tendered, on a pending order.  The tender equals the
    amount, and the call is refused as insufficient instead of returning
    with a change of 0. *)
Theorem exact_tender_of_zero_is_refused :
  let p := Sample.pay "o-walkin" "cash" 0 (Some 0) in
  option_map Order.payment_status
    (Coll.find_one (by_order_id (PaymentRequest.order_id p))
       (DB.orders (db Sample.world))) = Some "pending" /\
  PaymentRequest.cash_received p = Some (PaymentRequest.amount p) /\
  raised (process_payment Sample.env p Sample.world) = Some PaymentRejected /\
  returned (process_payment Sample.env p Sample.world) = None.
Proof. cbv zeta. repeat split; vm_compute; reflexivity. Qed.

(** C6. When a payment on a stored order returns: if the order carries
    the id of an existing customer, that customer's total_spent has grown
    by exactly the amount and the loyalty_points by exactly
    floor(amount / 100), and the customers under every other id are as
    they were; if the order carries no customer, the customers collection
    is unchanged.  (A customer id is a uuid string; the empty string is
    read as no customer.) *)
Theorem settled_payment_credits_the_customer (env : Env)
    (p : PaymentRequest.t) (w w' : World) (resp : PaymentResponse.t)
    (order : Order.t) :
  Coll.find_one (by_order_id (PaymentRequest.order_id p)) (DB.orders (db w))
    = Some order ->
  process_payment env p w = (Ok resp, w') ->
  (forall i c,
     Order.customer_id order = Some i -> i <> "" ->
     Coll.find_one (by_customer_id i) (DB.customers (db w)) = Some c ->
     (exists c',
        Coll.find_one (by_customer_id i) (DB.customers (db w')) = Some c' /\
        Customer.total_spent c' =
          Customer.total_spent c + PaymentRequest.amount p /\
        Customer.loyalty_points c' =
          Customer.loyalty_points c + PaymentRequest.amount p / 100) /\
     (forall j, j <> i ->
        Coll.find_one (by_customer_id j) (DB.customers (db w')) =
        Coll.find_one (by_customer_id j) (DB.customers (db w)))) /\
  (truthy_str (Order.customer_id order) = false ->
   DB.customers (db w') = DB.customers (db w)).
Proof.
  intros Hfind Hrun. rewrite process_payment_cases in Hrun; cbv zeta in Hrun.
  rewrite Hfind in Hrun.
  destruct (Order.payment_status order =? "completed")%string;
    [discriminate|].
  destruct (_ && negb _); [discriminate|].
  match type of Hrun with
  | (match fst ?c with _ => _ end, _) = _ => set (credited := c) in *
  end.
  destruct (fst credited) as [e|] eqn:He; [discriminate|].
  injection Hrun as _ <-. cbn [db]. split.
  - intros i c Hi Hne Hc. subst credited. rewrite Hi in *.
    apply String.eqb_neq in Hne. rewrite Hne in *. cbn [negb] in *.
    rewrite (credit_returns _ _ _ He).
    cbn [DB.with_customers DB.with_orders DB.customers]. split.
    + rewrite find_one_update_one_same by auto. rewrite Hc. cbn.
      eexists. split; [reflexivity|]. split; reflexivity.
    + intros j Hj. apply find_one_update_one_other.
      * intros d Hd. unfold by_customer_id in *.
        apply String.eqb_eq in Hd. apply String.eqb_neq. congruence.
      * intros d Hd. unfold by_customer_id in *; cbn.
        apply String.eqb_eq in Hd. apply String.eqb_neq. congruence.
  - subst credited.
    destruct (Order.customer_id order) as [i|]; cbn; [|reflexivity].
    intros Hi. apply negb_false_iff in Hi. rewrite Hi. reflexivity.
Qed.

Lemma settled_payment_credits_the_customer_witness :
  let w' := snd (process_payment Sample.env
                   (Sample.pay "o-pending" "card" 1050 None) Sample.world) in
  exists c',
    Coll.find_one (by_customer_id "C1") (DB.customers (db w')) = Some c' /\
    Customer.total_spent c' = 4300 + 1050 /\
    Customer.loyalty_points c' = 12 + 10.
Proof.
  cbv zeta.
  refine (proj1 (proj1 (settled_payment_credits_the_customer Sample.env
           (Sample.pay "o-pending" "card" 1050 None) Sample.world _ _
           Sample.o_pending eq_refl eq_refl) "C1" Sample.alice eq_refl _
           eq_refl)).
  discriminate.
Defined.

(** C10. When [process_payment] refuses a payment, the store is exactly
    as before the call: orders (status and payment reference included)
    and customers (total_spent and loyalty_points included) alike, and the
    refusal is one of order not found, order already paid, and
    insufficient cash.  The call raises in no other way but through the
    store, on the customer increment (an amount the driver does not
    encode, or a sum the server does not take): then the order had been
    marked already, and the customers are as they were. *)
Theorem refused_payment_writes_nothing (env : Env) (p : PaymentRequest.t)
    (w w' : World) (e : exn) :
  process_payment env p w = (Raise e, w') ->
  (db w' = db w /\
   (e = NotFound \/ e = AlreadyPaid \/ e = PaymentRejected)) \/
  ((e = OverflowError \/ e = OperationFailure) /\
   DB.customers (db w') = DB.customers (db w) /\
   option_map Order.payment_status
     (Coll.find_one (by_order_id (PaymentRequest.order_id p))
        (DB.orders (db w'))) = Some "completed").
Proof.
  intros Hrun. rewrite process_payment_cases in Hrun; cbv zeta in Hrun.
  destruct (Coll.find_one _ (DB.orders (db w))) as [order|] eqn:Hfind.
  - destruct (Order.payment_status order =? "completed")%string.
    + injection Hrun as <- <-. auto.
    + destruct (_ && negb _); [injection Hrun as <- <-; auto|].
      match type of Hrun with
      | (match fst ?c with _ => _ end, _) = _ => set (credited := c) in *
      end.
      destruct (fst credited) as [e0|] eqn:He; [|discriminate].
      injection Hrun as <- <-. right. cbn [db].
      assert (Hc : snd credited
                   = DB.with_orders
                       (Coll.update_one
                          (by_order_id (PaymentRequest.order_id p))
                          (Order.set_payment "completed"
                             ("pay_" ++ substring 0 8 (env_uuid4 env (draws w)))
                             (Bson.datetime (env_utcnow env (S (draws w))))))
                       (db w) /\
                   (e0 = OverflowError \/ e0 = OperationFailure)).
      { subst credited. destruct (Order.customer_id order) as [i|];
          [|discriminate].
        destruct (negb _); [|discriminate]. now apply credit_raises. }
      destruct Hc as [-> He0]. split; [exact He0|].
      cbn [DB.with_orders DB.customers DB.orders]. split; [reflexivity|].
      rewrite find_one_update_one_same by auto. rewrite Hfind. reflexivity.
  - injection Hrun as <- <-. auto.
Qed.

Lemma refused_payment_writes_nothing_witness :
  let p := Sample.pay "o-pending" "cash" 1134 (Some 1000) in
  let w' := snd (process_payment Sample.env p Sample.world) in
  let wide := Sample.pay "o-pending" "card" (2 ^ 63) None in
  let w'' := snd (process_payment Sample.env wide Sample.world) in
  (raised (process_payment Sample.env p Sample.world) = Some PaymentRejected /\
   db w' = db Sample.world) /\
  (raised (process_payment Sample.env wide Sample.world) = Some OverflowError /\
   DB.customers (db w'') = DB.customers (db Sample.world) /\
   option_map Order.payment_status
     (Coll.find_one (by_order_id "o-pending") (DB.orders (db w'')))
   = Some "completed").
Proof.
  cbv zeta.
  assert (Hrun :
    process_payment Sample.env
      (Sample.pay "o-pending" "cash" 1134 (Some 1000)) Sample.world
    = (Raise PaymentRejected,
       snd (process_payment Sample.env
              (Sample.pay "o-pending" "cash" 1134 (Some 1000)) Sample.world)))
    by reflexivity.
  assert (Hwide :
    process_payment Sample.env
      (Sample.pay "o-pending" "card" (2 ^ 63) None) Sample.world
    = (Raise OverflowError,
       snd (process_payment Sample.env
              (Sample.pay "o-pending" "card" (2 ^ 63) None) Sample.world)))
    by (vm_compute; reflexivity).
  split.
  - split; [rewrite Hrun; reflexivity|].
    destruct (refused_payment_writes_nothing _ _ _ _ _ Hrun)
      as [[Hdb _] | [[He|He] _]]; [exact Hdb | discriminate He..].
  - split; [rewrite Hwide; reflexivity|].
    destruct (refused_payment_writes_nothing _ _ _ _ _ Hwide)
      as [[_ [He|[He|He]]] | [_ Hleft]]; [discriminate He.. | exact Hleft].
Defined.

(* ================================================================== *)
(** ** Listing orders *)

Lemma get_orders_cases (env : Env) (date_from date_to : option string)
    (w : World) :
  get_orders env date_from date_to w =
  match date_from, date_to with
  | Some f, Some t =>
      if negb (f =? "")%string && negb (t =? "")%string then
        match env_fromisoformat env (replace "Z" "+00:00" f),
              env_fromisoformat env (replace "Z" "+00:00" t) with
        | Some a, Some b => (Ok (listing (Some (a, b)) (db w)), w)
        | _, _ => (Raise ValidationError, w)
        end
      else (Ok (listing None (db w)), w)
  | _, _ => (Ok (listing None (db w)), w)
  end.
Proof.
  unfold get_orders, bind, parse_date, query, listing.
  destruct date_from as [f|], date_to as [t|]; cbn;
    try reflexivity.
  - destruct (negb (f =? "")%string), (negb (t =? "")%string); cbn;
      try reflexivity.
    unfold bind.
    destruct (env_fromisoformat env (replace "Z" "+00:00" f)); cbn;
      [|reflexivity].
    destruct (env_fromisoformat env (replace "Z" "+00:00" t)); reflexivity.
  - destruct (negb (f =? "")%string); reflexivity.
Qed.

Lemma listing_capped_and_sorted (q : option (Z * Z)) (d : DB.t) :
  (List.length (listing q d) <= 100)%nat /\
  StronglySorted newer_or_same (listing q d).
Proof.
  unfold listing, Coll.to_list. split.
  - apply firstn_le_length.
  - apply firstn_sorted, sort_desc_sorted.
Qed.

(** C7. Whatever the stored orders and whatever the date bounds, given or
    not, a listing that returns holds at most 100 orders, and no order in
    it is followed by one created later. *)
Theorem listed_orders_are_capped_and_newest_first (env : Env)
    (date_from date_to : option string) (w w' : World) (l : list Order.t) :
  get_orders env date_from date_to w = (Ok l, w') ->
  (List.length l <= 100)%nat /\ StronglySorted newer_or_same l.
Proof.
  intros Hrun. rewrite get_orders_cases in Hrun.
  assert (Hl : exists q, l = listing q (db w)).
  { destruct date_from as [f|], date_to as [t|];
      try (injection Hrun as <- _; eauto).
    destruct (_ && _); [|injection Hrun as <- _; eauto].
    destruct (env_fromisoformat env _); [|discriminate].
    destruct (env_fromisoformat env _); [|discriminate].
    injection Hrun as <- _; eauto. }
  destruct Hl as [q ->]. apply listing_capped_and_sorted.
Qed.

Lemma listed_orders_are_capped_and_newest_first_witness :
  let l := listing (Some (1793491200000000, 1793632000000000)) Sample.store in
  (List.length l <= 100)%nat /\ StronglySorted newer_or_same l.
Proof.
  cbv zeta.
  apply (listed_orders_are_capped_and_newest_first Sample.env
           (Some "2026-11-01T00:00:00Z") (Some "2026-11-02T15:06:40+00:00")
           Sample.world Sample.world).
  vm_compute. reflexivity.
Defined.

(** C8, as the claim states it, fails: a malformed lower bound given
    without an upper bound is not looked at, and the listing returns the
    stored orders. *)
Lemma lone_malformed_bound_is_ignored :
  malformed Sample.env "not-a-date" /\
  option_map (map Order.id)
    (returned (get_orders Sample.env (Some "not-a-date") None Sample.world))
  = Some ["o-walkin"; "o-refunded"; "o-failed"; "o-paid"; "o-pending"].
Proof. split; vm_compute; reflexivity. Qed.

(** C8, amended. The date bounds are parsed only when both are given and
    non-empty: then a malformed bound, either one, is refused with
    "Invalid date format", nothing is returned and the world is untouched.
    When a bound is missing or empty the other one is ignored, malformed
    or not, and the unfiltered page is returned. *)
Theorem date_bounds_are_validated_only_together (env : Env) (w : World) :
  (forall f t,
     f <> "" -> t <> "" -> malformed env f \/ malformed env t ->
     get_orders env (Some f) (Some t) w = (Raise ValidationError, w)) /\
  (forall date_from date_to,
     truthy_str date_from = false \/ truthy_str date_to = false ->
     get_orders env date_from date_to w = (Ok (listing None (db w)), w)).
Proof.
  split.
  - intros f t Hf Ht Hbad. rewrite get_orders_cases.
    apply String.eqb_neq in Hf, Ht. rewrite Hf, Ht. cbn.
    unfold malformed in Hbad. destruct Hbad as [-> | ->]; [reflexivity|].
    destruct (env_fromisoformat env _); reflexivity.
  - intros date_from date_to Hmiss. rewrite get_orders_cases.
    destruct date_from as [f|], date_to as [t|]; try reflexivity.
    cbn in Hmiss. destruct Hmiss as [-> | ->];
      [|rewrite andb_false_r]; reflexivity.
Qed.

Lemma date_bounds_are_validated_only_together_witness :
  get_orders Sample.env (Some "2026-11-01") (Some "2026-13-01") Sample.world
  = (Raise ValidationError, Sample.world).
Proof.
  apply (proj1 (date_bounds_are_validated_only_together Sample.env
                  Sample.world) "2026-11-01" "2026-13-01").
  - discriminate.
  - discriminate.
  - right. reflexivity.
Defined.

(* ================================================================== *)
(** ** Creating orders *)

(** The stock decrement of one line. *)
Lemma inc_product_stock_run (it : OrderItem.t) (w : World) :
  inc_product_stock (OrderItem.product_id it) (- OrderItem.quantity it) w =
  match line_exn (DB.products (db w)) it with
  | Some e => (Raise e, w)
  | None =>
      (Ok tt,
       {| db := DB.with_products (decrement_line it) (db w);
          draws := draws w |})
  end.
Proof.
  unfold inc_product_stock, line_exn, bind, query, write, ret, raise.
  destruct (negb _); [reflexivity|].
  fold (by_product_id (OrderItem.product_id it)).
  destruct (Coll.find_one _ _) as [p|] eqn:Hp.
  - destruct (Bson.int64 _); reflexivity.
  - unfold DB.with_products, decrement_line.
    rewrite (update_one_no_match _ _ _ Hp).
    destruct w as [[us ps cs os ms] k]. reflexivity.
Qed.

(** A line whose decrement went through has a quantity whose negation the
    driver encodes. *)
Lemma line_exn_none (ps : list Product.t) (it : OrderItem.t) :
  line_exn ps it = None -> Bson.int64 (- OrderItem.quantity it) = true.
Proof.
  unfold line_exn. destruct (Bson.int64 (- _)); [reflexivity | discriminate].
Qed.

(** The inventory loop rewrites the products line by line and appends one
    ledger entry per line, drawing twice for each, up to the first line
    whose decrement raises; the ledger entry of a line whose decrement
    went through is always taken. *)
Lemma update_inventory_loop (env : Env) (order : Order.t) (user : User.t)
    (items : list OrderItem.t) (w : World) :
  let done := lines_done (DB.products (db w)) items in
  for_each items (update_inventory env order user) w =
  (match lines_exn (DB.products (db w)) items with
   | None => Ok tt
   | Some e => Raise e
   end,
   {| db := DB.mk (DB.users (db w))
              (decrement_stock done (DB.products (db w)))
              (DB.customers (db w)) (DB.orders (db w))
              (DB.inventory_movements (db w)
                 ++ sale_movements env order user (draws w) done);
      draws := draws w + 2 * List.length done |}).
Proof.
  cbv zeta. revert w.
  induction items as [|it items IH]; intros [[us ps cs os ms] k].
  - cbn. rewrite app_nil_r, Nat.add_0_r. reflexivity.
  - cbn [for_each lines_done lines_exn]. unfold bind at 1.
    unfold update_inventory at 1. unfold bind at 1.
    rewrite inc_product_stock_run. cbn [db draws DB.products].
    destruct (line_exn ps it) as [e|] eqn:Hline.
    + cbn. rewrite app_nil_r, Nat.add_0_r. reflexivity.
    + unfold new_InventoryMovement, insert_inventory_movement, uuid4, utcnow,
        bind, write, draw, ret.
      cbn [db draws fst snd InventoryMovement.encodable
           InventoryMovement.quantity DB.with_products DB.products].
      unfold InventoryMovement.encodable at 1.
      cbn [InventoryMovement.quantity].
      rewrite (line_exn_none _ _ Hline). cbn [db draws].
      rewrite IH. cbn. unfold Coll.insert_one.
      rewrite <- app_assoc. cbn.
      unfold decrement_line, decrement_stock.
      f_equal. f_equal. lia.
Qed.

(** A loop that was not stopped got through every line. *)
Lemma lines_done_all (ps : list Product.t) (items : list OrderItem.t) :
  lines_exn ps items = None -> lines_done ps items = items.
Proof.
  revert ps. induction items as [|it items IH]; intros ps; cbn;
    [reflexivity|].
  destruct (line_exn ps it); [discriminate|].
  intros H. now rewrite IH.
Qed.


(** [create_order], case by case: the tax is computed, the order is built
    and, if the driver encodes it, stored; then the inventory loop runs,
    and the order is returned unless the loop was stopped. *)
Lemma create_order_cases (env : Env) (od : OrderCreate.t) (user : User.t)
    (w : World) :
  create_order env od user w =
  match Float.int_mul_rate
          (sum (map OrderItem.total_price (OrderCreate.items od))) with
  | None => (Raise OverflowError, w)
  | Some tax =>
      let order := placed_order env od user (db w) (draws w) tax in
      if Order.encodable order then
        let done := lines_done (DB.products (db w)) (OrderCreate.items od) in
        (match lines_exn (DB.products (db w)) (OrderCreate.items od) with
         | None => Ok order
         | Some e => Raise e
         end,
         {| db := DB.mk (DB.users (db w))
                    (decrement_stock done (DB.products (db w)))
                    (DB.customers (db w))
                    (DB.orders (db w) ++ [Order.stored order])
                    (DB.inventory_movements (db w)
                       ++ sale_movements env order user (5 + draws w) done);
            draws := 5 + draws w + 2 * List.length done |})
      else (Raise OverflowError, {| db := db w; draws := 5 + draws w |})
  end.
Proof.
  unfold create_order, int_mul_tax_rate.
  destruct (Float.int_mul_rate _) as [tax|]; [|reflexivity].
  unfold bind at 1. unfold ret at 1.
  assert (Hname :
    (if truthy_str (OrderCreate.customer_id od)
     then
       customer <- query (fun d =>
         Coll.find_one
           (fun c => match OrderCreate.customer_id od with
                     | Some i => (Customer.id c =? i)%string
                     | None => false
                     end) (DB.customers d)) ;;
       ret (match customer with
            | Some c => Some (Customer.name c)
            | None => None
            end)
     else ret None) w = (Ok (customer_name_of od (db w)), w)).
  { unfold customer_name_of, truthy_str, bind, query, ret.
    destruct (OrderCreate.customer_id od) as [i|]; [|reflexivity].
    destruct (negb (i =? "")%string); [|reflexivity].
    cbn. fold (by_customer_id i).
    destruct (Coll.find_one _ _); reflexivity. }
  unfold bind at 1. rewrite Hname.
  unfold bind at 1.
  unfold generate_order_number, new_Order, strftime_now, uuid4, utcnow,
    draw, ret.
  unfold bind at 1 2 3 4 5 6 7. cbn [db draws].
  fold (placed_order env od user (db w) (draws w) tax).
  cbv zeta. unfold insert_order.
  destruct (Order.encodable _); [|reflexivity].
  unfold write. cbn [db draws].
  unfold bind at 1. rewrite update_inventory_loop.
  cbv zeta. cbn [db draws DB.with_orders DB.products DB.users DB.customers
                 DB.orders DB.inventory_movements].
  destruct (lines_exn _ _); reflexivity.
Qed.

(* ================================================================== *)
(** ** The tax computation in binary64

    [int(n * 0.08)] converts [n] to a double, multiplies by the double
    nearest to 0.08 (which is a little above it: 25 times its mantissa is
    [2^57 + 3]), rounds the product to 53 bits, to nearest and ties to
    even, and truncates it toward zero.  With [2 n = 25 q + r], the exact
    product is [q + r/25 + 3 n / (25 * 2^56)]; it is rounded up to the
    integer [q + 1] only when it is within half a unit of the last place
    of it, which takes [r = 24] and [n] of 53 bits, and first happens at
    [n = 5254199565265587].  Below that, the result is [8 n / 100]
    rounded toward zero, for either sign of [n]. *)

Lemma digits2_pos_bounds (p : positive) :
  2 ^ (Z.pos (digits2_pos p) - 1) <= Z.pos p < 2 ^ Z.pos (digits2_pos p).
Proof.
  induction p as [p IH|p IH|]; cbn [digits2_pos].
  - rewrite Pos2Z.inj_succ.
    replace (Z.succ (Z.pos (digits2_pos p)) - 1)
      with (Z.succ (Z.pos (digits2_pos p) - 1)) by lia.
    rewrite !Z.pow_succ_r by lia. lia.
  - rewrite Pos2Z.inj_succ.
    replace (Z.succ (Z.pos (digits2_pos p)) - 1)
      with (Z.succ (Z.pos (digits2_pos p) - 1)) by lia.
    rewrite !Z.pow_succ_r by lia. lia.
  - cbn. lia.
Qed.

Lemma digits2_pos_unique (p : positive) (d : Z) :
  2 ^ (d - 1) <= Z.pos p < 2 ^ d -> Z.pos (digits2_pos p) = d.
Proof.
  intros H. pose proof (digits2_pos_bounds p) as B.
  set (D := Z.pos (digits2_pos p)) in *.
  assert (0 < D) by (subst D; lia).
  assert (0 < d).
  { destruct (Z.ltb_spec 0 d); [assumption|].
    assert (2 ^ d <= 2 ^ 0) by (apply Z.pow_le_mono_r; lia).
    change (2 ^ 0) with 1 in *. lia. }
  destruct (Z.lt_trichotomy D d) as [Hlt|[Heq|Hgt]]; [exfalso|assumption|exfalso].
  - assert (2 ^ D <= 2 ^ (d - 1)) by (apply Z.pow_le_mono_r; lia). lia.
  - assert (2 ^ d <= 2 ^ (D - 1)) by (apply Z.pow_le_mono_r; lia). lia.
Qed.

Lemma shr_1_m (mrs : shr_record) :
  0 <= shr_m mrs -> shr_m (shr_1 mrs) = shr_m mrs / 2.
Proof.
  destruct mrs as [m r s]; cbn [shr_m]. intros Hm.
  rewrite <- Z.div2_div.
  destruct m as [|[p|p|]|p]; try reflexivity. lia.
Qed.

Lemma iter_pos_shr_m (n : positive) (mrs : shr_record) :
  0 <= shr_m mrs ->
  shr_m (iter_pos shr_1 n mrs) = shr_m mrs / 2 ^ Z.pos n.
Proof.
  revert mrs.
  induction n as [n IH|n IH|]; intros mrs Hm; cbn [iter_pos].
  - assert (H1 : 0 <= shr_m (shr_1 mrs))
      by (rewrite shr_1_m by assumption; apply Z.div_pos; lia).
    assert (H2 : 0 <= shr_m (iter_pos shr_1 n (shr_1 mrs)))
      by (rewrite IH by assumption; apply Z.div_pos; lia).
    rewrite IH, IH, shr_1_m by assumption.
    rewrite !Z.div_div by lia.
    f_equal. replace (Z.pos n~1) with (1 + Z.pos n + Z.pos n) by lia.
    rewrite !Z.pow_add_r by lia. change (2 ^ 1) with 2. ring.
  - assert (H2 : 0 <= shr_m (iter_pos shr_1 n mrs))
      by (rewrite IH by assumption; apply Z.div_pos; lia).
    rewrite IH, IH by assumption.
    rewrite !Z.div_div by lia.
    f_equal. replace (Z.pos n~0) with (Z.pos n + Z.pos n) by lia.
    rewrite Z.pow_add_r by lia. ring.
  - now apply shr_1_m.
Qed.

Lemma fexp_normal (x : Z) :
  -1021 <= x -> fexp Float.prec Float.emax x = x - 53.
Proof. unfold fexp, emin, Float.prec, Float.emax. lia. Qed.

(** A mantissa of exactly the precision is left alone. *)
Lemma shr_fexp_exact (m e : Z) (l : location) :
  fexp Float.prec Float.emax (Zdigits2 m + e) - e = 0 ->
  shr_fexp Float.prec Float.emax m e l = (shr_record_of_loc m l, e).
Proof. intros Hk. unfold shr_fexp. rewrite Hk. reflexivity. Qed.

Lemma shr_1_r (mrs : shr_record) :
  0 <= shr_m mrs -> shr_r (shr_1 mrs) = Z.odd (shr_m mrs).
Proof.
  destruct mrs as [m r s]; cbn [shr_m]. intros Hm.
  destruct m as [|[p|p|]|p]; try reflexivity. lia.
Qed.

(** The round bit after a shift by [n]: the last bit shifted out. *)
Lemma iter_pos_shr_r (n : positive) (mrs : shr_record) :
  0 <= shr_m mrs ->
  shr_r (iter_pos shr_1 n mrs) = Z.odd (shr_m mrs / 2 ^ (Z.pos n - 1)).
Proof.
  revert mrs.
  induction n as [n IH|n IH|]; intros mrs Hm; cbn [iter_pos].
  - assert (H1 : 0 <= shr_m (shr_1 mrs))
      by (rewrite shr_1_m by assumption; apply Z.div_pos; lia).
    assert (H2 : 0 <= shr_m (iter_pos shr_1 n (shr_1 mrs)))
      by (rewrite iter_pos_shr_m by assumption; apply Z.div_pos; lia).
    rewrite IH, iter_pos_shr_m, shr_1_m by assumption.
    rewrite !Z.div_div by lia.
    do 2 f_equal.
    replace (Z.pos n~1 - 1) with (1 + Z.pos n + (Z.pos n - 1)) by lia.
    rewrite !Z.pow_add_r by lia. change (2 ^ 1) with 2. ring.
  - assert (H2 : 0 <= shr_m (iter_pos shr_1 n mrs))
      by (rewrite iter_pos_shr_m by assumption; apply Z.div_pos; lia).
    rewrite IH, iter_pos_shr_m by assumption.
    rewrite !Z.div_div by lia.
    do 2 f_equal.
    replace (Z.pos n~0 - 1) with (Z.pos n + (Z.pos n - 1)) by lia.
    rewrite Z.pow_add_r by lia. ring.
  - change (2 ^ (1 - 1)) with 1. rewrite Z.div_1_r. now apply shr_1_r.
Qed.

(** Rounding to nearest goes up only when the round bit is set. *)
Lemma round_nearest_even_round_bit (mrs : shr_record) :
  shr_m mrs
  <= round_nearest_even (shr_m mrs) (loc_of_shr_record mrs)
  <= shr_m mrs + Z.b2z (shr_r mrs).
Proof.
  destruct mrs as [m [] []]; cbn; try lia. destruct (Z.even m); lia.
Qed.

(** The quotient and the round bit together are the quotient of the
    mantissa with half a unit added. *)
Lemma half_up (m : Z) (k : positive) :
  0 <= m ->
  m / 2 ^ Z.pos k + Z.b2z (Z.odd (m / 2 ^ (Z.pos k - 1)))
  = (m + 2 ^ (Z.pos k - 1)) / 2 ^ Z.pos k.
Proof.
  intros Hm.
  assert (Hpow : 0 < 2 ^ (Z.pos k - 1)) by (apply Z.pow_pos_nonneg; lia).
  assert (H2k : 2 ^ Z.pos k = 2 ^ (Z.pos k - 1) * 2).
  { replace (Z.pos k) with ((Z.pos k - 1) + 1) at 1 by lia.
    rewrite Z.pow_add_r by lia. reflexivity. }
  rewrite H2k, <- !Z.div_div by lia.
  replace (m + 2 ^ (Z.pos k - 1)) with (m + 1 * 2 ^ (Z.pos k - 1)) by lia.
  rewrite Z.div_add by lia.
  set (y := m / 2 ^ (Z.pos k - 1)).
  pose proof (Z.div2_odd y) as Hy. rewrite Z.div2_div in Hy.
  apply Z.div_unique with (r := 1 - Z.b2z (Z.odd y)).
  - left. destruct (Z.odd y); cbn; lia.
  - destruct (Z.odd y); cbn [Z.b2z] in *; lia.
Qed.

(** A mantissa longer than the precision is shifted right by the excess;
    the shifted mantissa and its round bit. *)
Lemma shr_fexp_shift_exact (m e : Z) (k : positive) :
  0 <= m ->
  fexp Float.prec Float.emax (Zdigits2 m + e) - e = Z.pos k ->
  exists mrs,
    shr_fexp Float.prec Float.emax m e loc_Exact = (mrs, e + Z.pos k) /\
    shr_m mrs = m / 2 ^ Z.pos k /\
    shr_r mrs = Z.odd (m / 2 ^ (Z.pos k - 1)).
Proof.
  intros Hm Hk. unfold shr_fexp. rewrite Hk. cbn [shr].
  eexists. split; [reflexivity|]. split.
  - rewrite iter_pos_shr_m; cbn [shr_record_of_loc shr_m]; auto.
  - rewrite iter_pos_shr_r; cbn [shr_record_of_loc shr_m]; auto.
Qed.

Lemma to_int_finite (sx : bool) (m : positive) (s : positive) :
  Float.to_int (S754_finite sx m (Z.neg s))
  = Some (if sx then - (Z.pos m / 2 ^ Z.pos s) else Z.pos m / 2 ^ Z.pos s).
Proof. reflexivity. Qed.

(** Rounding a mantissa that is [k] bits longer than the precision to a
    float of negative exponent [-s], and truncating the float: an integer
    [q] whose multiple of [2^s] is at or below the shifted mantissa, while
    the mantissa with half a unit of the last place added stays below the
    next multiple, is the magnitude of the result. *)
Lemma round_then_truncate (sx : bool) (P : positive) (e q : Z)
    (k s : positive) :
  Z.pos (digits2_pos P) = 53 + Z.pos k ->
  e + Z.pos k = Z.neg s ->
  2 <= Z.pos s <= 1074 ->
  q * 2 ^ Z.pos s * 2 ^ Z.pos k <= Z.pos P ->
  Z.pos P + 2 ^ (Z.pos k - 1) < (q + 1) * 2 ^ Z.pos s * 2 ^ Z.pos k ->
  Float.to_int
    (binary_round_aux Float.prec Float.emax sx (Z.pos P) e loc_Exact)
  = Some (if sx then - q else q).
Proof.
  intros Hd He Hs Hlo Hhi.
  unfold binary_round_aux.
  destruct (shr_fexp_shift_exact (Z.pos P) e k) as (mrs & -> & Hm & Hr);
    [lia | cbn [Zdigits2]; rewrite fexp_normal; lia |].
  pose proof (round_nearest_even_round_bit mrs) as HM1.
  remember (round_nearest_even (shr_m mrs) (loc_of_shr_record mrs)) as M1
    eqn:EM1.
  clear EM1. rewrite Hr, Hm, half_up in HM1 by lia.
  assert (H2k : 0 < 2 ^ Z.pos k) by (apply Z.pow_pos_nonneg; lia).
  assert (Hlo' : q * 2 ^ Z.pos s <= Z.pos P / 2 ^ Z.pos k)
    by (apply Z.div_le_lower_bound; lia).
  assert (Hhi' : (Z.pos P + 2 ^ (Z.pos k - 1)) / 2 ^ Z.pos k
                 < (q + 1) * 2 ^ Z.pos s)
    by (apply Z.div_lt_upper_bound; lia).
  pose proof (digits2_pos_bounds P) as HP. rewrite Hd in HP.
  assert (HM0 : 2 ^ 52 <= Z.pos P / 2 ^ Z.pos k).
  { apply Z.div_le_lower_bound; [lia|].
    rewrite <- Z.pow_add_r by lia.
    replace (Z.pos k + 52) with (53 + Z.pos k - 1) by lia. lia. }
  assert (HM2 : (Z.pos P + 2 ^ (Z.pos k - 1)) / 2 ^ Z.pos k <= 2 ^ 53).
  { assert ((Z.pos P + 2 ^ (Z.pos k - 1)) / 2 ^ Z.pos k < 2 ^ 53 + 1); [|lia].
    apply Z.div_lt_upper_bound; [lia|].
    assert (2 ^ (Z.pos k - 1) < 2 ^ Z.pos k)
      by (apply Z.pow_lt_mono_r; lia).
    replace (53 + Z.pos k) with (Z.pos k + 53) in HP by lia.
    rewrite Z.pow_add_r in HP by lia. lia. }
  change (2 ^ 52) with 4503599627370496 in HM0.
  change (2 ^ 53) with 9007199254740992 in HM2.
  destruct M1 as [|m1|m1]; try lia.
  assert (Hq : Z.pos m1 / 2 ^ Z.pos s = q).
  { symmetry. apply Z.div_unique with (r := Z.pos m1 - q * 2 ^ Z.pos s).
    - left. lia.
    - lia. }
  destruct (Z.eq_dec (Z.pos m1) 9007199254740992) as [Heq|Hne].
  - destruct (shr_fexp_shift_exact (Z.pos m1) (e + Z.pos k) 1)
      as (mrs2 & -> & Hm2 & _); [lia | |].
    { cbn [Zdigits2]. rewrite (digits2_pos_unique m1 54) by (rewrite Heq; cbn; lia).
      rewrite fexp_normal; lia. }
    rewrite Hm2, Heq.
    change (9007199254740992 / 2 ^ 1) with (Z.pos 4503599627370496).
    cbv iota.
    destruct (e + Z.pos k + 1) as [|x|x] eqn:Ex; try lia.
    replace (Z.neg x <=? Float.emax - Float.prec) with true
      by (symmetry; apply Z.leb_le; unfold Float.emax, Float.prec; lia).
    rewrite to_int_finite.
    assert (Hx : Z.pos 4503599627370496 / 2 ^ Z.pos x = q).
    { rewrite <- Hq, Heq.
      replace (Z.pos s) with (1 + Z.pos x) by lia.
      rewrite Z.pow_add_r by lia. change (2 ^ 1) with 2.
      change 9007199254740992 with (2 * 4503599627370496).
      rewrite Z.div_mul_cancel_l by lia. reflexivity. }
    rewrite Hx. reflexivity.
  - rewrite shr_fexp_exact.
    2:{ cbn [Zdigits2]. rewrite (digits2_pos_unique m1 53) by (cbn; lia).
        rewrite fexp_normal; lia. }
    cbn [shr_m shr_record_of_loc]. rewrite He.
    replace (Z.neg s <=? Float.emax - Float.prec) with true
      by (symmetry; apply Z.leb_le; unfold Float.emax, Float.prec; lia).
    rewrite to_int_finite, Hq. reflexivity.
Qed.

Lemma digits2_pos_le (p : positive) (b : Z) :
  0 <= b -> Z.pos p < 2 ^ b -> Z.pos (digits2_pos p) <= b.
Proof.
  intros Hb Hp. pose proof (digits2_pos_bounds p) as B.
  destruct (Z.leb_spec (Z.pos (digits2_pos p)) b) as [|Hgt]; [assumption|].
  assert (2 ^ b <= 2 ^ (Z.pos (digits2_pos p) - 1))
    by (apply Z.pow_le_mono_r; lia).
  lia.
Qed.

Lemma scaled_bounds (n d t : Z) :
  0 <= t -> 1 <= d -> 2 ^ (d - 1) <= n < 2 ^ d ->
  2 ^ (d - 1 + t) <= n * 2 ^ t < 2 ^ (d + t).
Proof.
  intros Ht Hd [Hlo Hhi]. rewrite !Z.pow_add_r by lia.
  assert (0 < 2 ^ t) by (apply Z.pow_pos_nonneg; lia).
  split; [apply Z.mul_le_mono_nonneg_r | apply Z.mul_lt_mono_pos_r]; lia.
Qed.

(** [float(n)] for an integer of magnitude below [2^53]: exact, with the
    mantissa shifted up to 53 bits. *)
Lemma binary_round_small (sx : bool) (p : positive) :
  Z.pos p < 2 ^ 53 ->
  exists mx,
    binary_round Float.prec Float.emax sx p 0
    = S754_finite sx mx (Z.pos (digits2_pos p) - 53) /\
    Z.pos mx = Z.pos p * 2 ^ (53 - Z.pos (digits2_pos p)).
Proof.
  intros Hp. pose proof (digits2_pos_bounds p) as B.
  pose proof (digits2_pos_le p 53 ltac:(lia) Hp) as Hd.
  set (d := Z.pos (digits2_pos p)) in *.
  assert (Hd1 : 1 <= d) by (subst d; lia).
  unfold binary_round.
  rewrite Z.add_0_r. fold d. rewrite fexp_normal by lia.
  assert (Hal : exists mz,
             shl_align p 0 (d - 53) = (mz, d - 53) /\
             Z.pos mz = Z.pos p * 2 ^ (53 - d)).
  { unfold shl_align. destruct (d - 53 - 0) as [|x|x] eqn:Ex; try lia.
    - exists p. split; [f_equal; lia|].
      replace (53 - d) with 0 by lia. cbn. lia.
    - exists (Pos.iter xO p x). split; [reflexivity|].
      change (Pos.iter xO p x) with (shift_pos x p).
      rewrite shift_pos_correct, Z.pow_pos_fold.
      replace (53 - d) with (Z.pos x) by lia. lia. }
  destruct Hal as (mz & -> & Hmz).
  assert (Hdz : Z.pos (digits2_pos mz) = 53).
  { apply digits2_pos_unique. rewrite Hmz.
    pose proof (scaled_bounds (Z.pos p) d (53 - d) ltac:(lia) Hd1 B) as S.
    replace (d - 1 + (53 - d)) with (53 - 1) in S by lia.
    replace (d + (53 - d)) with 53 in S by lia. exact S. }
  unfold binary_round_aux.
  rewrite shr_fexp_exact
    by (cbn [Zdigits2]; rewrite Hdz, fexp_normal; lia).
  cbn [shr_m shr_record_of_loc loc_of_shr_record round_nearest_even].
  rewrite shr_fexp_exact
    by (cbn [Zdigits2]; rewrite Hdz, fexp_normal; lia).
  cbn [shr_m shr_record_of_loc].
  replace (d - 53 <=? Float.emax - Float.prec) with true
    by (symmetry; apply Z.leb_le; unfold Float.emax, Float.prec; lia).
  exists mz. split; [reflexivity | exact Hmz].
Qed.

(** The magnitude of [int(n * 0.08)], for [n] of either sign: the floor of
    [8 |n| / 100], as long as [|n|] is below 5254199565265587. *)
Lemma mul_rate_magnitude (sx : bool) (p mx : positive) :
  Z.pos p < exact_tax_bound ->
  Z.pos mx = Z.pos p * 2 ^ (53 - Z.pos (digits2_pos p)) ->
  Float.to_int
    (Float.mul (S754_finite sx mx (Z.pos (digits2_pos p) - 53))
       Float.tax_rate)
  = Some (if sx then - (Z.pos p * 8 / 100) else Z.pos p * 8 / 100).
Proof.
  unfold exact_tax_bound. intros Hn Hmx.
  pose proof (digits2_pos_bounds p) as B.
  assert (Hp53 : Z.pos p < 2 ^ 53)
    by (change (2 ^ 53) with 9007199254740992; lia).
  pose proof (digits2_pos_le p 53 ltac:(lia) Hp53) as Hd.
  set (d := Z.pos (digits2_pos p)) in *.
  assert (Hd1 : 1 <= d) by (subst d; lia).
  set (n := Z.pos p) in *.
  set (q := n * 8 / 100).
  pose proof (Z.div_mod (n * 8) 100 ltac:(lia)) as Hdm.
  pose proof (Z.mod_pos_bound (n * 8) 100 ltac:(lia)) as Hmb.
  fold q in Hdm.
  (* 2 n = 25 q + r with 0 <= r < 25 *)
  assert (Hr : exists r, 2 * n = 25 * q + r /\ 0 <= r <= 24).
  { exists (2 * n - 25 * q). lia. }
  destruct Hr as (r & Hqr & Hr).
  clear Hdm Hmb.
  set (T := 2 ^ (53 - d)) in *.
  assert (HT : 1 <= T).
  { change 1 with (2 ^ 0). apply Z.pow_le_mono_r; lia. }
  assert (HT2 : T = 1 \/ 2 <= T).
  { destruct (Z.eq_dec d 53) as [E|E].
    - left. subst T. rewrite E. reflexivity.
    - right. change 2 with (2 ^ 1). apply Z.pow_le_mono_r; lia. }
  set (X := n * T) in *.
  assert (HX : 2 ^ 52 <= X < 2 ^ 53).
  { subst X.
    pose proof (scaled_bounds n d (53 - d) ltac:(lia) Hd1 B) as S.
    replace (d - 1 + (53 - d)) with 52 in S by lia.
    replace (d + (53 - d)) with 53 in S by lia. exact S. }
  change (2 ^ 52) with 4503599627370496 in HX.
  change (2 ^ 53) with 9007199254740992 in HX.
  unfold Float.mul, Float.tax_rate, SFmul.
  replace (xorb sx false) with sx by (destruct sx; reflexivity).
  set (P := (mx * Float.m008)%positive).
  assert (HP : Z.pos P = X * 5764607523034235)
    by (subst P; rewrite Pos2Z.inj_mul, Hmx; reflexivity).
  assert (HPb : 2 ^ 104 <= Z.pos P < 2 ^ 106).
  { rewrite HP.
    change (2 ^ 104) with (4503599627370496 * 4503599627370496).
    change (2 ^ 106) with (9007199254740992 * 9007199254740992).
    split; nia. }
  (* q T and r T, to keep the bounds linear *)
  set (Y := q * T).
  set (W := r * T).
  assert (HY : 25 * Y + W = 2 * X) by (subst Y W X; nia).
  assert (HW : 0 <= W <= 24 * T) by (subst W; nia).
  assert (HW24 : r = 24 -> W = 24 * T) by (intros ->; reflexivity).
  assert (HW23 : r <= 23 -> W <= 23 * T) by (intros ?; subst W; nia).
  assert (Hn1 : T = 1 -> X = n) by (intros E; subst X; rewrite E; lia).
  (* with r = 24, n is 12 modulo 25, and so at most the bound less 25 *)
  assert (Hn24 : r = 24 -> n <= 5254199565265562) by lia.
  assert (Hlo : Y * 72057594037927936 <= Z.pos P) by lia.
  destruct (Z_lt_le_dec (Z.pos P) (2 ^ 105)) as [Hsmall|Hlarge].
  - (* 105 bits: the mantissa is shifted by 52, the exponent is d - 57 *)
    assert (Hs : Z.pos (Z.to_pos (57 - d)) = 57 - d)
      by (apply Z2Pos.id; lia).
    assert (H2s : 2 ^ (57 - d) * 2 ^ 52 = 72057594037927936 * T).
    { subst T. replace (57 - d) with (4 + (53 - d)) by lia.
      rewrite Z.pow_add_r by lia.
      change (2 ^ 4) with 16. change (2 ^ 52) with 4503599627370496. lia. }
    apply round_then_truncate with (k := 52%positive) (s := Z.to_pos (57 - d)).
    + apply digits2_pos_unique. change (53 + 52 - 1) with 104.
      change (53 + 52) with 105. lia.
    + lia.
    + lia.
    + rewrite Hs, <- Z.mul_assoc, H2s. fold Y. lia.
    + rewrite Hs, <- Z.mul_assoc, H2s.
      change (2 ^ (52 - 1)) with 2251799813685248.
      assert (HU : 3 * X + 25 * 2251799813685248
                   < (25 * T - W) * 72057594037927936).
      { destruct (Z_le_gt_dec r 23) as [H23|H24].
        - specialize (HW23 H23). lia.
        - assert (r = 24) by lia. specialize (HW24 H). specialize (Hn24 H).
          destruct HT2 as [E|E]; [specialize (Hn1 E)|]; lia. }
      replace ((q + 1) * (72057594037927936 * T))
        with ((Y + T) * 72057594037927936) by (subst Y; ring).
      lia.
  - (* 106 bits: the mantissa is shifted by 53, the exponent is d - 56 *)
    assert (Hs : Z.pos (Z.to_pos (56 - d)) = 56 - d)
      by (apply Z2Pos.id; lia).
    assert (H2s : 2 ^ (56 - d) * 2 ^ 53 = 72057594037927936 * T).
    { subst T. replace (56 - d) with (3 + (53 - d)) by lia.
      rewrite Z.pow_add_r by lia.
      change (2 ^ 3) with 8. change (2 ^ 53) with 9007199254740992. lia. }
    change (2 ^ 105) with 40564819207303340847894502572032 in Hlarge.
    apply round_then_truncate with (k := 53%positive) (s := Z.to_pos (56 - d)).
    + apply digits2_pos_unique. change (53 + 53 - 1) with 105.
      change (53 + 53) with 106.
      change (2 ^ 105) with 40564819207303340847894502572032. lia.
    + lia.
    + lia.
    + rewrite Hs, <- Z.mul_assoc, H2s. fold Y. lia.
    + rewrite Hs, <- Z.mul_assoc, H2s.
      change (2 ^ (53 - 1)) with 4503599627370496.
      assert (HU : 3 * X + 25 * 4503599627370496
                   < (25 * T - W) * 72057594037927936).
      { destruct (Z_le_gt_dec r 23) as [H23|H24].
        - specialize (HW23 H23). lia.
        - assert (r = 24) by lia. specialize (HW24 H). specialize (Hn24 H).
          destruct HT2 as [E|E]; [specialize (Hn1 E)|]; lia. }
      replace ((q + 1) * (72057594037927936 * T))
        with ((Y + T) * 72057594037927936) by (subst Y; ring).
      lia.
Qed.

(** [int(n * 0.08)] is [8 n / 100] rounded toward zero, exactly, for every
    integer [n] of magnitude below 5254199565265587. *)
Lemma int_mul_rate_trunc (n : Z) :
  - exact_tax_bound < n < exact_tax_bound ->
  Float.int_mul_rate n = Some (trunc_tax n).
Proof.
  intros [Hlo Hhi]. unfold Float.int_mul_rate, Float.of_int, trunc_tax.
  destruct n as [|p|p]; [reflexivity| |]; cbn [binary_normalize].
  - assert (Hp : Z.pos p < 2 ^ 53)
      by (unfold exact_tax_bound in Hhi;
          change (2 ^ 53) with 9007199254740992; lia).
    destruct (binary_round_small false p Hp) as (mx & -> & Hmx).
    rewrite (mul_rate_magnitude false p mx Hhi Hmx).
    rewrite Z.quot_div_nonneg by lia. reflexivity.
  - assert (Hp' : Z.pos p < exact_tax_bound) by lia.
    assert (Hp : Z.pos p < 2 ^ 53)
      by (unfold exact_tax_bound in Hp';
          change (2 ^ 53) with 9007199254740992; lia).
    destruct (binary_round_small true p Hp) as (mx & -> & Hmx).
    rewrite (mul_rate_magnitude true p mx Hp' Hmx).
    change (Z.neg p * 8) with (- (Z.pos p * 8)).
    rewrite Z.quot_opp_l, Z.quot_div_nonneg by lia. reflexivity.
Qed.

(** For a subtotal that is not negative, rounding toward zero is the
    floor. *)
Lemma int_mul_rate_floor (n : Z) :
  0 <= n < exact_tax_bound -> Float.int_mul_rate n = Some (floor_tax n).
Proof.
  intros [Hn0 Hn]. rewrite int_mul_rate_trunc by (unfold exact_tax_bound in *; lia).
  unfold trunc_tax, floor_tax. rewrite Z.quot_div_nonneg by lia. reflexivity.
Qed.

(** The bound is the first subtotal at which the product is rounded up to
    the next integer. *)
Lemma int_mul_rate_first_departure :
  Float.int_mul_rate exact_tax_bound = Some (floor_tax exact_tax_bound + 1).
Proof. vm_compute. reflexivity. Qed.

(* ================================================================== *)
(** ** Totals, stock and the ledger *)

Lemma fold_left_add_shift (xs : list Z) (a : Z) :
  fold_left Z.add xs a = a + fold_left Z.add xs 0.
Proof.
  revert a. induction xs as [|x xs IH]; intros a; cbn; [lia|].
  rewrite (IH (a + x)), (IH x). lia.
Qed.

(** [sum] adds the elements up. *)
Lemma sum_cons (x : Z) (xs : list Z) : sum (x :: xs) = x + sum xs.
Proof. unfold sum. cbn. apply fold_left_add_shift. Qed.

Lemma stock_of_update_one (i j : string) (d : Z) (ps : list Product.t) :
  stock_of i
    (Coll.update_one (by_product_id j) (Product.inc_stock_quantity d) ps)
  = option_map (fun s => s + (if (j =? i)%string then d else 0))
      (stock_of i ps).
Proof.
  unfold stock_of. destruct (j =? i)%string eqn:E.
  - apply String.eqb_eq in E. subst j.
    rewrite find_one_update_one_same by auto.
    destruct (Coll.find_one _ ps); reflexivity.
  - apply String.eqb_neq in E.
    rewrite find_one_update_one_other.
    + destruct (Coll.find_one _ ps); cbn; [f_equal; lia | reflexivity].
    + intros p Hp. unfold by_product_id in *.
      apply String.eqb_eq in Hp. apply String.eqb_neq. congruence.
    + intros p Hp. unfold by_product_id in *; cbn.
      apply String.eqb_eq in Hp. apply String.eqb_neq. congruence.
Qed.

(** After the decrements of a cart, the stock of every product is down by
    the units the cart orders of it. *)
Lemma stock_of_decrement_stock (i : string) (items : list OrderItem.t)
    (ps : list Product.t) :
  stock_of i (decrement_stock items ps)
  = option_map (fun s => s - ordered_quantity i items) (stock_of i ps).
Proof.
  unfold decrement_stock. revert ps.
  induction items as [|it items IH]; intros ps; cbn.
  - destruct (stock_of i ps); cbn; [f_equal; lia | reflexivity].
  - rewrite IH, stock_of_update_one.
    destruct (stock_of i ps); cbn; [f_equal|reflexivity].
    destruct (OrderItem.product_id it =? i)%string; lia.
Qed.

Lemma sale_movements_spec (env : Env) (o : Order.t) (u : User.t)
    (items : list OrderItem.t) (k : nat) :
  List.length (sale_movements env o u k items) = List.length items /\
  Forall2 (sale_movement_of o u) items (sale_movements env o u k items).
Proof.
  revert k. induction items as [|it items IH]; intros k; cbn.
  - split; [reflexivity | constructor].
  - destruct (IH (S (S k))) as [Hlen Hall]. split; [now rewrite Hlen|].
    constructor; [|exact Hall]. unfold sale_movement_of; cbn. intuition.
Qed.

(** What a returning [create_order] returned and left. *)
Lemma create_order_returns (env : Env) (od : OrderCreate.t) (user : User.t)
    (w w' : World) (order : Order.t) :
  create_order env od user w = (Ok order, w') ->
  exists tax,
    order = placed_order env od user (db w) (draws w) tax /\
    db w' =
      DB.mk (DB.users (db w))
        (decrement_stock (OrderCreate.items od) (DB.products (db w)))
        (DB.customers (db w)) (DB.orders (db w) ++ [Order.stored order])
        (DB.inventory_movements (db w)
           ++ sale_movements env order user (5 + draws w)
                (OrderCreate.items od)).
Proof.
  intros Hrun. rewrite create_order_cases in Hrun.
  destruct (Float.int_mul_rate _) as [tax|]; [|discriminate].
  cbv zeta in Hrun. destruct (Order.encodable _); [|discriminate].
  destruct (lines_exn _ _) eqn:Hexn; [discriminate|].
  rewrite (lines_done_all _ _ Hexn) in Hrun.
  injection Hrun as <- <-. exists tax. split; reflexivity.
Qed.

(** The tax of a returned order is the one computed in binary64. *)
Lemma create_order_returns_tax (env : Env) (od : OrderCreate.t)
    (user : User.t) (w w' : World) (order : Order.t) :
  create_order env od user w = (Ok order, w') ->
  Float.int_mul_rate (sum (map OrderItem.total_price (OrderCreate.items od)))
  = Some (Order.tax_amount order).
Proof.
  intros Hrun. rewrite create_order_cases in Hrun.
  destruct (Float.int_mul_rate _) as [tax|]; [|discriminate].
  cbv zeta in Hrun. destruct (Order.encodable _); [|discriminate].
  destruct (lines_exn _ _); [discriminate|].
  now injection Hrun as <- _.
Qed.

(** What [create_order] leaves in any case, returning or raising: the
    users and the customers as they were, at most one order appended, the
    stock decrements of some lines of the cart and their ledger entries,
    line for line. *)
Lemma create_order_leaves (env : Env) (od : OrderCreate.t) (user : User.t)
    (w : World) :
  exists done added o k,
    db (snd (create_order env od user w)) =
      DB.mk (DB.users (db w))
        (decrement_stock done (DB.products (db w)))
        (DB.customers (db w)) (DB.orders (db w) ++ added)
        (DB.inventory_movements (db w) ++ sale_movements env o user k done).
Proof.
  rewrite create_order_cases.
  assert (Hsame : exists done added o k,
             db w =
               DB.mk (DB.users (db w))
                 (decrement_stock done (DB.products (db w)))
                 (DB.customers (db w)) (DB.orders (db w) ++ added)
                 (DB.inventory_movements (db w)
                    ++ sale_movements env o user k done)).
  { exists [], [], (placed_order env od user (db w) 0 0), 0%nat.
    cbn. rewrite !app_nil_r. now destruct (db w). }
  destruct (Float.int_mul_rate _) as [tax|]; [|exact Hsame].
  cbv zeta. destruct (Order.encodable _); [|exact Hsame].
  cbn [snd db]. eauto.
Qed.


(** [create_order] returns when the tax can be computed, the driver
    encodes the order, and no line stops the inventory loop. *)
Lemma create_order_accepts (env : Env) (od : OrderCreate.t) (user : User.t)
    (w : World) (tax : Z) :
  Float.int_mul_rate (sum (map OrderItem.total_price (OrderCreate.items od)))
  = Some tax ->
  Order.encodable (placed_order env od user (db w) (draws w) tax) = true ->
  lines_exn (DB.products (db w)) (OrderCreate.items od) = None ->
  returned (create_order env od user w)
  = Some (placed_order env od user (db w) (draws w) tax).
Proof.
  intros Htax Henc Hloop. rewrite create_order_cases, Htax. cbv zeta.
  rewrite Henc, Hloop. reflexivity.
Qed.

(** C1, as the claim states it, fails.  For a negative subtotal the tax is
    truncated toward zero, not floored: a cart whose only line totals -199
    gets tax -15, and floor(-199 * 0.08) is -16.  For a large subtotal the
    product is rounded in binary64: a cart totalling 5255369555329987 gets
    tax 420429564426399, one more than the floor. *)
Lemma tax_is_truncated_binary64 :
  let cart total :=
    OrderCreate.mk None [OrderItem.mk "P2" "Muffin" 1 total total] "cash" 0
      None in
  let placed total :=
    returned (create_order Sample.env (cart total) Sample.cashier
                Sample.world) in
  (option_map Order.subtotal (placed (-199)) = Some (-199) /\
   option_map Order.tax_amount (placed (-199)) = Some (-15) /\
   floor_tax (-199) = -16) /\
  (option_map Order.subtotal (placed 5255369555329987)
   = Some 5255369555329987 /\
   option_map Order.tax_amount (placed 5255369555329987)
   = Some 420429564426399 /\
   floor_tax 5255369555329987 = 420429564426398).
Proof. cbv zeta. repeat split; vm_compute; reflexivity. Qed.

(** C1, amended. An order that [create_order] returns has the sum of the
    lines' total_price as its subtotal and subtotal + tax_amount -
    discount_amount as its total_amount, for every cart and every
    discount.  Its tax_amount is floor(subtotal * 8 / 100) exactly for
    every subtotal from 0 up to, not including, 5254199565265587, the
    first subtotal at which the rounding of the product shows; for a
    negative subtotal above -5254199565265587 it is subtotal * 8 / 100
    rounded toward zero, which is the floor when 25 divides the subtotal
    and one more than the floor when it does not. *)
Theorem order_totals_are_exact (env : Env) (od : OrderCreate.t)
    (user : User.t) (w w' : World) (order : Order.t) :
  let subtotal := sum (map OrderItem.total_price (OrderCreate.items od)) in
  create_order env od user w = (Ok order, w') ->
  Order.subtotal order = subtotal /\
  Order.total_amount order =
    subtotal + Order.tax_amount order - OrderCreate.discount_amount od /\
  (0 <= subtotal < exact_tax_bound ->
   Order.tax_amount order = floor_tax subtotal) /\
  (- exact_tax_bound < subtotal < 0 ->
   Order.tax_amount order = trunc_tax subtotal /\
   (subtotal mod 25 = 0 -> Order.tax_amount order = floor_tax subtotal) /\
   (subtotal mod 25 <> 0 ->
    Order.tax_amount order = floor_tax subtotal + 1)).
Proof.
  intros subtotal Hrun.
  pose proof (create_order_returns_tax _ _ _ _ _ _ Hrun) as Htax.
  fold subtotal in Htax.
  destruct (create_order_returns _ _ _ _ _ _ Hrun) as (tax & Horder & _).
  assert (Ht : tax = Order.tax_amount order) by (rewrite Horder; reflexivity).
  split; [rewrite Horder; reflexivity|].
  split; [rewrite Horder; reflexivity|]. split.
  - intros Hs. rewrite (int_mul_rate_floor subtotal Hs) in Htax.
    now injection Htax.
  - intros Hs.
    rewrite (int_mul_rate_trunc subtotal) in Htax
      by (unfold exact_tax_bound in *; lia).
    injection Htax as Htax. rewrite <- Htax.
    split; [reflexivity|].
    unfold trunc_tax, floor_tax.
    replace (subtotal * 8) with (- (- (subtotal * 8))) at 1 3 by lia.
    rewrite Z.quot_opp_l, Z.quot_div_nonneg by lia.
    pose proof (Z.div_mod (- (subtotal * 8)) 100 ltac:(lia)) as Hq.
    pose proof (Z.mod_pos_bound (- (subtotal * 8)) 100 ltac:(lia)) as Hr.
    pose proof (Z.div_mod (subtotal * 8) 100 ltac:(lia)) as Hd.
    pose proof (Z.mod_pos_bound (subtotal * 8) 100 ltac:(lia)) as Hm.
    pose proof (Z.div_mod subtotal 25 ltac:(lia)) as Hd25.
    pose proof (Z.mod_pos_bound subtotal 25 ltac:(lia)) as Hm25.
    split; intros H25; lia.
Qed.

Lemma order_totals_are_exact_witness :
  let od :=
    OrderCreate.mk (Some "C1") [Sample.line Sample.espresso 2] "cash" 0 None in
  let order := placed_order Sample.env od Sample.cashier Sample.store 0 56 in
  let refund :=
    OrderCreate.mk None [OrderItem.mk "P2" "Muffin" 1 (-199) (-199)] "cash" 0
      None in
  let credit_note :=
    placed_order Sample.env refund Sample.cashier Sample.store 0 (-15) in
  (Order.subtotal order = 700 /\
   Order.total_amount order = 700 + 56 - 0 /\
   Order.tax_amount order = 56) /\
  (Order.subtotal credit_note = -199 /\
   Order.tax_amount credit_note = trunc_tax (-199) /\
   Order.tax_amount credit_note = floor_tax (-199) + 1).
Proof.
  cbv zeta.
  set (od := OrderCreate.mk (Some "C1") [Sample.line Sample.espresso 2]
               "cash" 0 None).
  set (refund := OrderCreate.mk None
                   [OrderItem.mk "P2" "Muffin" 1 (-199) (-199)] "cash" 0 None).
  assert (Hrun :
    create_order Sample.env od Sample.cashier Sample.world
    = (Ok (placed_order Sample.env od Sample.cashier Sample.store 0 56),
       snd (create_order Sample.env od Sample.cashier Sample.world)))
    by (vm_compute; reflexivity).
  assert (Hrun' :
    create_order Sample.env refund Sample.cashier Sample.world
    = (Ok (placed_order Sample.env refund Sample.cashier Sample.store 0 (-15)),
       snd (create_order Sample.env refund Sample.cashier Sample.world)))
    by (vm_compute; reflexivity).
  split.
  - destruct (order_totals_are_exact Sample.env od Sample.cashier
                Sample.world _ _ Hrun) as (Hs & Ht & Hfloor & _).
    split; [exact Hs|]. split; [exact Ht|].
    apply Hfloor. vm_compute. split; [discriminate | reflexivity].
  - destruct (order_totals_are_exact Sample.env refund Sample.cashier
                Sample.world _ _ Hrun') as (Hs & _ & _ & Hneg).
    split; [exact Hs|].
    assert (Hrange : - exact_tax_bound
                     < sum (map OrderItem.total_price
                              (OrderCreate.items refund)) < 0)
      by (vm_compute; split; reflexivity).
    destruct (Hneg Hrange) as (Htrunc & _ & Hup).
    split; [exact Htrunc|]. apply Hup. vm_compute. discriminate.
Defined.

(** C2. When [create_order] returns for a cart of N lines: the order is
    appended to the orders, as the store holds it; exactly N ledger
    entries are appended, one per line and in line order, each for the
    line's product, of type sale, of quantity minus the line's quantity,
    and referring to the new order's id; and the stock of every product is
    down by exactly the units the cart orders of it. *)
Theorem order_creation_moves_inventory (env : Env) (od : OrderCreate.t)
    (user : User.t) (w w' : World) (order : Order.t) :
  create_order env od user w = (Ok order, w') ->
  let items := OrderCreate.items od in
  DB.orders (db w') = (DB.orders (db w) ++ [Order.stored order])%list /\
  Order.items order = items /\
  (exists ms,
     DB.inventory_movements (db w')
     = (DB.inventory_movements (db w) ++ ms)%list /\
     List.length ms = List.length items /\
     Forall2 (sale_movement_of order user) items ms) /\
  (forall i,
     stock_of i (DB.products (db w'))
     = option_map (fun s => s - ordered_quantity i items)
         (stock_of i (DB.products (db w)))).
Proof.
  intros Hrun items.
  destruct (create_order_returns _ _ _ _ _ _ Hrun) as (tax & Horder & ->).
  cbn [db DB.orders DB.inventory_movements DB.products].
  split; [reflexivity|]. split; [rewrite Horder; reflexivity|]. split.
  - eexists. split; [reflexivity|]. apply sale_movements_spec.
  - intros i. apply stock_of_decrement_stock.
Qed.

Lemma order_creation_moves_inventory_witness :
  let od :=
    OrderCreate.mk (Some "C1") [Sample.line Sample.espresso 2] "cash" 0 None in
  let w' := snd (create_order Sample.env od Sample.cashier Sample.world) in
  stock_of "P1" (DB.products (db Sample.world)) = Some 100 /\
  stock_of "P1" (DB.products (db w')) = Some (100 - 2) /\
  map InventoryMovement.quantity (DB.inventory_movements (db w')) = [-2].
Proof.
  cbv zeta.
  set (od := OrderCreate.mk (Some "C1") [Sample.line Sample.espresso 2]
               "cash" 0 None).
  assert (Hrun :
    create_order Sample.env od Sample.cashier Sample.world
    = (Ok (placed_order Sample.env od Sample.cashier Sample.store 0 56),
       snd (create_order Sample.env od Sample.cashier Sample.world)))
    by (vm_compute; reflexivity).
  destruct (order_creation_moves_inventory Sample.env od Sample.cashier
              Sample.world _ _ Hrun) as (_ & _ & _ & Hstock).
  split; [reflexivity|].
  split; [rewrite (Hstock "P1") | ]; vm_compute; reflexivity.
Defined.

(** C9, as the claim states it, fails: an empty cart is not accepted
    whatever the discount.  With a discount of 2^63, which the driver does
    not encode, and with a discount of -2^63, whose total 2^63 it does not
    encode, the call raises [OverflowError] and stores nothing. *)
Lemma empty_cart_with_a_wide_discount_is_refused :
  let run discount :=
    create_order Sample.env (OrderCreate.mk None [] "cash" discount None)
      Sample.cashier Sample.world in
  (raised (run (2 ^ 63)) = Some OverflowError /\
   returned (run (2 ^ 63)) = None /\
   db (snd (run (2 ^ 63))) = db Sample.world) /\
  (raised (run (- 2 ^ 63)) = Some OverflowError /\
   returned (run (- 2 ^ 63)) = None /\
   db (snd (run (- 2 ^ 63))) = db Sample.world).
Proof. cbv zeta. repeat split; vm_compute; reflexivity. Qed.

(** Outside that range of discounts an empty cart is never stored: the
    driver does not encode the discount or the total, the call raises
    [OverflowError] after its five draws, and the store is as it was. *)
Lemma empty_cart_with_a_wide_discount_raises (env : Env)
    (customer_id : option string) (payment_method : string)
    (discount_amount : Z) (notes : option string) (user : User.t)
    (w : World) :
  discount_amount <= - 2 ^ 63 \/ 2 ^ 63 <= discount_amount ->
  create_order env
    (OrderCreate.mk customer_id [] payment_method discount_amount notes)
    user w
  = (Raise OverflowError, {| db := db w; draws := 5 + draws w |}).
Proof.
  intros Hd. rewrite create_order_cases. cbn [OrderCreate.items map].
  change (Float.int_mul_rate (sum [])) with (Some 0). cbv zeta.
  assert (Henc : Order.encodable
                   (placed_order env
                      (OrderCreate.mk customer_id [] payment_method
                         discount_amount notes) user (db w) (draws w) 0)
                 = false).
  { unfold Order.encodable, placed_order. cbn.
    unfold Bson.int64. change (2 ^ 63) with 9223372036854775808 in *.
    rewrite !andb_false_iff, !Z.leb_gt, !Z.ltb_ge. lia. }
  cbv iota beta. rewrite Henc. reflexivity.
Qed.

(** C9, amended. [create_order] on a cart without lines, with a discount
    strictly between -2^63 and 2^63, does not raise: it returns an order
    without items, with subtotal 0, tax 0 and total minus the discount,
    pending, appended to the orders as the store holds it; the ledger and
    the products are as they were. *)
Theorem empty_cart_is_accepted (env : Env) (customer_id : option string)
    (payment_method : string) (discount_amount : Z) (notes : option string)
    (user : User.t) (w : World) :
  - 2 ^ 63 < discount_amount < 2 ^ 63 ->
  exists order w',
    create_order env
      (OrderCreate.mk customer_id [] payment_method discount_amount notes)
      user w = (Ok order, w') /\
    Order.items order = [] /\
    Order.subtotal order = 0 /\
    Order.tax_amount order = 0 /\
    Order.total_amount order = - discount_amount /\
    Order.payment_status order = "pending" /\
    DB.orders (db w') = (DB.orders (db w) ++ [Order.stored order])%list /\
    DB.inventory_movements (db w') = DB.inventory_movements (db w) /\
    DB.products (db w') = DB.products (db w).
Proof.
  intros Hd. rewrite create_order_cases. cbn [OrderCreate.items map].
  change (Float.int_mul_rate (sum [])) with (Some 0). cbv zeta.
  assert (Henc : Order.encodable
                   (placed_order env
                      (OrderCreate.mk customer_id [] payment_method
                         discount_amount notes) user (db w) (draws w) 0)
                 = true).
  { unfold Order.encodable, placed_order. cbn.
    unfold Bson.int64. change (2 ^ 63) with 9223372036854775808 in *.
    rewrite !andb_true_iff, !Z.leb_le, !Z.ltb_lt. lia. }
  cbv iota beta. rewrite Henc. cbn [lines_exn lines_done].
  eexists. eexists. split; [reflexivity|].
  cbn. rewrite app_nil_r. repeat split.
Qed.

Lemma empty_cart_is_accepted_witness :
  exists order w',
    create_order Sample.env (OrderCreate.mk None [] "cash" 50 None)
      Sample.cashier Sample.world = (Ok order, w') /\
    Order.items order = [] /\
    Order.subtotal order = 0 /\
    Order.tax_amount order = 0 /\
    Order.total_amount order = - 50 /\
    Order.payment_status order = "pending" /\
    DB.orders (db w')
    = (DB.orders (db Sample.world) ++ [Order.stored order])%list /\
    DB.inventory_movements (db w') = DB.inventory_movements (db Sample.world) /\
    DB.products (db w') = DB.products (db Sample.world).
Proof.
  apply (empty_cart_is_accepted Sample.env None "cash" 50 None Sample.cashier
           Sample.world).
  vm_compute. split; reflexivity.
Defined.

(* ================================================================== *)
(** ** Further properties of orders *)

Lemma find_one_app {A : Type} (q : A -> bool) (l l' : list A) :
  Coll.find_one q (l ++ l') =
  match Coll.find_one q l with
  | Some a => Some a
  | None => Coll.find_one q l'
  end.
Proof.
  unfold Coll.find_one. induction l as [|a l IH]; cbn; [reflexivity|].
  destruct (q a); [reflexivity | exact IH].
Qed.

(** X1. An order that [create_order] returned is the one [get_order]
    returns for its id afterwards, as the store holds it: with every field
    of the returned order, but with the two stamps in whole milliseconds,
    what [created_at] and [updated_at] had below a millisecond dropped;
    provided no order stored before had that id. *)
Theorem created_order_can_be_fetched (env : Env) (od : OrderCreate.t)
    (user : User.t) (w w' : World) (order : Order.t) :
  create_order env od user w = (Ok order, w') ->
  Coll.find_one (by_order_id (Order.id order)) (DB.orders (db w)) = None ->
  get_order (Order.id order) w' = (Ok (Order.stored order), w') /\
  Order.created_at (Order.stored order)
  = Order.created_at order - Order.created_at order mod 1000 /\
  Order.updated_at (Order.stored order)
  = Order.updated_at order - Order.updated_at order mod 1000.
Proof.
  intros Hrun Hfresh.
  destruct (create_order_returns _ _ _ _ _ _ Hrun) as (tax & _ & Hdb).
  split.
  - unfold get_order, bind, query. rewrite Hdb. cbn [DB.orders].
    fold (by_order_id (Order.id order)).
    rewrite find_one_app, Hfresh. cbn.
    unfold by_order_id. rewrite String.eqb_refl. reflexivity.
  - cbn [Order.stored Order.created_at Order.updated_at].
    unfold Bson.datetime, Bson.millis.
    pose proof (Z.div_mod (Order.created_at order) 1000 ltac:(lia)).
    pose proof (Z.div_mod (Order.updated_at order) 1000 ltac:(lia)).
    lia.
Qed.

Lemma created_order_can_be_fetched_witness :
  let od :=
    OrderCreate.mk (Some "C1") [Sample.line Sample.espresso 2] "cash" 0 None in
  let r := create_order Sample.env od Sample.cashier Sample.world in
  let order := placed_order Sample.env od Sample.cashier Sample.store 0 56 in
  get_order (Order.id order) (snd r) = (Ok (Order.stored order), snd r) /\
  Order.created_at order = 1793724420000003 /\
  Order.created_at (Order.stored order) = 1793724420000000.
Proof.
  cbv zeta.
  set (od := OrderCreate.mk (Some "C1") [Sample.line Sample.espresso 2]
               "cash" 0 None).
  assert (Hrun :
    create_order Sample.env od Sample.cashier Sample.world
    = (Ok (placed_order Sample.env od Sample.cashier Sample.store 0 56),
       snd (create_order Sample.env od Sample.cashier Sample.world)))
    by (vm_compute; reflexivity).
  destruct (created_order_can_be_fetched Sample.env od Sample.cashier
              Sample.world _ _ Hrun eq_refl) as (Hget & _ & _).
  split; [exact Hget|]. split; vm_compute; reflexivity.
Defined.

(** X2. A returned order is pending, carries the cashier's id and name,
    and carries the customer id it was given.  The customer's name is
    snapshotted when the id selects a stored customer; an id that selects
    none is accepted all the same, and the name stays unset. *)
Theorem order_snapshots_cashier_and_customer (env : Env)
    (od : OrderCreate.t) (user : User.t) (w w' : World) (order : Order.t) :
  create_order env od user w = (Ok order, w') ->
  Order.payment_status order = "pending" /\
  Order.cashier_id order = User.id user /\
  Order.cashier_name order = User.full_name user /\
  Order.customer_id order = OrderCreate.customer_id od /\
  (forall i c,
     OrderCreate.customer_id od = Some i -> i <> "" ->
     Coll.find_one (by_customer_id i) (DB.customers (db w)) = Some c ->
     Order.customer_name order = Some (Customer.name c)) /\
  (forall i,
     OrderCreate.customer_id od = Some i ->
     Coll.find_one (by_customer_id i) (DB.customers (db w)) = None ->
     Order.customer_name order = None) /\
  (OrderCreate.customer_id od = None -> Order.customer_name order = None).
Proof.
  intros Hrun.
  destruct (create_order_returns _ _ _ _ _ _ Hrun) as (tax & -> & _).
  cbn. repeat split.
  - intros i c Hi Hne Hc. unfold customer_name_of. rewrite Hi.
    apply String.eqb_neq in Hne. rewrite Hne, Hc. reflexivity.
  - intros i Hi Hc. unfold customer_name_of. rewrite Hi, Hc.
    destruct (negb _); reflexivity.
  - intros Hi. unfold customer_name_of. rewrite Hi. reflexivity.
Qed.

Lemma order_snapshots_cashier_and_customer_witness :
  let od :=
    OrderCreate.mk (Some "C9") [Sample.line Sample.espresso 2] "cash" 0 None in
  let order := placed_order Sample.env od Sample.cashier Sample.store 0 56 in
  Order.customer_id order = Some "C9" /\ Order.customer_name order = None.
Proof.
  cbv zeta.
  set (od := OrderCreate.mk (Some "C9") [Sample.line Sample.espresso 2]
               "cash" 0 None).
  assert (Hrun :
    create_order Sample.env od Sample.cashier Sample.world
    = (Ok (placed_order Sample.env od Sample.cashier Sample.store 0 56),
       snd (create_order Sample.env od Sample.cashier Sample.world)))
    by (vm_compute; reflexivity).
  destruct (order_snapshots_cashier_and_customer Sample.env od Sample.cashier
              Sample.world _ _ Hrun) as (_ & _ & _ & Hid & _ & Hnone & _).
  split; [exact Hid | apply (Hnone "C9"); reflexivity].
Defined.



Lemma same_but_stock_refl (p : Product.t) : same_but_stock p p.
Proof. unfold same_but_stock. intuition. Qed.

Lemma same_but_stock_trans (p q r : Product.t) :
  same_but_stock p q -> same_but_stock q r -> same_but_stock p r.
Proof. unfold same_but_stock. intuition congruence. Qed.

Lemma decrement_stock_same_but_stock (items : list OrderItem.t)
    (ps : list Product.t) :
  Forall2 same_but_stock ps (decrement_stock items ps).
Proof.
  unfold decrement_stock. revert ps.
  induction items as [|it items IH]; intros ps; cbn.
  - apply Forall2_refl, same_but_stock_refl.
  - eapply Forall2_trans; [exact same_but_stock_trans| |apply IH].
    apply update_one_Forall2; [exact same_but_stock_refl|].
    intros p _. unfold same_but_stock; cbn. intuition.
Qed.

(** X4. What a returning [create_order] leaves alone: the users and the
    customers are unchanged, the orders and the ledger entries stored
    before stand where they stood, and every product document differs from
    what it was in its stock at most. *)
Theorem order_creation_touches_stock_only (env : Env) (od : OrderCreate.t)
    (user : User.t) (w w' : World) (order : Order.t) :
  create_order env od user w = (Ok order, w') ->
  DB.users (db w') = DB.users (db w) /\
  DB.customers (db w') = DB.customers (db w) /\
  extends (DB.orders (db w)) (DB.orders (db w')) /\
  extends (DB.inventory_movements (db w)) (DB.inventory_movements (db w')) /\
  Forall2 same_but_stock (DB.products (db w)) (DB.products (db w')).
Proof.
  intros Hrun.
  destruct (create_order_returns _ _ _ _ _ _ Hrun) as (tax & _ & ->).
  cbn. repeat split.
  - eexists; reflexivity.
  - eexists; reflexivity.
  - apply decrement_stock_same_but_stock.
Qed.

Lemma order_creation_touches_stock_only_witness :
  let od :=
    OrderCreate.mk (Some "C1") [Sample.line Sample.espresso 2] "cash" 0 None in
  let w' := snd (create_order Sample.env od Sample.cashier Sample.world) in
  DB.customers (db w') = DB.customers (db Sample.world) /\
  Forall2 same_but_stock (DB.products (db Sample.world)) (DB.products (db w')).
Proof.
  cbv zeta.
  set (od := OrderCreate.mk (Some "C1") [Sample.line Sample.espresso 2]
               "cash" 0 None).
  assert (Hrun :
    create_order Sample.env od Sample.cashier Sample.world
    = (Ok (placed_order Sample.env od Sample.cashier Sample.store 0 56),
       snd (create_order Sample.env od Sample.cashier Sample.world)))
    by (vm_compute; reflexivity).
  destruct (order_creation_touches_stock_only Sample.env od Sample.cashier
              Sample.world _ _ Hrun) as (_ & Hc & _ & _ & Hp).
  split; assumption.
Defined.

Lemma ledger_delta_app (i : string) (ms ms' : list InventoryMovement.t) :
  ledger_delta i (ms ++ ms') = ledger_delta i ms + ledger_delta i ms'.
Proof. induction ms as [|m ms IH]; cbn; [reflexivity | rewrite IH; lia]. Qed.

Lemma ledger_delta_sale_movements (env : Env) (o : Order.t) (u : User.t)
    (i : string) (items : list OrderItem.t) (k : nat) :
  ledger_delta i (sale_movements env o u k items)
  = - ordered_quantity i items.
Proof.
  revert k. induction items as [|it items IH]; intros k; cbn;
    [reflexivity|].
  rewrite IH. destruct (OrderItem.product_id it =? i)%string; lia.
Qed.

(** A payment leaves the users, the products and the ledger alone. *)
Lemma process_payment_keeps_catalog (env : Env) (p : PaymentRequest.t)
    (w : World) :
  DB.users (db (snd (process_payment env p w))) = DB.users (db w) /\
  DB.products (db (snd (process_payment env p w))) = DB.products (db w) /\
  DB.inventory_movements (db (snd (process_payment env p w)))
  = DB.inventory_movements (db w).
Proof.
  rewrite process_payment_cases; cbv zeta.
  destruct (Coll.find_one _ (DB.orders (db w))) as [order|]; [|auto].
  destruct (Order.payment_status order =? "completed")%string; [auto|].
  destruct (_ && negb _); [auto|]. cbn [snd db].
  destruct (credited_keeps order (PaymentRequest.amount p)
              (DB.with_orders
                 (Coll.update_one (by_order_id (PaymentRequest.order_id p))
                    (Order.set_payment "completed"
                       ("pay_" ++ substring 0 8 (env_uuid4 env (draws w)))
                       (Bson.datetime (env_utcnow env (S (draws w))))))
                 (db w))) as (-> & -> & _ & ->).
  auto.
Qed.

(** What a payment leaves of the orders and the customers in any case,
    returning or raising: the orders as they were or with the selected one
    marked, the customers as they were or with the amount added to one. *)
Lemma process_payment_leaves (env : Env) (p : PaymentRequest.t) (w : World) :
  (DB.orders (db (snd (process_payment env p w))) = DB.orders (db w) \/
   exists pid now,
     DB.orders (db (snd (process_payment env p w)))
     = Coll.update_one (by_order_id (PaymentRequest.order_id p))
         (Order.set_payment "completed" pid now) (DB.orders (db w))) /\
  (DB.customers (db (snd (process_payment env p w))) = DB.customers (db w) \/
   exists i,
     DB.customers (db (snd (process_payment env p w)))
     = Coll.update_one (by_customer_id i)
         (Customer.inc_spent_points (PaymentRequest.amount p)
            (PaymentRequest.amount p / 100))
         (DB.customers (db w))).
Proof.
  rewrite process_payment_cases; cbv zeta.
  destruct (Coll.find_one _ (DB.orders (db w))) as [order|]; [|auto].
  destruct (Order.payment_status order =? "completed")%string; [auto|].
  destruct (_ && negb _); [auto|]. cbn [snd db]. split.
  - right. rewrite (proj1 (proj2 (proj2 (credited_keeps order _ _)))).
    cbn [DB.with_orders DB.orders]. eauto.
  - destruct (Order.customer_id order) as [i|]; [|now left].
    destruct (negb _); [|now left].
    destruct (fst (credit i (PaymentRequest.amount p)
                     (DB.with_orders
                        (Coll.update_one
                           (by_order_id (PaymentRequest.order_id p))
                           (Order.set_payment "completed"
                              ("pay_" ++ substring 0 8
                                           (env_uuid4 env (draws w)))
                              (Bson.datetime (env_utcnow env (S (draws w))))))
                        (db w)))) as [e|] eqn:He.
    + left. apply credit_raises in He as [-> _]. reflexivity.
    + right. exists i. rewrite (credit_returns _ _ _ He). reflexivity.
Qed.

Lemma get_orders_reads_only (env : Env) (date_from date_to : option string)
    (w : World) :
  snd (get_orders env date_from date_to w) = w.
Proof.
  rewrite get_orders_cases.
  destruct date_from as [f|], date_to as [t|]; try reflexivity.
  destruct (_ && _); [|reflexivity].
  destruct (env_fromisoformat env _); [|reflexivity].
  destruct (env_fromisoformat env _); reflexivity.
Qed.

Lemma get_order_reads_only (order_id : string) (w : World) :
  snd (get_order order_id w) = w.
Proof.
  unfold get_order, bind, query; cbn.
  destruct (Coll.find_one _ _); reflexivity.
Qed.

(** The stock of product [i] less the ledger's total for it. *)
Lemma serve_sale_keeps_balance (env : Env) (lib : Lib) (c : call) (w : World)
    (i : string) :
  is_sale c = true ->
  option_map
    (fun s => s - ledger_delta i
                    (DB.inventory_movements (db (serve env lib c w))))
    (stock_of i (DB.products (db (serve env lib c w))))
  = option_map
      (fun s => s - ledger_delta i (DB.inventory_movements (db w)))
      (stock_of i (DB.products (db w))).
Proof.
  destruct c; cbn [is_sale serve]; try discriminate; intros _.
  - destruct (create_order_leaves env order_data current_user w)
      as (done & added & o & k & ->).
    cbn [DB.products DB.inventory_movements].
    rewrite stock_of_decrement_stock, ledger_delta_app,
      ledger_delta_sale_movements.
    destruct (stock_of i (DB.products (db w))); cbn; [f_equal; lia|].
    reflexivity.
  - now rewrite get_orders_reads_only.
  - now rewrite get_order_reads_only.
  - destruct (process_payment_keeps_catalog env payment_data w)
      as (_ & -> & ->). reflexivity.
Qed.

(** X5. The ledger accounts for the stock.  Over any run of order
    creations, payments and order queries, in any order and whether they
    return or raise, the stock of a product less the sum of the ledger's
    deltas for it stays what it was: every change of stock has its ledger
    entries, and every ledger entry for a stored product its change of
    stock. *)
Theorem stock_reconciles_with_ledger (env : Env) (lib : Lib)
    (cs : list call) (w : World) (i : string) :
  forallb is_sale cs = true ->
  option_map
    (fun s => s - ledger_delta i
                    (DB.inventory_movements (db (serve_all env lib cs w))))
    (stock_of i (DB.products (db (serve_all env lib cs w))))
  = option_map
      (fun s => s - ledger_delta i (DB.inventory_movements (db w)))
      (stock_of i (DB.products (db w))).
Proof.
  revert w. induction cs as [|c cs IH]; intros w Hcs; cbn; [reflexivity|].
  cbn in Hcs. apply andb_prop in Hcs as [Hc Hcs].
  rewrite (IH _ Hcs). now apply serve_sale_keeps_balance.
Qed.

Lemma stock_reconciles_with_ledger_witness :
  let cs :=
    [CreateOrder
       (OrderCreate.mk (Some "C1") [Sample.line Sample.espresso 2] "cash" 0
          None) Sample.cashier;
     Pay (Sample.pay "o-pending" "card" 1134 None);
     CreateOrder
       (OrderCreate.mk None
          [Sample.line Sample.espresso 1; Sample.line Sample.muffin 3;
           Sample.line Sample.espresso 4] "card" 100 None) Sample.cashier] in
  let w' := serve_all Sample.env Demo.lib cs Sample.world in
  option_map
    (fun s => s - ledger_delta "P1" (DB.inventory_movements (db w')))
    (stock_of "P1" (DB.products (db w')))
  = Some (100 - 0).
Proof.
  cbv zeta.
  refine (stock_reconciles_with_ledger Sample.env Demo.lib _ Sample.world
            "P1" _).
  reflexivity.
Defined.




(* ================================================================== *)
(** ** Further properties of payments *)

(** What a returning [process_payment] found, returned and left. *)
Lemma process_payment_returns (env : Env) (p : PaymentRequest.t)
    (w w' : World) (resp : PaymentResponse.t) :
  process_payment env p w = (Ok resp, w') ->
  exists order,
    Coll.find_one (by_order_id (PaymentRequest.order_id p))
      (DB.orders (db w)) = Some order /\
    Order.payment_status order <> "completed" /\
    PaymentResponse.payment_id resp
    = "pay_" ++ substring 0 8 (env_uuid4 env (draws w)) /\
    PaymentResponse.status resp = "completed" /\
    PaymentResponse.amount resp = PaymentRequest.amount p /\
    PaymentResponse.order_id resp = PaymentRequest.order_id p /\
    DB.orders (db w')
    = Coll.update_one (by_order_id (PaymentRequest.order_id p))
        (Order.set_payment "completed" (PaymentResponse.payment_id resp)
           (Bson.datetime (env_utcnow env (S (draws w)))))
        (DB.orders (db w)) /\
    DB.customers (db w')
    = match Order.customer_id order with
      | Some i =>
          if negb (i =? "")%string
          then Coll.update_one (by_customer_id i)
                 (Customer.inc_spent_points (PaymentRequest.amount p)
                    (PaymentRequest.amount p / 100))
                 (DB.customers (db w))
          else DB.customers (db w)
      | None => DB.customers (db w)
      end.
Proof.
  intros Hrun. rewrite process_payment_cases in Hrun; cbv zeta in Hrun.
  destruct (Coll.find_one _ (DB.orders (db w))) as [order|]; [|discriminate].
  exists order. split; [reflexivity|].
  destruct (Order.payment_status order =? "completed")%string eqn:Hst;
    [discriminate|].
  apply String.eqb_neq in Hst. split; [exact Hst|].
  destruct (_ && negb _); [discriminate|].
  match type of Hrun with
  | (match fst ?c with _ => _ end, _) = _ => set (credited := c) in *
  end.
  destruct (fst credited) as [e|] eqn:He; [discriminate|].
  injection Hrun as <- <-. cbn [db PaymentResponse.payment_id
    PaymentResponse.status PaymentResponse.amount PaymentResponse.order_id].
  repeat split.
  - subst credited.
    rewrite (proj1 (proj2 (proj2 (credited_keeps order _ _)))).
    reflexivity.
  - subst credited.
    destruct (Order.customer_id order) as [i|]; [|reflexivity].
    destruct (negb _); [|reflexivity].
    rewrite (credit_returns _ _ _ He). reflexivity.
Qed.

(** X7. An order is settled at most once: after a payment request has
    returned, every further request for the same order id, whatever its
    method, amount and tender, is refused with "Order already paid" and
    changes nothing. *)
Theorem settled_order_is_not_paid_twice (env : Env)
    (p p' : PaymentRequest.t) (w w1 : World) (resp : PaymentResponse.t) :
  process_payment env p w = (Ok resp, w1) ->
  PaymentRequest.order_id p' = PaymentRequest.order_id p ->
  process_payment env p' w1 = (Raise AlreadyPaid, w1).
Proof.
  intros Hrun Hid.
  destruct (process_payment_returns _ _ _ _ _ Hrun)
    as (order & Hfind & _ & _ & _ & _ & _ & Horders & _).
  rewrite process_payment_cases; cbv zeta.
  rewrite Hid, Horders, find_one_update_one_same by auto.
  rewrite Hfind. reflexivity.
Qed.

Lemma settled_order_is_not_paid_twice_witness :
  let w1 := snd (process_payment Sample.env
                   (Sample.pay "o-pending" "card" 1134 None) Sample.world) in
  process_payment Sample.env (Sample.pay "o-pending" "cash" 1134 (Some 1134))
    w1
  = (Raise AlreadyPaid, w1).
Proof.
  cbv zeta.
  apply (settled_order_is_not_paid_twice Sample.env
           (Sample.pay "o-pending" "card" 1134 None)
           (Sample.pay "o-pending" "cash" 1134 (Some 1134)) Sample.world _
           (PaymentResponse.mk "pay_00000000" "completed" 1134 "o-pending"
              None));
    reflexivity.
Defined.

(** X8. The reference a payment returns is the one it stores: after a
    returning call the order selected by the request's id is completed and
    its payment reference is the returned payment id, which is "pay_"
    followed by the first eight characters of a fresh uuid; the response
    echoes the requested amount and order id, and the amount is not
    compared with the order's total. *)
Theorem payment_reference_is_stored (env : Env) (p : PaymentRequest.t)
    (w w' : World) (resp : PaymentResponse.t) :
  process_payment env p w = (Ok resp, w') ->
  exists order',
    Coll.find_one (by_order_id (PaymentRequest.order_id p))
      (DB.orders (db w')) = Some order' /\
    Order.payment_status order' = "completed" /\
    Order.square_payment_id order'
    = Some (PaymentResponse.payment_id resp) /\
    PaymentResponse.payment_id resp
    = "pay_" ++ substring 0 8 (env_uuid4 env (draws w)) /\
    PaymentResponse.status resp = "completed" /\
    PaymentResponse.amount resp = PaymentRequest.amount p /\
    PaymentResponse.order_id resp = PaymentRequest.order_id p.
Proof.
  intros Hrun.
  destruct (process_payment_returns _ _ _ _ _ Hrun)
    as (order & Hfind & _ & Hpid & Hst & Ham & Hoid & Horders & _).
  rewrite Horders, find_one_update_one_same by auto. rewrite Hfind.
  eexists. split; [reflexivity|]. cbn. repeat split; assumption.
Qed.

Lemma payment_reference_is_stored_witness :
  let r := process_payment Sample.env (Sample.pay "o-walkin" "card" 1 None)
             Sample.world in
  exists order',
    Coll.find_one (by_order_id "o-walkin") (DB.orders (db (snd r)))
    = Some order' /\
    Order.payment_status order' = "completed" /\
    Order.square_payment_id order' = Some "pay_00000000" /\
    "pay_00000000" = "pay_" ++ substring 0 8 (env_uuid4 Sample.env 0) /\
    "completed" = "completed" /\ 1 = 1 /\ "o-walkin" = "o-walkin".
Proof.
  cbv zeta.
  apply (payment_reference_is_stored Sample.env
           (Sample.pay "o-walkin" "card" 1 None) Sample.world _
           (PaymentResponse.mk "pay_00000000" "completed" 1 "o-walkin" None)).
  reflexivity.
Defined.



Lemma not_below_refl (c : Customer.t) : not_below c c.
Proof. unfold not_below. intuition lia. Qed.

Lemma not_below_trans (a b c : Customer.t) :
  not_below a b -> not_below b c -> not_below a c.
Proof. unfold not_below. intuition (congruence || lia). Qed.

Lemma serve_sale_keeps_customers_up (env : Env) (lib : Lib) (c : call)
    (w : World) :
  is_sale c = true -> pays_nonnegative c ->
  Forall2 not_below (DB.customers (db w))
    (DB.customers (db (serve env lib c w))).
Proof.
  destruct c; cbn [is_sale serve pays_nonnegative]; try discriminate;
    intros _ Hpos.
  - destruct (create_order_leaves env order_data current_user w)
      as (done & added & o & k & ->).
    apply Forall2_refl, not_below_refl.
  - rewrite get_orders_reads_only. apply Forall2_refl, not_below_refl.
  - rewrite get_order_reads_only. apply Forall2_refl, not_below_refl.
  - destruct (proj2 (process_payment_leaves env payment_data w))
      as [-> | [i ->]]; [apply Forall2_refl, not_below_refl|].
    apply update_one_Forall2; [exact not_below_refl|].
    intros d _. unfold not_below; cbn.
    pose proof (Z.div_pos (PaymentRequest.amount payment_data) 100 Hpos
                  ltac:(lia)).
    intuition lia.
Qed.

(** X13. The customers' accumulators never go down under payments of
    non-negative amounts: over any run of order creations, payments and
    order queries in which no payment asks for a negative amount, each
    stored customer keeps its id, and its total_spent and loyalty_points
    are at least what they were. *)
Theorem customer_accumulators_never_decrease (env : Env) (lib : Lib)
    (cs : list call) (w : World) :
  forallb is_sale cs = true ->
  Forall pays_nonnegative cs ->
  Forall2 not_below (DB.customers (db w))
    (DB.customers (db (serve_all env lib cs w))).
Proof.
  revert w. induction cs as [|c cs IH]; intros w Hcs Hpos; cbn.
  - apply Forall2_refl, not_below_refl.
  - cbn in Hcs. apply andb_prop in Hcs as [Hc Hcs].
    inversion Hpos as [|? ? Hp Hps]; subst.
    eapply Forall2_trans; [exact not_below_trans| |apply IH; assumption].
    now apply serve_sale_keeps_customers_up.
Qed.

Lemma customer_accumulators_never_decrease_witness :
  Forall2 not_below (DB.customers (db Sample.world))
    (DB.customers
       (db (serve_all Sample.env Demo.lib
              [Pay (Sample.pay "o-pending" "card" 1134 None);
               Pay (Sample.pay "o-walkin" "cash" 0 (Some 5))]
              Sample.world))).
Proof.
  apply (customer_accumulators_never_decrease Sample.env Demo.lib
           [Pay (Sample.pay "o-pending" "card" 1134 None);
            Pay (Sample.pay "o-walkin" "cash" 0 (Some 5))] Sample.world).
  - reflexivity.
  - repeat constructor; cbn; lia.
Defined.

(* ================================================================== *)
(** ** Further properties of the order listing *)

Lemma In_firstn {A : Type} (n : nat) (l : list A) (x : A) :
  In x (firstn n l) -> In x l.
Proof.
  intros H. rewrite <- (firstn_skipn n l). apply in_or_app. now left.
Qed.

Lemma In_listing (q : option (Z * Z)) (d : DB.t) (o : Order.t) :
  In o (listing q d) -> In o (DB.orders d) /\ matches q o = true.
Proof.
  unfold listing, Coll.to_list. intros H. apply In_firstn in H.
  apply (Permutation_in _ (Permutation_sym (sort_desc_Permutation _ _))) in H.
  now apply filter_In in H.
Qed.


(** The filter [get_orders] ends up with, and the page it returns. *)
Lemma get_orders_returns (env : Env) (date_from date_to : option string)
    (w w' : World) (l : list Order.t) :
  get_orders env date_from date_to w = (Ok l, w') ->
  w' = w /\
  exists q,
    l = listing q (db w) /\
    (truthy_str date_from = false \/ truthy_str date_to = false ->
     q = None) /\
    (forall f t a b,
       date_from = Some f -> date_to = Some t -> f <> "" -> t <> "" ->
       env_fromisoformat env (replace "Z" "+00:00" f) = Some a ->
       env_fromisoformat env (replace "Z" "+00:00" t) = Some b ->
       q = Some (a, b)).
Proof.
  intros Hrun. rewrite get_orders_cases in Hrun.
  destruct date_from as [f|], date_to as [t|]; cbn [truthy_str].
  - destruct (negb (f =? "")%string) eqn:Hf;
      [destruct (negb (t =? "")%string) eqn:Ht|]; cbn [andb] in Hrun.
    + destruct (env_fromisoformat env (replace "Z" "+00:00" f)) as [a|]
        eqn:Ha; [|discriminate].
      destruct (env_fromisoformat env (replace "Z" "+00:00" t)) as [b|]
        eqn:Hb; [|discriminate].
      injection Hrun as <- <-. split; [reflexivity|].
      exists (Some (a, b)). split; [reflexivity|]. split.
      * intros [H|H]; discriminate.
      * intros f' t' a' b' [= <-] [= <-] _ _. rewrite Ha, Hb.
        now intros [= <-] [= <-].
    + injection Hrun as <- <-. split; [reflexivity|].
      exists None. split; [reflexivity|]. split; [reflexivity|].
      intros f' t' a' b' _ [= <-] _ Hne. apply String.eqb_neq in Hne.
      rewrite Hne in Ht. discriminate.
    + injection Hrun as <- <-. split; [reflexivity|].
      exists None. split; [reflexivity|]. split; [reflexivity|].
      intros f' t' a' b' [= <-] _ Hne. apply String.eqb_neq in Hne.
      rewrite Hne in Hf. discriminate.
  - injection Hrun as <- <-. split; [reflexivity|].
    exists None. repeat split. discriminate.
  - injection Hrun as <- <-. split; [reflexivity|].
    exists None. repeat split. discriminate.
  - injection Hrun as <- <-. split; [reflexivity|].
    exists None. repeat split. discriminate.
Qed.

(** The range filter compares whole milliseconds: a lower bound half a
    millisecond after an order's stamp still lists the order. *)
Lemma listing_compares_whole_milliseconds :
  map Order.id
    (listing (Some (1793620800000500, 1793620800000999)) Sample.store)
  = ["o-pending"] /\
  Order.created_at Sample.o_pending = 1793620800000000.
Proof. split; vm_compute; reflexivity. Qed.

(** X10. Listing orders reads and does not write, and lists nothing that
    is not there: the world after a returning call is the world before,
    every listed order is a stored order, and when both bounds were given
    and parsed, every listed order was created within them, ends included,
    to the millisecond: the milliseconds of its stamp are between the
    milliseconds of the bounds, so that the stamp itself is less than a
    millisecond outside them at most, and a stamp of whole milliseconds is
    not after the upper bound. *)
Theorem listed_orders_are_stored_and_in_range (env : Env)
    (date_from date_to : option string) (w w' : World) (l : list Order.t) :
  get_orders env date_from date_to w = (Ok l, w') ->
  w' = w /\
  Forall (fun o => In o (DB.orders (db w))) l /\
  (forall f t a b,
     date_from = Some f -> date_to = Some t -> f <> "" -> t <> "" ->
     env_fromisoformat env (replace "Z" "+00:00" f) = Some a ->
     env_fromisoformat env (replace "Z" "+00:00" t) = Some b ->
     Forall (fun o =>
               Bson.millis a <= Bson.millis (Order.created_at o)
               <= Bson.millis b /\
               a - 1000 < Order.created_at o < b + 1000 /\
               (Order.created_at o mod 1000 = 0 -> Order.created_at o <= b))
       l).
Proof.
  intros Hrun.
  destruct (get_orders_returns _ _ _ _ _ _ Hrun) as (-> & q & -> & _ & Hq).
  split; [reflexivity|]. split.
  - apply Forall_forall. intros o Ho. now apply In_listing in Ho.
  - intros f t a b Hf Ht Hfe Hte Ha Hb.
    rewrite (Hq f t a b Hf Ht Hfe Hte Ha Hb).
    apply Forall_forall. intros o Ho. apply In_listing in Ho as [_ Hm].
    cbn in Hm. apply andb_prop in Hm as [H1 H2].
    apply Z.leb_le in H1, H2. unfold Bson.millis in *.
    pose proof (Z.div_mod a 1000 ltac:(lia)).
    pose proof (Z.mod_pos_bound a 1000 ltac:(lia)).
    pose proof (Z.div_mod b 1000 ltac:(lia)).
    pose proof (Z.mod_pos_bound b 1000 ltac:(lia)).
    pose proof (Z.div_mod (Order.created_at o) 1000 ltac:(lia)).
    pose proof (Z.mod_pos_bound (Order.created_at o) 1000 ltac:(lia)).
    repeat split; try lia.
Qed.

Lemma listed_orders_are_stored_and_in_range_witness :
  let a := 1793491200000000 in
  let b := 1793632000000000 in
  let l := listing (Some (a, b)) Sample.store in
  map Order.id l = ["o-refunded"; "o-failed"; "o-paid"; "o-pending"] /\
  Forall (fun o => In o (DB.orders (db Sample.world))) l /\
  Forall (fun o =>
            Bson.millis a <= Bson.millis (Order.created_at o)
            <= Bson.millis b /\
            a - 1000 < Order.created_at o < b + 1000 /\
            (Order.created_at o mod 1000 = 0 -> Order.created_at o <= b))
    l.
Proof.
  cbv zeta.
  assert (Hrun :
    get_orders Sample.env (Some "2026-11-01T00:00:00Z")
      (Some "2026-11-02T15:06:40+00:00") Sample.world
    = (Ok (listing (Some (1793491200000000, 1793632000000000)) Sample.store),
       Sample.world))
    by (vm_compute; reflexivity).
  destruct (listed_orders_are_stored_and_in_range _ _ _ _ _ _ Hrun)
    as (_ & Hstored & Hrange).
  split; [vm_compute; reflexivity|]. split; [exact Hstored|].
  apply (Hrange "2026-11-01T00:00:00Z" "2026-11-02T15:06:40+00:00");
    try reflexivity; discriminate.
Defined.



(* ================================================================== *)
(** ** The order number *)

Lemma upper_ascii_idem (a : ascii) :
  upper_ascii (upper_ascii a) = upper_ascii a.
Proof.
  destruct a as [[] [] [] [] [] [] [] []]; vm_compute; reflexivity.
Qed.

Lemma upper_idem (s : string) : upper (upper s) = upper s.
Proof.
  induction s as [|a s IH]; cbn; [reflexivity|].
  now rewrite upper_ascii_idem, IH.
Qed.

Lemma length_upper (s : string) : String.length (upper s) = String.length s.
Proof. induction s as [|a s IH]; cbn; congruence. Qed.

Lemma length_substring_0 (n : nat) (s : string) :
  String.length (substring 0 n s) = Nat.min n (String.length s).
Proof.
  revert s. induction n as [|n IH]; intros [|a s]; cbn; try reflexivity.
  now rewrite IH.
Qed.

(** X12. The order number of a returned order is "ORD-", the stamp
    that [strftime] made of the local clock, a dash, and a suffix without
    lower-case letters made of the first eight characters of a uuid (all
    of them when it has fewer).  The uuid is drawn for the number alone:
    it is the draw before the one that becomes the order's id. *)
Theorem order_number_format (env : Env) (od : OrderCreate.t)
    (user : User.t) (w w' : World) (order : Order.t) :
  create_order env od user w = (Ok order, w') ->
  exists suffix,
    Order.order_number order
    = "ORD-" ++ env_strftime_now env (draws w) ++ "-" ++ suffix /\
    upper suffix = suffix /\
    String.length suffix
    = Nat.min 8 (String.length (env_uuid4 env (S (draws w)))) /\
    Order.id order = env_uuid4 env (S (S (draws w))).
Proof.
  intros Hrun.
  destruct (create_order_returns _ _ _ _ _ _ Hrun) as (tax & -> & _).
  eexists. split; [reflexivity|]. split; [apply upper_idem|].
  split; [|reflexivity].
  now rewrite length_upper, length_substring_0.
Qed.

Lemma order_number_format_witness :
  let od :=
    OrderCreate.mk (Some "C1") [Sample.line Sample.espresso 2] "cash" 0 None in
  let order := placed_order Sample.env od Sample.cashier Sample.store 0 56 in
  exists suffix,
    Order.order_number order = "ORD-" ++ "20261103164700" ++ "-" ++ suffix /\
    upper suffix = suffix /\
    String.length suffix = Nat.min 8 36 /\
    Order.id order = "00000002-7d4c-4e1b-9a3f-5b2e8c6d1f0a".
Proof.
  cbv zeta.
  apply (order_number_format Sample.env
           (OrderCreate.mk (Some "C1") [Sample.line Sample.espresso 2] "cash"
              0 None) Sample.cashier Sample.world
           (snd (create_order Sample.env
                   (OrderCreate.mk (Some "C1") [Sample.line Sample.espresso 2]
                      "cash" 0 None) Sample.cashier Sample.world))).
  vm_compute. reflexivity.
Defined.

(* ================================================================== *)
(** ** Accounts *)

Lemma register_user_cases (env : Env) (lib : Lib) (ud : UserCreate.t)
    (w : World) :
  register_user env lib ud w =
  match Coll.find_one (by_username (UserCreate.username ud))
          (DB.users (db w)) with
  | Some _ => (Raise (HTTPException 400 "Username already registered"), w)
  | None =>
      (Ok (RegisterResponse.mk "User registered successfully"
             (UserCreate.role ud =? "employee")%string),
       {| db := DB.mk
                  (DB.users (db w) ++ [registered_user env lib ud (draws w)])
                  (DB.products (db w)) (DB.customers (db w))
                  (DB.orders (db w)) (DB.inventory_movements (db w));
          draws := S (S (S (draws w))) |})
  end.
Proof.
  unfold register_user, bind, query; cbn.
  fold (by_username (UserCreate.username ud)).
  destruct (Coll.find_one _ (DB.users (db w))); reflexivity.
Qed.

Lemma login_user_cases (env : Env) (lib : Lib) (ld : UserLogin.t)
    (w : World) :
  login_user env lib ld w =
  match Coll.find_one (by_username (UserLogin.username ld))
          (DB.users (db w)) with
  | None => (Raise (Unauthorized "Invalid username or PIN"), w)
  | Some user =>
      if negb (lib_sha256_hexdigest lib (UserLogin.pin ld) =? User.pin user)%string
      then (Raise (Unauthorized "Invalid username or PIN"), w)
      else if negb (User.is_approved user)
      then (Raise (Unauthorized "Account not approved by admin"), w)
      else
        (Ok (LoginResponse.mk
               (lib_jwt_encode lib (User.id user) (User.role user)
                  (env_utcnow env (draws w) + token_lifetime))
               "bearer" (User.id user) (User.username user)
               (User.full_name user) (User.role user)),
         {| db := db w; draws := S (draws w) |})
  end.
Proof.
  unfold login_user, bind, query; cbn.
  fold (by_username (UserLogin.username ld)).
  destruct (Coll.find_one _ (DB.users (db w))) as [user|]; [|reflexivity].
  unfold verify_pin, hash_pin.
  destruct (negb (_ =? User.pin user)%string); [reflexivity|].
  destruct (negb (User.is_approved user)); reflexivity.
Qed.

Lemma approve_user_cases (env : Env) (user_id : string)
    (current_user : User.t) (w : World) :
  approve_user env user_id current_user w =
  if negb (User.role current_user =? "admin")%string
  then (Raise AdminRequired, w)
  else
    (match Coll.find_one (by_user_id user_id) (DB.users (db w)) with
     | Some _ => Ok "User approved successfully"
     | None => Raise (HTTPException 404 "User not found")
     end,
     {| db := DB.mk
                (Coll.update_one (by_user_id user_id) set_approved
                   (DB.users (db w)))
                (DB.products (db w)) (DB.customers (db w))
                (DB.orders (db w)) (DB.inventory_movements (db w));
        draws := S (draws w) |}).
Proof.
  unfold approve_user, admin_only, bind.
  destruct (negb (User.role current_user =? "admin")%string);
    [reflexivity|].
  cbn. fold (by_user_id user_id).
  destruct (Coll.find_one _ (DB.users (db w))); reflexivity.
Qed.

(** The store, put back together from its collections. *)
Lemma db_eta (d : DB.t) :
  DB.mk (DB.users d) (DB.products d) (DB.customers d) (DB.orders d)
    (DB.inventory_movements d) = d.
Proof. destruct d; reflexivity. Qed.

Lemma find_one_some_iff_not_all {A : Type} (q : A -> bool) (l : list A) :
  Coll.find_one q l = None <-> forall x, In x l -> q x = false.
Proof.
  unfold Coll.find_one. split.
  - intros H x Hx. exact (find_none q l H x Hx).
  - induction l as [|a l IH]; cbn; intros H; [reflexivity|].
    rewrite (H a (or_introl eq_refl)). apply IH.
    intros x Hx. apply H. now right.
Qed.

(** X14. Registration keeps usernames unique and refuses a taken one
    without writing: when a stored user has the username, the call raises
    "Username already registered" and the world is as it was; and whether
    the call returns or raises, usernames that were pairwise distinct
    before it are so after it. *)
Theorem registration_keeps_usernames_unique (env : Env) (lib : Lib)
    (ud : UserCreate.t) (w : World) :
  (forall u, In u (DB.users (db w)) ->
             User.username u = UserCreate.username ud ->
             register_user env lib ud w
             = (Raise (HTTPException 400 "Username already registered"), w))
  /\
  (NoDup (map User.username (DB.users (db w))) ->
   NoDup (map User.username
            (DB.users (db (snd (register_user env lib ud w)))))).
Proof.
  rewrite register_user_cases.
  destruct (Coll.find_one _ (DB.users (db w))) as [u0|] eqn:Hfind.
  - split; [reflexivity | trivial].
  - pose proof (proj1 (find_one_some_iff_not_all _ _) Hfind) as Hnone.
    split.
    + intros u Hu Hname. specialize (Hnone u Hu).
      unfold by_username in Hnone. apply String.eqb_neq in Hnone.
      contradiction.
    + intros Hnd. cbn. rewrite map_app. cbn.
      apply NoDup_app; [exact Hnd | repeat constructor; intros [] |].
      intros n Hn [<-|[]]. apply in_map_iff in Hn as (u & Hname & Hu).
      specialize (Hnone u Hu). unfold by_username in Hnone.
      apply String.eqb_neq in Hnone. contradiction.
Qed.

Lemma registration_keeps_usernames_unique_witness :
  NoDup (map User.username
           (DB.users (db (snd (register_user Sample.env Demo.lib
                                 Demo.newcomer Demo.world))))).
Proof.
  apply (proj2 (registration_keeps_usernames_unique Sample.env Demo.lib
                  Demo.newcomer Demo.world)).
  repeat constructor; cbn; intuition discriminate.
Defined.

(** The user a returning registration stored is the one its username
    selects afterwards. *)
Lemma registered_user_is_found (env : Env) (lib : Lib) (ud : UserCreate.t)
    (w w1 : World) (r : RegisterResponse.t) :
  register_user env lib ud w = (Ok r, w1) ->
  Coll.find_one (by_username (UserCreate.username ud)) (DB.users (db w))
  = None /\
  Coll.find_one (by_username (UserCreate.username ud)) (DB.users (db w1))
  = Some (registered_user env lib ud (draws w)) /\
  DB.users (db w1)
  = (DB.users (db w) ++ [registered_user env lib ud (draws w)])%list /\
  RegisterResponse.requires_approval r
  = (UserCreate.role ud =? "employee")%string.
Proof.
  intros Hrun. rewrite register_user_cases in Hrun.
  destruct (Coll.find_one _ (DB.users (db w))) eqn:Hfind; [discriminate|].
  injection Hrun as <- <-. cbn. split; [reflexivity|].
  split; [|split; reflexivity].
  rewrite find_one_app, Hfind. cbn.
  unfold by_username; cbn. now rewrite String.eqb_refl.
Qed.

(** X15. A newly registered account that is not an admin's cannot log in:
    after a returning registration with a role other than "admin", a
    login with the very credentials registered is refused with "Account
    not approved by admin", and the world is as the registration left
    it. *)
Theorem registered_employee_cannot_log_in (env : Env) (lib : Lib)
    (ud : UserCreate.t) (w w1 : World) (r : RegisterResponse.t) :
  register_user env lib ud w = (Ok r, w1) ->
  UserCreate.role ud <> "admin" ->
  login_user env lib (credentials_of ud) w1
  = (Raise (Unauthorized "Account not approved by admin"), w1).
Proof.
  intros Hrun Hrole.
  destruct (registered_user_is_found _ _ _ _ _ _ Hrun) as (_ & Hfind & _).
  rewrite login_user_cases. cbn [credentials_of UserLogin.username
    UserLogin.pin]. rewrite Hfind. cbn.
  rewrite String.eqb_refl. cbn.
  apply String.eqb_neq in Hrole. rewrite Hrole. reflexivity.
Qed.

Lemma registered_employee_cannot_log_in_witness :
  let w1 := snd (register_user Sample.env Demo.lib Demo.newcomer Demo.world) in
  login_user Sample.env Demo.lib (credentials_of Demo.newcomer) w1
  = (Raise (Unauthorized "Account not approved by admin"), w1).
Proof.
  cbv zeta.
  apply (registered_employee_cannot_log_in Sample.env Demo.lib Demo.newcomer
           Demo.world _
           (RegisterResponse.mk "User registered successfully" true)).
  - reflexivity.
  - discriminate.
Defined.

Lemma update_one_last {A : Type} (q : A -> bool) (f : A -> A) (l : list A)
    (x : A) :
  Coll.find_one q l = None -> q x = true ->
  Coll.update_one q f (l ++ [x]) = (l ++ [f x])%list.
Proof.
  intros Hnone Hx.
  pose proof (proj1 (find_one_some_iff_not_all _ _) Hnone) as Hall.
  clear Hnone. induction l as [|a l IH]; cbn.
  - now rewrite Hx.
  - rewrite (Hall a (or_introl eq_refl)). f_equal. apply IH.
    intros y Hy. apply Hall. now right.
Qed.

(** X16. Approval opens the account.  After a returning registration,
    when an admin approves the id the new user was given (an id no user
    stored before had), the approval returns, and a login with the
    credentials registered returns a bearer token for that id and role
    that expires 24 hours after the clock reading it drew. *)
Theorem approved_account_can_log_in (env : Env) (lib : Lib)
    (ud : UserCreate.t) (admin : User.t) (w w1 : World)
    (r : RegisterResponse.t) :
  register_user env lib ud w = (Ok r, w1) ->
  User.role admin = "admin" ->
  Coll.find_one (by_user_id (env_uuid4 env (draws w))) (DB.users (db w))
  = None ->
  exists w2 w3 resp,
    approve_user env (env_uuid4 env (draws w)) admin w1
    = (Ok "User approved successfully", w2) /\
    login_user env lib (credentials_of ud) w2 = (Ok resp, w3) /\
    LoginResponse.user_id resp = env_uuid4 env (draws w) /\
    LoginResponse.role resp = UserCreate.role ud /\
    LoginResponse.token_type resp = "bearer" /\
    LoginResponse.access_token resp
    = lib_jwt_encode lib (env_uuid4 env (draws w)) (UserCreate.role ud)
        (env_utcnow env (draws w2) + token_lifetime).
Proof.
  intros Hrun Hadmin Hfresh.
  destruct (registered_user_is_found _ _ _ _ _ _ Hrun)
    as (Hnone & _ & Husers & _).
  set (i := env_uuid4 env (draws w)) in *.
  set (u := registered_user env lib ud (draws w)) in *.
  assert (Hself : by_user_id i u = true)
    by (unfold by_user_id; cbn; apply String.eqb_refl).
  pose proof (update_one_last (by_user_id i) set_approved _ u Hfresh Hself)
    as Hupd.
  assert (Happ :
    approve_user env i admin w1
    = (Ok "User approved successfully",
       {| db := DB.mk (DB.users (db w) ++ [set_approved u])
                  (DB.products (db w1)) (DB.customers (db w1))
                  (DB.orders (db w1)) (DB.inventory_movements (db w1));
          draws := S (draws w1) |})).
  { rewrite approve_user_cases, Hadmin, String.eqb_refl. cbn [negb].
    rewrite Husers, Hupd, find_one_app, Hfresh. cbn [Coll.find_one find].
    rewrite Hself. reflexivity. }
  eexists. eexists. eexists. split; [exact Happ|].
  rewrite login_user_cases. cbn [db DB.users credentials_of
    UserLogin.username UserLogin.pin].
  rewrite find_one_app, Hnone. cbn.
  rewrite !String.eqb_refl. cbn.
  split; [reflexivity|]. repeat split.
Qed.

Lemma approved_account_can_log_in_witness :
  exists w2 w3 resp,
    approve_user Sample.env (env_uuid4 Sample.env 0) Demo.admin
      (snd (register_user Sample.env Demo.lib Demo.newcomer Demo.world))
    = (Ok "User approved successfully", w2) /\
    login_user Sample.env Demo.lib (credentials_of Demo.newcomer) w2
    = (Ok resp, w3) /\
    LoginResponse.user_id resp = env_uuid4 Sample.env 0 /\
    LoginResponse.role resp = "employee" /\
    LoginResponse.token_type resp = "bearer" /\
    LoginResponse.access_token resp
    = lib_jwt_encode Demo.lib (env_uuid4 Sample.env 0) "employee"
        (env_utcnow Sample.env (draws w2) + token_lifetime).
Proof.
  apply (approved_account_can_log_in Sample.env Demo.lib Demo.newcomer
           Demo.admin Demo.world _
           (RegisterResponse.mk "User registered successfully" true));
    reflexivity.
Defined.

(** X17. Registration asks for no credentials and approves an admin on
    the spot: a returning registration with role "admin" reports that no
    approval is required, and a login with the credentials registered
    returns at once, with role "admin". *)
Theorem registered_admin_can_log_in_at_once (env : Env) (lib : Lib)
    (ud : UserCreate.t) (w w1 : World) (r : RegisterResponse.t) :
  register_user env lib ud w = (Ok r, w1) ->
  UserCreate.role ud = "admin" ->
  RegisterResponse.requires_approval r = false /\
  exists resp w2,
    login_user env lib (credentials_of ud) w1 = (Ok resp, w2) /\
    LoginResponse.role resp = "admin" /\
    LoginResponse.username resp = UserCreate.username ud.
Proof.
  intros Hrun Hrole.
  destruct (registered_user_is_found _ _ _ _ _ _ Hrun)
    as (_ & Hfind & _ & Hreq).
  split; [rewrite Hreq, Hrole; reflexivity|].
  rewrite login_user_cases. cbn [credentials_of UserLogin.username
    UserLogin.pin]. rewrite Hfind. cbn.
  rewrite String.eqb_refl, Hrole. cbn.
  eexists. eexists. split; [reflexivity|]. split; reflexivity.
Qed.

Lemma registered_admin_can_log_in_at_once_witness :
  false = false /\
  exists resp w2,
    login_user Sample.env Demo.lib (credentials_of Demo.second_admin)
      (snd (register_user Sample.env Demo.lib Demo.second_admin Demo.world))
    = (Ok resp, w2) /\
    LoginResponse.role resp = "admin" /\
    LoginResponse.username resp = "root2".
Proof.
  apply (registered_admin_can_log_in_at_once Sample.env Demo.lib
           Demo.second_admin Demo.world _
           (RegisterResponse.mk "User registered successfully" false));
    reflexivity.
Defined.

(** X18. Logging in never writes to the store, and it tells a wrong PIN
    from an unknown username no more than it has to: a refusal leaves the
    world as it was and is "Invalid username or PIN" exactly when no user
    has the username or the digest of the PIN differs from the stored
    one, and "Account not approved by admin" exactly when the user exists,
    the PIN is right and the account is not approved. *)
Theorem login_reads_only (env : Env) (lib : Lib) (ld : UserLogin.t)
    (w : World) :
  db (snd (login_user env lib ld w)) = db w /\
  forall e w',
    login_user env lib ld w = (Raise e, w') ->
    w' = w /\
    ((e = Unauthorized "Invalid username or PIN" /\
      forall u,
        Coll.find_one (by_username (UserLogin.username ld))
          (DB.users (db w)) = Some u ->
        lib_sha256_hexdigest lib (UserLogin.pin ld) <> User.pin u) \/
     (e = Unauthorized "Account not approved by admin" /\
      exists u,
        Coll.find_one (by_username (UserLogin.username ld))
          (DB.users (db w)) = Some u /\
        lib_sha256_hexdigest lib (UserLogin.pin ld) = User.pin u /\
        User.is_approved u = false)).
Proof.
  rewrite login_user_cases.
  destruct (Coll.find_one _ (DB.users (db w))) as [u|].
  - destruct (lib_sha256_hexdigest lib (UserLogin.pin ld) =? User.pin u)%string
      eqn:Hpin; cbn [negb].
    + apply String.eqb_eq in Hpin.
      destruct (User.is_approved u) eqn:Happ; cbn [negb].
      * split; [reflexivity | discriminate].
      * split; [reflexivity|]. intros e w' [= <- <-].
        split; [reflexivity|]. right. split; [reflexivity|]. eauto.
    + apply String.eqb_neq in Hpin. split; [reflexivity|].
      intros e w' [= <- <-]. split; [reflexivity|]. left.
      split; [reflexivity|]. now intros u' [= <-].
  - split; [reflexivity|]. intros e w' [= <- <-].
    split; [reflexivity|]. left. split; [reflexivity | discriminate].
Qed.

Lemma create_product_cases (env : Env) (pd : ProductCreate.t)
    (current_user : User.t) (w : World) :
  create_product env pd current_user w =
  if negb (User.role current_user =? "admin")%string
  then (Raise AdminRequired, w)
  else
    match Coll.find_one (by_sku (ProductCreate.sku pd))
            (DB.products (db w)) with
    | Some _ => (Raise (HTTPException 400 "SKU already exists"), w)
    | None =>
        if ProductCreate.encodable pd
        then
          (Ok (created_product env pd (draws w)),
           {| db := DB.with_products
                      (Coll.insert_one (created_product env pd (draws w)))
                      (db w);
              draws := S (S (S (draws w))) |})
        else
          (Raise OverflowError,
           {| db := db w; draws := S (S (S (draws w))) |})
    end.
Proof.
  unfold create_product, admin_only, bind.
  destruct (negb (User.role current_user =? "admin")%string);
    [reflexivity|].
  cbn. fold (by_sku (ProductCreate.sku pd)).
  destruct (Coll.find_one _ (DB.products (db w))); [reflexivity|].
  unfold Product.encodable, ProductCreate.encodable; cbn.
  destruct (_ && _); reflexivity.
Qed.

Lemma update_product_cases (env : Env) (product_id : string)
    (pd : ProductCreate.t) (current_user : User.t) (w : World) :
  update_product env product_id pd current_user w =
  if negb (User.role current_user =? "admin")%string
  then (Raise AdminRequired, w)
  else if ProductCreate.encodable pd then
    (match Coll.find_one (by_product_id product_id)
             (DB.products (db w)) with
     | Some _ =>
         Ok (Coll.find_one (by_product_id product_id)
               (Coll.update_one (by_product_id product_id) (set_product pd)
                  (DB.products (db w))))
     | None => Raise (HTTPException 404 "Product not found")
     end,
     {| db := DB.with_products
                (Coll.update_one (by_product_id product_id) (set_product pd))
                (db w);
        draws := S (draws w) |})
  else (Raise OverflowError, {| db := db w; draws := S (draws w) |}).
Proof.
  unfold update_product, admin_only, bind.
  destruct (negb (User.role current_user =? "admin")%string);
    [reflexivity|].
  cbn. destruct (ProductCreate.encodable pd); [|reflexivity].
  cbn. fold (by_product_id product_id).
  destruct (Coll.find_one _ (DB.products (db w))); reflexivity.
Qed.

(** X19. The five admin endpoints refuse everyone whose role is not
    exactly "admin" with status 403, before they draw, read or write:
    approving a user, listing the pending users, listing all users,
    creating a product and updating a product leave the world as it
    was. *)
Theorem admin_endpoints_refuse_other_roles (env : Env) (user : User.t)
    (w : World) :
  User.role user <> "admin" ->
  (forall i, approve_user env i user w = (Raise AdminRequired, w)) /\
  get_pending_users user w = (Raise AdminRequired, w) /\
  get_all_users user w = (Raise AdminRequired, w) /\
  (forall pd, create_product env pd user w = (Raise AdminRequired, w)) /\
  (forall i pd, update_product env i pd user w = (Raise AdminRequired, w)).
Proof.
  intros Hrole. apply String.eqb_neq in Hrole.
  split; [|split; [|split; [|split]]].
  - intros i. now rewrite approve_user_cases, Hrole.
  - unfold get_pending_users, admin_only, bind. now rewrite Hrole.
  - unfold get_all_users, admin_only, bind. now rewrite Hrole.
  - intros pd. now rewrite create_product_cases, Hrole.
  - intros i pd. now rewrite update_product_cases, Hrole.
Qed.

Lemma admin_endpoints_refuse_other_roles_witness :
  (forall i, approve_user Sample.env i Sample.cashier Demo.world
             = (Raise AdminRequired, Demo.world)) /\
  get_pending_users Sample.cashier Demo.world
  = (Raise AdminRequired, Demo.world) /\
  get_all_users Sample.cashier Demo.world
  = (Raise AdminRequired, Demo.world) /\
  (forall pd, create_product Sample.env pd Sample.cashier Demo.world
              = (Raise AdminRequired, Demo.world)) /\
  (forall i pd, update_product Sample.env i pd Sample.cashier Demo.world
                = (Raise AdminRequired, Demo.world)).
Proof.
  apply (admin_endpoints_refuse_other_roles Sample.env Sample.cashier
           Demo.world).
  discriminate.
Defined.

Lemma same_or_approved_refl (u : User.t) : same_or_approved u u.
Proof. unfold same_or_approved. intuition. Qed.

(** X20. An admin's approval marks the one user its id selects and
    nothing else: that user is approved afterwards with every other field
    as it was, every other id selects what it selected, no user loses an
    approval, and the other collections are unchanged.  An id that selects
    no user is answered with status 404 and the store is as it was. *)
Theorem approval_marks_one_user (env : Env) (i : string) (admin : User.t)
    (w : World) :
  User.role admin = "admin" ->
  (forall u,
     Coll.find_one (by_user_id i) (DB.users (db w)) = Some u ->
     exists w',
       approve_user env i admin w = (Ok "User approved successfully", w') /\
       Coll.find_one (by_user_id i) (DB.users (db w'))
       = Some (set_approved u) /\
       (forall j, j <> i ->
          Coll.find_one (by_user_id j) (DB.users (db w'))
          = Coll.find_one (by_user_id j) (DB.users (db w))) /\
       Forall2 same_or_approved (DB.users (db w)) (DB.users (db w')) /\
       DB.products (db w') = DB.products (db w) /\
       DB.customers (db w') = DB.customers (db w) /\
       DB.orders (db w') = DB.orders (db w) /\
       DB.inventory_movements (db w') = DB.inventory_movements (db w)) /\
  (Coll.find_one (by_user_id i) (DB.users (db w)) = None ->
   exists w',
     approve_user env i admin w
     = (Raise (HTTPException 404 "User not found"), w') /\
     db w' = db w).
Proof.
  intros Hadmin. rewrite approve_user_cases, Hadmin, String.eqb_refl.
  cbn [negb]. split.
  - intros u Hu. rewrite Hu. eexists. split; [reflexivity|].
    cbn [db DB.users DB.products DB.customers DB.orders
         DB.inventory_movements].
    split; [|split; [|split]].
    + rewrite find_one_update_one_same by auto. now rewrite Hu.
    + intros j Hj. apply find_one_update_one_other;
        intros x Hx; unfold by_user_id in *; cbn;
        apply String.eqb_eq in Hx; apply String.eqb_neq; congruence.
    + apply update_one_Forall2; [exact same_or_approved_refl|].
      intros x _. unfold same_or_approved; cbn. intuition.
    + repeat split.
  - intros Hnone. rewrite Hnone. eexists. split; [reflexivity|].
    cbn [db]. rewrite (update_one_no_match _ _ _ Hnone). apply db_eta.
Qed.

Lemma approval_marks_one_user_witness :
  let w1 := snd (register_user Sample.env Demo.lib Demo.newcomer Demo.world) in
  let i := env_uuid4 Sample.env 0 in
  let u := registered_user Sample.env Demo.lib Demo.newcomer 0 in
  (User.is_approved u = false /\
   exists w',
     approve_user Sample.env i Demo.admin w1
     = (Ok "User approved successfully", w') /\
     Coll.find_one (by_user_id i) (DB.users (db w')) = Some (set_approved u) /\
     User.is_approved (set_approved u) = true /\
     Coll.find_one (by_user_id "u-1") (DB.users (db w'))
     = Coll.find_one (by_user_id "u-1") (DB.users (db w1)) /\
     DB.products (db w') = DB.products (db w1)) /\
  (exists w',
     approve_user Sample.env "u-404" Demo.admin Demo.world
     = (Raise (HTTPException 404 "User not found"), w') /\
     db w' = db Demo.world).
Proof.
  cbv zeta. split.
  - split; [reflexivity|].
    destruct (proj1 (approval_marks_one_user Sample.env
                       (env_uuid4 Sample.env 0) Demo.admin
                       (snd (register_user Sample.env Demo.lib Demo.newcomer
                               Demo.world)) eq_refl)
                (registered_user Sample.env Demo.lib Demo.newcomer 0)
                eq_refl)
      as (w' & Hrun & Hfound & Hothers & _ & Hproducts & _).
    exists w'. split; [exact Hrun|]. split; [exact Hfound|].
    split; [reflexivity|]. split; [|exact Hproducts].
    apply Hothers. discriminate.
  - apply (proj2 (approval_marks_one_user Sample.env "u-404" Demo.admin
                    Demo.world eq_refl)).
    reflexivity.
Defined.

(** X21. A token that [login_user] issued authenticates a user with the
    id it was issued for, given that the token decodes to that id: the
    world is left as it is, and approval is not looked at again. *)
Theorem issued_token_authenticates (env : Env) (lib : Lib)
    (ld : UserLogin.t) (w w' : World) (resp : LoginResponse.t) :
  login_user env lib ld w = (Ok resp, w') ->
  lib_jwt_decode lib (LoginResponse.access_token resp)
  = Some (Some (LoginResponse.user_id resp)) ->
  exists u,
    get_current_user lib (LoginResponse.access_token resp) w' = (Ok u, w') /\
    User.id u = LoginResponse.user_id resp.
Proof.
  intros Hrun Hdec. rewrite login_user_cases in Hrun.
  destruct (Coll.find_one _ (DB.users (db w))) as [u0|] eqn:Hfind;
    [|discriminate].
  destruct (negb (_ =? User.pin u0)%string); [discriminate|].
  destruct (negb (User.is_approved u0)); [discriminate|].
  injection Hrun as <- <-. cbn [LoginResponse.access_token
    LoginResponse.user_id] in *.
  unfold get_current_user. rewrite Hdec. unfold bind, query. cbn [db].
  fold (by_user_id (User.id u0)).
  destruct (Coll.find_one (by_user_id (User.id u0)) (DB.users (db w)))
    as [u|] eqn:Hu.
  - exists u. split; [reflexivity|].
    apply find_some in Hu as [_ Hu]. now apply String.eqb_eq in Hu.
  - exfalso. apply find_some in Hfind as [Hin _].
    pose proof (proj1 (find_one_some_iff_not_all _ _) Hu u0 Hin) as Hq.
    unfold by_user_id in Hq. now rewrite String.eqb_refl in Hq.
Qed.

Lemma issued_token_authenticates_witness :
  let r := login_user Sample.env Demo.lib (UserLogin.mk "admin" "1234")
             Demo.world in
  exists u,
    get_current_user Demo.lib "jwt:u-0" (snd r) = (Ok u, snd r) /\
    User.id u = "u-0".
Proof.
  cbv zeta.
  apply (issued_token_authenticates Sample.env Demo.lib
           (UserLogin.mk "admin" "1234") Demo.world _
           (LoginResponse.mk "jwt:u-0" "bearer" "u-0" "admin"
              "System Administrator" "admin"));
    reflexivity.
Defined.

(* ================================================================== *)
(** ** The catalog *)

Lemma In_update_one_kept {A : Type} (q : A -> bool) (f : A -> A)
    (l : list A) (x : A) :
  In x l -> q x = false -> In x (Coll.update_one q f l).
Proof.
  induction l as [|a l IH]; cbn; [contradiction|].
  intros [<-|Hx] Hq.
  - rewrite Hq. now left.
  - destruct (q a); right; auto.
Qed.

Lemma In_update_one_new {A : Type} (q : A -> bool) (f : A -> A)
    (l : list A) (p : A) :
  Coll.find_one q l = Some p -> In (f p) (Coll.update_one q f l).
Proof.
  unfold Coll.find_one.
  induction l as [|a l IH]; cbn; [discriminate|].
  destruct (q a); [intros [= <-]; now left | right; auto].
Qed.

(** X22. Creating products keeps SKUs unique and refuses a taken one
    without writing: for an admin, a SKU that a stored product has is
    answered with "SKU already exists" and the world is as it was; and
    whoever calls and whatever the outcome, SKUs that were pairwise
    distinct before the call are so after it. *)
Theorem product_creation_keeps_skus_unique (env : Env)
    (pd : ProductCreate.t) (user : User.t) (w : World) :
  (User.role user = "admin" ->
   forall p, In p (DB.products (db w)) ->
             Product.sku p = ProductCreate.sku pd ->
             create_product env pd user w
             = (Raise (HTTPException 400 "SKU already exists"), w)) /\
  (NoDup (map Product.sku (DB.products (db w))) ->
   NoDup (map Product.sku
            (DB.products (db (snd (create_product env pd user w)))))).
Proof.
  rewrite create_product_cases.
  destruct (negb (User.role user =? "admin")%string) eqn:Hrole.
  - split; [|trivial]. intros Hadmin. rewrite Hadmin in Hrole. discriminate.
  - destruct (Coll.find_one _ (DB.products (db w))) as [p0|] eqn:Hfind.
    + split; [reflexivity | trivial].
    + pose proof (proj1 (find_one_some_iff_not_all _ _) Hfind) as Hnone.
      split.
      * intros _ p Hp Hsku. specialize (Hnone p Hp).
        unfold by_sku in Hnone. apply String.eqb_neq in Hnone.
        contradiction.
      * intros Hnd. destruct (ProductCreate.encodable pd); [|exact Hnd].
        cbn. unfold Coll.insert_one. rewrite map_app. cbn.
        apply NoDup_app; [exact Hnd | repeat constructor; intros [] |].
        intros k Hk [<-|[]]. apply in_map_iff in Hk as (p & Hsku & Hp).
        specialize (Hnone p Hp). unfold by_sku in Hnone.
        apply String.eqb_neq in Hnone. contradiction.
Qed.

Lemma product_creation_keeps_skus_unique_witness :
  NoDup (map Product.sku
           (DB.products
              (db (snd (create_product Sample.env Demo.tea Demo.admin
                          Demo.world))))).
Proof.
  apply (proj2 (product_creation_keeps_skus_unique Sample.env Demo.tea
                  Demo.admin Demo.world)).
  repeat constructor; cbn; intuition discriminate.
Defined.

Lemma update_one_duplicates {A B : Type} (q : A -> bool) (f : A -> A)
    (g : A -> B) (l : list A) (p x : A) :
  Coll.find_one q l = Some p -> In x l -> q x = false ->
  g (f p) = g x ->
  ~ NoDup (map g (Coll.update_one q f l)).
Proof.
  intros Hfind Hx Hq Hg.
  induction l as [|a l IH]; [contradiction|].
  cbn in Hfind |- *. destruct (q a) eqn:Ha.
  - injection Hfind as <-. destruct Hx as [<-|Hx]; [congruence|].
    cbn. intros Hnd. inversion Hnd as [|? ? Hnotin _]; subst.
    apply Hnotin. rewrite Hg. now apply in_map.
  - cbn. intros Hnd. inversion Hnd as [|? ? Hnotin Hnd']; subst.
    destruct Hx as [<-|Hx].
    + apply Hnotin. rewrite <- Hg. apply in_map.
      now apply In_update_one_new.
    + now apply IH.
Qed.

(** X23. Updating a product does not check the SKU: an admin's update
    that gives a stored product the SKU of another stored product, with
    integers that fit 8 bytes, returns, and the SKUs of the catalog are no
    longer pairwise distinct. *)
Theorem product_update_can_duplicate_a_sku (env : Env) (i : string)
    (pd : ProductCreate.t) (admin : User.t) (w : World) (p other : Product.t) :
  User.role admin = "admin" ->
  ProductCreate.encodable pd = true ->
  Coll.find_one (by_product_id i) (DB.products (db w)) = Some p ->
  In other (DB.products (db w)) ->
  Product.id other <> i ->
  ProductCreate.sku pd = Product.sku other ->
  exists r w',
    update_product env i pd admin w = (Ok r, w') /\
    ~ NoDup (map Product.sku (DB.products (db w'))).
Proof.
  intros Hadmin Henc Hfind Hother Hid Hsku.
  rewrite update_product_cases, Hadmin, String.eqb_refl, Henc. cbn [negb].
  rewrite Hfind. eexists. eexists. split; [reflexivity|].
  cbn [db DB.with_products DB.products].
  apply (update_one_duplicates _ _ Product.sku _ p other Hfind Hother).
  - unfold by_product_id. now apply String.eqb_neq.
  - exact Hsku.
Qed.

Lemma product_update_can_duplicate_a_sku_witness :
  exists r w',
    update_product Sample.env "P2"
      (ProductCreate.mk "Muffin" 275 "Bakery" "COF-001" None 40 5 None)
      Demo.admin Demo.world = (Ok r, w') /\
    ~ NoDup (map Product.sku (DB.products (db w'))).
Proof.
  apply (product_update_can_duplicate_a_sku Sample.env "P2"
           (ProductCreate.mk "Muffin" 275 "Bakery" "COF-001" None 40 5 None)
           Demo.admin Demo.world Sample.muffin Sample.espresso).
  - reflexivity.
  - reflexivity.
  - reflexivity.
  - left. reflexivity.
  - discriminate.
  - reflexivity.
Defined.

(** X24. An admin's update of a stored product, with integers that fit
    8 bytes, returns the document as it is stored afterwards: the
    request's fields, the stock included (whatever the sales had made of
    it), under the id and the active flag the product had; every other id
    selects what it selected and the other collections are unchanged.  An
    id that selects no product is answered with status 404 and the store
    is as it was.  With an integer that does not fit 8 bytes the update
    raises [OverflowError], whatever the id, and the store is as it
    was. *)
Theorem product_update_round_trip (env : Env) (i : string)
    (pd : ProductCreate.t) (admin : User.t) (w : World) :
  User.role admin = "admin" ->
  (ProductCreate.encodable pd = true ->
   forall p,
     Coll.find_one (by_product_id i) (DB.products (db w)) = Some p ->
     exists w',
       update_product env i pd admin w = (Ok (Some (set_product pd p)), w') /\
       Coll.find_one (by_product_id i) (DB.products (db w'))
       = Some (set_product pd p) /\
       Product.id (set_product pd p) = i /\
       Product.is_active (set_product pd p) = Product.is_active p /\
       stock_of i (DB.products (db w'))
       = Some (ProductCreate.stock_quantity pd) /\
       (forall j, j <> i ->
          Coll.find_one (by_product_id j) (DB.products (db w'))
          = Coll.find_one (by_product_id j) (DB.products (db w))) /\
       DB.users (db w') = DB.users (db w) /\
       DB.customers (db w') = DB.customers (db w) /\
       DB.orders (db w') = DB.orders (db w) /\
       DB.inventory_movements (db w') = DB.inventory_movements (db w)) /\
  (ProductCreate.encodable pd = true ->
   Coll.find_one (by_product_id i) (DB.products (db w)) = None ->
   exists w',
     update_product env i pd admin w
     = (Raise (HTTPException 404 "Product not found"), w') /\
     db w' = db w) /\
  (ProductCreate.encodable pd = false ->
   exists w',
     update_product env i pd admin w = (Raise OverflowError, w') /\
     db w' = db w).
Proof.
  intros Hadmin. rewrite update_product_cases, Hadmin, String.eqb_refl.
  cbn [negb]. split; [|split].
  - intros -> p Hp. rewrite Hp.
    assert (Hnew :
      Coll.find_one (by_product_id i)
        (Coll.update_one (by_product_id i) (set_product pd)
           (DB.products (db w))) = Some (set_product pd p)).
    { rewrite find_one_update_one_same by auto. now rewrite Hp. }
    rewrite Hnew. eexists. split; [reflexivity|].
    cbn [db DB.with_products DB.users DB.products DB.customers DB.orders
         DB.inventory_movements].
    split; [exact Hnew|]. split.
    { apply find_some in Hp as [_ Hp]. cbn. now apply String.eqb_eq in Hp. }
    split; [reflexivity|]. split.
    { unfold stock_of. now rewrite Hnew. }
    split; [|repeat split].
    intros j Hj. apply find_one_update_one_other;
      intros x Hx; unfold by_product_id in *; cbn;
      apply String.eqb_eq in Hx; apply String.eqb_neq; congruence.
  - intros -> Hnone. rewrite Hnone. eexists. split; [reflexivity|].
    cbn [db]. unfold DB.with_products.
    rewrite (update_one_no_match _ _ _ Hnone). apply db_eta.
  - intros ->. eexists. split; reflexivity.
Qed.

Lemma product_update_round_trip_witness :
  let pd := ProductCreate.mk "Espresso" 375 "Coffee" "COF-001" None 12 5 None in
  let wide :=
    ProductCreate.mk "Espresso" (2 ^ 63) "Coffee" "COF-001" None 12 5 None in
  (exists w',
     update_product Sample.env "P1" pd Demo.admin Demo.world
     = (Ok (Some (set_product pd Sample.espresso)), w') /\
     stock_of "P1" (DB.products (db w')) = Some 12) /\
  (exists w',
     update_product Sample.env "P404" pd Demo.admin Demo.world
     = (Raise (HTTPException 404 "Product not found"), w') /\
     db w' = db Demo.world) /\
  (exists w',
     update_product Sample.env "P1" wide Demo.admin Demo.world
     = (Raise OverflowError, w') /\
     db w' = db Demo.world).
Proof.
  cbv zeta. split; [|split].
  - destruct (proj1 (product_update_round_trip Sample.env "P1"
                       (ProductCreate.mk "Espresso" 375 "Coffee" "COF-001"
                          None 12 5 None) Demo.admin Demo.world eq_refl)
                eq_refl Sample.espresso eq_refl)
      as (w' & Hrun & _ & _ & _ & Hstock & _).
    exists w'. split; assumption.
  - exact (proj1 (proj2 (product_update_round_trip Sample.env "P404"
                           (ProductCreate.mk "Espresso" 375 "Coffee"
                              "COF-001" None 12 5 None) Demo.admin Demo.world
                           eq_refl)) eq_refl eq_refl).
  - exact (proj2 (proj2 (product_update_round_trip Sample.env "P1"
                           (ProductCreate.mk "Espresso" (2 ^ 63) "Coffee"
                              "COF-001" None 12 5 None) Demo.admin Demo.world
                           eq_refl)) eq_refl).
Defined.

(** X25. Selling a product down to its minimum puts it on the low-stock
    list: after a returning order, an active stored product whose stock
    less the units ordered of it is at or below its minimum level is
    listed by [get_low_stock_products], with that stock. *)
Theorem sold_down_product_is_listed_low (env : Env) (od : OrderCreate.t)
    (user viewer : User.t) (w w' : World) (order : Order.t) (i : string)
    (p : Product.t) :
  create_order env od user w = (Ok order, w') ->
  Coll.find_one (by_product_id i) (DB.products (db w)) = Some p ->
  Product.is_active p = true ->
  Product.stock_quantity p - ordered_quantity i (OrderCreate.items od)
  <= Product.min_stock_level p ->
  exists l p',
    get_low_stock_products viewer w' = (Ok l, w') /\
    In p' l /\
    Product.id p' = i /\
    Product.stock_quantity p'
    = Product.stock_quantity p - ordered_quantity i (OrderCreate.items od).
Proof.
  intros Hrun Hp Hact Hlow.
  destruct (create_order_returns _ _ _ _ _ _ Hrun) as (tax & _ & Hdb).
  unfold get_low_stock_products, query. rewrite Hdb. cbn [DB.products].
  destruct (Forall2_find_one same_but_stock (by_product_id i) _ _
              (fun a b (H : same_but_stock a b) =>
                 f_equal (fun s => (s =? i)%string) (proj1 H))
              (decrement_stock_same_but_stock (OrderCreate.items od)
                 (DB.products (db w))) p Hp)
    as (p' & Hp' & Hsame).
  pose proof (stock_of_decrement_stock i (OrderCreate.items od)
                (DB.products (db w))) as Hstock.
  unfold stock_of in Hstock. rewrite Hp, Hp' in Hstock. cbn in Hstock.
  injection Hstock as Hstock.
  eexists. exists p'. split; [reflexivity|].
  destruct Hsame as (_ & _ & _ & _ & _ & _ & Hmin & _ & Hactive).
  apply find_some in Hp' as [Hin Hid]. split; [|split].
  - apply filter_In. split; [exact Hin|].
    unfold is_low_stock. rewrite Hactive, Hact, Hmin, Hstock. cbn.
    now apply Z.leb_le.
  - now apply String.eqb_eq in Hid.
  - exact Hstock.
Qed.

Lemma sold_down_product_is_listed_low_witness :
  let od :=
    OrderCreate.mk None [Sample.line Sample.muffin 35] "card" 0 None in
  let w' := snd (create_order Sample.env od Sample.cashier Sample.world) in
  exists l p',
    get_low_stock_products Sample.cashier w' = (Ok l, w') /\
    In p' l /\ Product.id p' = "P2" /\ Product.stock_quantity p' = 40 - 35.
Proof.
  cbv zeta.
  set (od := OrderCreate.mk None [Sample.line Sample.muffin 35] "card" 0
               None).
  assert (Hrun :
    create_order Sample.env od Sample.cashier Sample.world
    = (Ok (placed_order Sample.env od Sample.cashier Sample.store 0 770),
       snd (create_order Sample.env od Sample.cashier Sample.world)))
    by (vm_compute; reflexivity).
  apply (sold_down_product_is_listed_low Sample.env od Sample.cashier
           Sample.cashier Sample.world _ _ "P2" Sample.muffin Hrun);
    vm_compute; try reflexivity. discriminate.
Defined.

Lemma search_pattern_run (lib : Lib) (search : option string) (w : World) :
  search_pattern lib search w =
  match search with
  | Some s =>
      if negb (s =? "")%string then
        match lib_regex_compile lib s with
        | Some m => (Ok (Some m), w)
        | None => (Raise OperationFailure, w)
        end
      else (Ok None, w)
  | None => (Ok None, w)
  end.
Proof.
  unfold search_pattern. destruct search as [s|]; cbn; [|reflexivity].
  destruct (negb (s =? "")%string); [|reflexivity].
  destruct (lib_regex_compile lib s); reflexivity.
Qed.

(** X26. The product listing shows active products only and does not
    write.  Whatever the filters and whether it returns or raises, the
    world is as it was; every product of a returned list is a stored
    product that is active; a non-empty category admits the products of
    exactly that category; with no category and no search term, or empty
    ones, the list is every active product.  The call raises only for a
    search term that is no regular expression. *)
Theorem product_listing_shows_active_only (lib : Lib)
    (category search : option string) (user : User.t) (w : World) :
  snd (get_products lib category search user w) = w /\
  (truthy_str category = false -> truthy_str search = false ->
   get_products lib category search user w
   = (Ok (filter Product.is_active (DB.products (db w))), w)) /\
  (forall l w',
     get_products lib category search user w = (Ok l, w') ->
     Forall (fun p => In p (DB.products (db w)) /\ Product.is_active p = true)
       l /\
     (forall c, category = Some c -> c <> "" ->
                Forall (fun p => Product.category p = c) l)) /\
  (forall e w',
     get_products lib category search user w = (Raise e, w') ->
     e = OperationFailure /\
     exists s, search = Some s /\ lib_regex_compile lib s = None).
Proof.
  unfold get_products, bind. rewrite search_pattern_run.
  assert (Hlist : forall pattern l w',
            query (fun d => filter (product_query category pattern)
                              (DB.products d)) w = (Ok l, w') ->
            Forall (fun p => In p (DB.products (db w))
                             /\ Product.is_active p = true) l /\
            (forall c, category = Some c -> c <> "" ->
                       Forall (fun p => Product.category p = c) l)).
  { intros pattern l w' [= <- _]. split.
    - apply Forall_forall. intros p Hp. apply filter_In in Hp as [Hin Hq].
      split; [exact Hin|]. unfold product_query in Hq.
      now apply andb_prop in Hq as [Hq _]; apply andb_prop in Hq as [Hq _].
    - intros c -> Hc. apply Forall_forall. intros p Hp.
      apply filter_In in Hp as [_ Hq]. unfold product_query in Hq.
      apply andb_prop in Hq as [Hq _]. apply andb_prop in Hq as [_ Hq].
      cbn in Hq. apply String.eqb_neq in Hc. rewrite Hc in Hq. cbn in Hq.
      now apply String.eqb_eq. }
  assert (Hall : truthy_str category = false ->
            filter (product_query category None) (DB.products (db w))
            = filter Product.is_active (DB.products (db w))).
  { intros Hc. apply filter_ext. intros p. unfold product_query.
    rewrite Hc. now rewrite !andb_true_r. }
  destruct search as [s|]; cbn [truthy_str].
  - destruct (negb (s =? "")%string) eqn:Hs.
    + destruct (lib_regex_compile lib s) as [m|] eqn:Hm.
      * split; [reflexivity|]. split; [discriminate|].
        split; [apply Hlist | discriminate].
      * split; [reflexivity|]. split; [discriminate|].
        split; [discriminate|]. intros e w' [= <- _]. eauto.
    + split; [reflexivity|]. split.
      * intros Hc _. unfold query. now rewrite Hall.
      * split; [apply Hlist | discriminate].
  - split; [reflexivity|]. split.
    + intros Hc _. unfold query. now rewrite Hall.
    + split; [apply Hlist | discriminate].
Qed.

(** The category list names each category of an active product once, and
    nothing else; the call does not write. *)
Lemma categories_are_those_of_active_products (user : User.t)
    (w : World) :
  exists l,
    get_product_categories user w = (Ok l, w) /\
    NoDup l /\
    forall c,
      In c l <->
      exists p, In p (DB.products (db w)) /\ Product.is_active p = true /\
                Product.category p = c.
Proof.
  unfold get_product_categories, query. eexists. split; [reflexivity|].
  split; [apply NoDup_nodup|].
  intros c. rewrite nodup_In, in_map_iff. split.
  - intros (p & Hc & Hp). apply filter_In in Hp as [Hin Hact]. eauto.
  - intros (p & Hin & Hact & Hc). exists p. split; [exact Hc|].
    apply filter_In. auto.
Qed.

(* ================================================================== *)
(** ** Customers *)

Lemma create_customer_run (env : Env) (cd : CustomerCreate.t)
    (user : User.t) (w : World) :
  create_customer env cd user w =
  (Ok (created_customer env cd (draws w)),
   {| db := DB.with_customers
              (Coll.insert_one (created_customer env cd (draws w))) (db w);
      draws := S (S (S (draws w))) |}).
Proof. reflexivity. Qed.

(** X28. A new customer starts from zero and can be sold to at once:
    [create_customer] returns, for any caller, a customer with no points
    and nothing spent, stored last; and when no customer stored before had
    the id it was given, an order created afterwards for that id carries
    the new customer's name. *)
Theorem new_customer_can_be_sold_to (env : Env) (cd : CustomerCreate.t)
    (user cashier : User.t) (od : OrderCreate.t) (w w1 w2 : World)
    (c : Customer.t) (order : Order.t) :
  create_customer env cd user w = (Ok c, w1) ->
  Coll.find_one (by_customer_id (Customer.id c)) (DB.customers (db w))
  = None ->
  Customer.id c <> "" ->
  OrderCreate.customer_id od = Some (Customer.id c) ->
  create_order env od cashier w1 = (Ok order, w2) ->
  Customer.loyalty_points c = 0 /\
  Customer.total_spent c = 0 /\
  DB.customers (db w1) = (DB.customers (db w) ++ [c])%list /\
  Order.customer_name order = Some (CustomerCreate.name cd).
Proof.
  intros Hc Hfresh Hne Hod Hrun. rewrite create_customer_run in Hc.
  injection Hc as <- <-.
  destruct (create_order_returns _ _ _ _ _ _ Hrun) as (tax & -> & _).
  cbn [Customer.loyalty_points Customer.total_spent created_customer db
       DB.with_customers DB.customers Order.customer_name placed_order].
  repeat split.
  unfold customer_name_of. rewrite Hod.
  apply String.eqb_neq in Hne. rewrite Hne. cbn [negb db DB.customers
    DB.with_customers].
  unfold Coll.insert_one. rewrite find_one_app, Hfresh. cbn.
  unfold by_customer_id; cbn. now rewrite String.eqb_refl.
Qed.

Lemma new_customer_can_be_sold_to_witness :
  let c := created_customer Sample.env Demo.walk_in 0 in
  let w1 := snd (create_customer Sample.env Demo.walk_in Sample.cashier
                   Demo.world) in
  let od :=
    OrderCreate.mk (Some (Customer.id c)) [Sample.line Sample.espresso 1]
      "cash" 0 None in
  Customer.loyalty_points c = 0 /\
  Customer.total_spent c = 0 /\
  DB.customers (db w1) = (DB.customers (db Demo.world) ++ [c])%list /\
  Order.customer_name
    (placed_order Sample.env od Sample.cashier (db w1) 3 28)
  = Some "Carol".
Proof.
  cbv zeta.
  apply (new_customer_can_be_sold_to Sample.env Demo.walk_in Sample.cashier
           Sample.cashier
           (OrderCreate.mk
              (Some (Customer.id (created_customer Sample.env Demo.walk_in 0)))
              [Sample.line Sample.espresso 1] "cash" 0 None)
           Demo.world _
           (snd (create_order Sample.env
                   (OrderCreate.mk
                      (Some (Customer.id
                               (created_customer Sample.env Demo.walk_in 0)))
                      [Sample.line Sample.espresso 1] "cash" 0 None)
                   Sample.cashier
                   (snd (create_customer Sample.env Demo.walk_in
                           Sample.cashier Demo.world)))));
    try (vm_compute; reflexivity).
  vm_compute. discriminate.
Defined.

(* ================================================================== *)
(** ** Nothing is ever removed *)

Lemma extends_refl {A : Type} (l : list A) : extends l l.
Proof. exists []. now rewrite app_nil_r. Qed.

Lemma extends_trans {A : Type} (l1 l2 l3 : list A) :
  extends l1 l2 -> extends l2 l3 -> extends l1 l3.
Proof.
  intros [r1 ->] [r2 ->]. exists (r1 ++ r2)%list. now rewrite app_assoc.
Qed.

Lemma extends_map_app {A B : Type} (f : A -> B) (l r : list A) :
  extends (map f l) (map f (l ++ r)).
Proof. exists (map f r). apply map_app. Qed.

Lemma map_update_one {A B : Type} (g : A -> B) (q : A -> bool) (f : A -> A)
    (l : list A) :
  (forall x, g (f x) = g x) ->
  map g (Coll.update_one q f l) = map g l.
Proof.
  intros Hg. induction l as [|a l IH]; cbn; [reflexivity|].
  destruct (q a); cbn; [now rewrite Hg | now rewrite IH].
Qed.

Lemma keeps_documents_refl (d : DB.t) : keeps_documents d d.
Proof. unfold keeps_documents. repeat split; apply extends_refl. Qed.

Lemma keeps_documents_trans (d1 d2 d3 : DB.t) :
  keeps_documents d1 d2 -> keeps_documents d2 d3 -> keeps_documents d1 d3.
Proof.
  unfold keeps_documents.
  intros (H1 & H2 & H3 & H4 & H5) (K1 & K2 & K3 & K4 & K5).
  repeat split; eapply extends_trans; eassumption.
Qed.

Lemma decrement_stock_ids (items : list OrderItem.t) (ps : list Product.t) :
  map Product.id (decrement_stock items ps) = map Product.id ps.
Proof.
  unfold decrement_stock. revert ps.
  induction items as [|it items IH]; intros ps; cbn; [reflexivity|].
  rewrite IH. now apply map_update_one.
Qed.

Lemma serve_keeps_documents (env : Env) (lib : Lib) (c : call) (w : World) :
  keeps_documents (db w) (db (serve env lib c w)).
Proof.
  destruct c; cbn [serve].
  - (* register_user *)
    rewrite register_user_cases.
    destruct (Coll.find_one _ (DB.users (db w)));
      [apply keeps_documents_refl|].
    unfold keeps_documents; cbn.
    repeat split; try apply extends_refl. apply extends_map_app.
  - (* login_user *)
    rewrite login_user_cases.
    destruct (Coll.find_one _ (DB.users (db w))) as [u|];
      [|apply keeps_documents_refl].
    destruct (negb (_ =? _)%string); [apply keeps_documents_refl|].
    destruct (negb (User.is_approved u)); apply keeps_documents_refl.
  - (* get_current_user *)
    unfold get_current_user, bind, query.
    destruct (lib_jwt_decode lib credentials) as [[i|]|]; cbn;
      try apply keeps_documents_refl.
    destruct (Coll.find_one _ _); apply keeps_documents_refl.
  - (* get_pending_users *)
    unfold get_pending_users, admin_only, bind.
    destruct (negb _); apply keeps_documents_refl.
  - (* approve_user *)
    rewrite approve_user_cases.
    destruct (negb _); [apply keeps_documents_refl|].
    unfold keeps_documents; cbn.
    rewrite map_update_one by reflexivity.
    repeat split; apply extends_refl.
  - (* get_all_users *)
    unfold get_all_users, admin_only, bind.
    destruct (negb _); apply keeps_documents_refl.
  - (* create_product *)
    rewrite create_product_cases.
    destruct (negb _); [apply keeps_documents_refl|].
    destruct (Coll.find_one _ (DB.products (db w)));
      [apply keeps_documents_refl|].
    destruct (ProductCreate.encodable _); [|apply keeps_documents_refl].
    unfold keeps_documents; cbn.
    repeat split; try apply extends_refl. apply extends_map_app.
  - (* get_products *)
    unfold get_products, bind. rewrite search_pattern_run.
    destruct search as [s|]; [|apply keeps_documents_refl].
    destruct (negb _); [|apply keeps_documents_refl].
    destruct (lib_regex_compile lib s); apply keeps_documents_refl.
  - (* get_product_categories *)
    apply keeps_documents_refl.
  - (* update_product *)
    rewrite update_product_cases.
    destruct (negb _); [apply keeps_documents_refl|].
    destruct (ProductCreate.encodable _); [|apply keeps_documents_refl].
    unfold keeps_documents; cbn.
    rewrite map_update_one by reflexivity.
    repeat split; apply extends_refl.
  - (* get_low_stock_products *)
    apply keeps_documents_refl.
  - (* create_customer *)
    rewrite create_customer_run.
    unfold keeps_documents; cbn.
    repeat split; try apply extends_refl. apply extends_map_app.
  - (* get_customers *)
    unfold get_customers, bind. rewrite search_pattern_run.
    destruct search as [s|]; [|apply keeps_documents_refl].
    destruct (negb _); [|apply keeps_documents_refl].
    destruct (lib_regex_compile lib s); apply keeps_documents_refl.
  - (* create_order *)
    destruct (create_order_leaves env order_data current_user w)
      as (done & added & o & k & ->).
    unfold keeps_documents; cbn [DB.users DB.products DB.customers
      DB.orders DB.inventory_movements].
    rewrite decrement_stock_ids.
    repeat split; try apply extends_refl.
    + apply extends_map_app.
    + eexists; reflexivity.
  - (* get_orders *)
    rewrite get_orders_reads_only. apply keeps_documents_refl.
  - (* get_order *)
    rewrite get_order_reads_only. apply keeps_documents_refl.
  - (* process_payment *)
    destruct (process_payment_keeps_catalog env payment_data w)
      as (Hu & Hp & Hm).
    destruct (process_payment_leaves env payment_data w) as (Ho & Hc).
    unfold keeps_documents. rewrite Hu, Hp, Hm.
    split; [apply extends_refl|]. split; [apply extends_refl|].
    split; [|split; [|apply extends_refl]].
    + destruct Hc as [-> | [i ->]]; [apply extends_refl|].
      rewrite map_update_one by reflexivity. apply extends_refl.
    + destruct Ho as [-> | (pid & now & ->)]; [apply extends_refl|].
      rewrite map_update_one by reflexivity. apply extends_refl.
Qed.

(** X29. No handler removes or renames a document, and none edits the
    ledger.  Over any run of requests to any of the handlers, whether
    they return or raise, the users, the products, the customers and the
    orders stored at the start are still stored, in their places and
    under their ids, and the ledger entries stored at the start are still
    there, unchanged and in their places: the collections only grow at
    the end. *)
Theorem no_request_removes_a_document (env : Env) (lib : Lib)
    (cs : list call) (w : World) :
  keeps_documents (db w) (db (serve_all env lib cs w)).
Proof.
  revert w. induction cs as [|c cs IH]; intros w; cbn.
  - apply keeps_documents_refl.
  - eapply keeps_documents_trans; [apply serve_keeps_documents | apply IH].
Qed.

(* ================================================================== *)
(** ** The pending list and the seed script *)

(** X27. A registered employee is pending until approved: after a
    returning registration with a role other than "admin", an admin's
    pending list holds the new user; and once an admin has approved the id
    the user was given (an id no user stored before had), the pending list
    holds no user of that username. *)
Theorem registered_employee_is_pending_until_approved (env : Env)
    (lib : Lib) (ud : UserCreate.t) (admin : User.t) (w w1 : World)
    (r : RegisterResponse.t) :
  register_user env lib ud w = (Ok r, w1) ->
  UserCreate.role ud <> "admin" ->
  User.role admin = "admin" ->
  Coll.find_one (by_user_id (env_uuid4 env (draws w))) (DB.users (db w))
  = None ->
  (exists l,
     get_pending_users admin w1 = (Ok l, w1) /\
     In (registered_user env lib ud (draws w)) l) /\
  (exists w2 l',
     approve_user env (env_uuid4 env (draws w)) admin w1
     = (Ok "User approved successfully", w2) /\
     get_pending_users admin w2 = (Ok l', w2) /\
     forall u, In u l' -> User.username u <> UserCreate.username ud).
Proof.
  intros Hrun Hrole Hadmin Hfresh.
  destruct (registered_user_is_found _ _ _ _ _ _ Hrun)
    as (Hnone & _ & Husers & _).
  pose proof (proj1 (find_one_some_iff_not_all _ _) Hnone) as Hnames.
  assert (Hpending : forall w0,
            get_pending_users admin w0
            = (Ok (filter (fun u => negb (User.is_approved u))
                     (DB.users (db w0))), w0)).
  { intros w0. unfold get_pending_users, admin_only, bind, query.
    now rewrite Hadmin, String.eqb_refl. }
  split.
  - eexists. split; [apply Hpending|]. rewrite Husers.
    apply filter_In. split; [apply in_or_app; right; now left|].
    cbn. apply String.eqb_neq in Hrole. now rewrite Hrole.
  - set (i := env_uuid4 env (draws w)) in *.
    set (u := registered_user env lib ud (draws w)) in *.
    assert (Hself : by_user_id i u = true)
      by (unfold by_user_id; cbn; apply String.eqb_refl).
    pose proof (update_one_last (by_user_id i) set_approved _ u Hfresh Hself)
      as Hupd.
    eexists. eexists. split; [|split; [apply Hpending|]].
    + rewrite approve_user_cases, Hadmin, String.eqb_refl. cbn [negb].
      rewrite Husers, Hupd, find_one_app, Hfresh. cbn [Coll.find_one find].
      rewrite Hself. reflexivity.
    + cbn [db DB.users]. intros x Hx. apply filter_In in Hx as [Hx Happ].
      apply in_app_or in Hx as [Hx|[<-|[]]].
      * specialize (Hnames x Hx). unfold by_username in Hnames.
        now apply String.eqb_neq in Hnames.
      * discriminate.
Qed.

Lemma registered_employee_is_pending_until_approved_witness :
  let w1 := snd (register_user Sample.env Demo.lib Demo.newcomer Demo.world) in
  (exists l,
     get_pending_users Demo.admin w1 = (Ok l, w1) /\
     In (registered_user Sample.env Demo.lib Demo.newcomer 0) l) /\
  (exists w2 l',
     approve_user Sample.env (env_uuid4 Sample.env 0) Demo.admin w1
     = (Ok "User approved successfully", w2) /\
     get_pending_users Demo.admin w2 = (Ok l', w2) /\
     forall u, In u l' -> User.username u <> "cashier2").
Proof.
  cbv zeta.
  apply (registered_employee_is_pending_until_approved Sample.env Demo.lib
           Demo.newcomer Demo.admin Demo.world _
           (RegisterResponse.mk "User registered successfully" true));
    try reflexivity.
  discriminate.
Defined.

Lemma insert_unless_named_run (user : User.t) (w : World) :
  insert_unless_named user w =
  (Ok tt,
   match Coll.find_one (by_username (User.username user))
           (DB.users (db w)) with
   | Some _ => w
   | None =>
       {| db := DB.mk (DB.users (db w) ++ [user]) (DB.products (db w))
                  (DB.customers (db w)) (DB.orders (db w))
                  (DB.inventory_movements (db w));
          draws := draws w |}
   end).
Proof.
  unfold insert_unless_named, bind, query; cbn.
  fold (by_username (User.username user)).
  destruct (Coll.find_one _ (DB.users (db w))); reflexivity.
Qed.

(** X30. Seeding the users is repeatable and opens the admin account.
    [seed_users] returns; afterwards a user named "admin" and a user named
    "cashier1" are stored; a second run stores no further user; and when
    no user was named "admin" before the first run, a login as "admin"
    with PIN "1234" returns afterwards, with role "admin". *)
Theorem seeding_users_is_repeatable (env : Env) (lib : Lib) (w : World) :
  exists w1 w2,
    seed_users env lib w = (Ok tt, w1) /\
    seed_users env lib w1 = (Ok tt, w2) /\
    DB.users (db w2) = DB.users (db w1) /\
    (exists a c,
       Coll.find_one (by_username "admin") (DB.users (db w1)) = Some a /\
       Coll.find_one (by_username "cashier1") (DB.users (db w1)) = Some c) /\
    (Coll.find_one (by_username "admin") (DB.users (db w)) = None ->
     exists resp w3,
       login_user env lib (UserLogin.mk "admin" "1234") w1 = (Ok resp, w3) /\
       LoginResponse.role resp = "admin").
Proof.
  assert (Hrun : forall w0,
    seed_users env lib w0 =
    (Ok tt,
     snd (insert_unless_named
            (User.mk (env_uuid4 env (S (S (S (draws w0))))) "cashier1"
               (lib_sha256_hexdigest lib "5678") "employee" "John Cashier"
               true)
            (snd (insert_unless_named
                    (User.mk (env_uuid4 env (draws w0)) "admin"
                       (lib_sha256_hexdigest lib "1234") "admin"
                       "System Administrator" true)
                    {| db := db w0;
                       draws := S (S (S (S (S (S (draws w0)))))) |}))))).
  { intros w0. unfold seed_users, seed_user, bind at 1 2 3 4.
    unfold uuid4, utcnow, draw, ret, hash_pin, bind; cbn [db draws].
    rewrite !insert_unless_named_run. reflexivity. }
  set (admin0 := fun k =>
         User.mk (env_uuid4 env k) "admin" (lib_sha256_hexdigest lib "1234")
           "admin" "System Administrator" true) in *.
  set (cash0 := fun k =>
         User.mk (env_uuid4 env (S (S (S k)))) "cashier1"
           (lib_sha256_hexdigest lib "5678") "employee" "John Cashier" true)
    in *.
  (* the users after one run, from any world *)
  assert (Husers : forall w0,
    DB.users (db (snd (seed_users env lib w0))) =
    let us1 :=
      match Coll.find_one (by_username "admin") (DB.users (db w0)) with
      | Some _ => DB.users (db w0)
      | None => (DB.users (db w0) ++ [admin0 (draws w0)])%list
      end in
    match Coll.find_one (by_username "cashier1") us1 with
    | Some _ => us1
    | None => (us1 ++ [cash0 (draws w0)])%list
    end).
  { intros w0. rewrite Hrun. cbn [snd]. rewrite !insert_unless_named_run.
    cbn [snd db DB.users User.username].
    destruct (Coll.find_one (by_username "admin") (DB.users (db w0)));
      cbn [db DB.users];
      destruct (Coll.find_one (by_username "cashier1") _); reflexivity. }
  assert (Hadmin : forall w0, exists a,
    Coll.find_one (by_username "admin")
      (DB.users (db (snd (seed_users env lib w0)))) = Some a /\
    (Coll.find_one (by_username "admin") (DB.users (db w0)) = None ->
     a = admin0 (draws w0))).
  { intros w0. rewrite Husers. cbv zeta.
    destruct (Coll.find_one (by_username "admin") (DB.users (db w0)))
      as [a|] eqn:Ha.
    - exists a. split; [|discriminate].
      destruct (Coll.find_one (by_username "cashier1") _);
        [exact Ha | now rewrite find_one_app, Ha].
    - exists (admin0 (draws w0)). split; [|reflexivity].
      assert (Hnew : Coll.find_one (by_username "admin")
                       (DB.users (db w0) ++ [admin0 (draws w0)])
                     = Some (admin0 (draws w0)))
        by (rewrite find_one_app, Ha; reflexivity).
      destruct (Coll.find_one (by_username "cashier1") _);
        [exact Hnew | now rewrite find_one_app, Hnew]. }
  assert (Hcash : forall w0, exists c,
    Coll.find_one (by_username "cashier1")
      (DB.users (db (snd (seed_users env lib w0)))) = Some c).
  { intros w0. rewrite Husers. cbv zeta.
    match goal with
    | |- context [match Coll.find_one (by_username "cashier1") ?l with
                  | Some _ => _
                  | None => _
                  end] =>
        destruct (Coll.find_one (by_username "cashier1") l) as [c|] eqn:Hc
    end.
    - eauto.
    - exists (cash0 (draws w0)). now rewrite find_one_app, Hc. }
  exists (snd (seed_users env lib w)).
  exists (snd (seed_users env lib (snd (seed_users env lib w)))).
  split; [now rewrite Hrun|]. split; [now rewrite (Hrun (snd _))|].
  destruct (Hadmin w) as (a & Ha & Ha0).
  destruct (Hcash w) as (c & Hc).
  split; [|split].
  - rewrite (Husers (snd (seed_users env lib w))). cbv zeta.
    rewrite Ha, Hc. reflexivity.
  - eauto.
  - intros Hnone. rewrite login_user_cases.
    cbn [UserLogin.username UserLogin.pin]. rewrite Ha, (Ha0 Hnone).
    cbn. rewrite String.eqb_refl. cbn.
    eexists. eexists. split; reflexivity.
Qed.
